(** * AgML annotation-format conversion: a shallow embedding

    The development follows two source files of the repository:

    - [src/agml/data/utils.py]: the label registry, the image-info
      resolvers, the line-record and XML box extractors, the mask
      extractors and the two COCO assemblers;
    - [agml/synthetic/converter.py]: the Helios (synthetic) directory
      reorganizer with its cleanup on failure.

    Python values are modelled as the code uses them: exceptions are an
    explicit [result] type, a [dict] is an insertion-ordered association
    list, [None] is an [option], and the file system the reorganizer
    works on is a finite map from paths to nodes. *)

From Stdlib Require Import ZArith List String Ascii Bool Lia.
From Stdlib Require Import Sorting.Sorted.
From stdpp Require Import base option list gmap strings pretty.

Import ListNotations.
Local Open Scope Z_scope.

(** ** Python runtime: exceptions, truthiness, indexing, dicts *)

Module Py.

(** The exception classes the modelled code can raise, all of them
    subclasses of [Exception]; [CvError] is [cv2.error]. *)
Inductive exn : Type :=
| AssertionError
| AttributeError
| IndexError
| KeyError
| RuntimeError
| TypeError
| ValueError
| OverflowError
| FileNotFoundError
| FileExistsError
| IsADirectoryError
| NotADirectoryError
| OSError
| CvError.

Inductive result (A : Type) : Type :=
| Ok (a : A)
| Raise (e : exn).
Arguments Ok {A} a.
Arguments Raise {A} e.

Definition bind {A B : Type} (m : result A) (k : A -> result B) : result B :=
  match m with
  | Ok a => k a
  | Raise e => Raise e
  end.

Definition is_ok {A : Type} (m : result A) : bool :=
  match m with Ok _ => true | Raise _ => false end.

(** [try: v = m  except: v = fallback] with a bare [except]. *)
Definition try_except {A : Type} (m : result A) (fallback : A) : A :=
  match m with Ok a => a | Raise _ => fallback end.

(** [l[i]] for a non-negative index. *)
Definition index {A : Type} (l : list A) (i : nat) : result A :=
  match l !! i with
  | Some a => Ok a
  | None => Raise IndexError
  end.

(** [l[-k]] for [k >= 1]. *)
Definition index_from_end {A : Type} (l : list A) (k : nat) : result A :=
  if (k <=? length l)%nat then index l (length l - k) else Raise IndexError.

(** [if l:] on a list-or-None argument: [None] and [[]] are falsy. *)
Definition truthy_list {A : Type} (o : option (list A)) : bool :=
  match o with
  | Some (_ :: _) => true
  | _ => false
  end.

(** [s.split(sep)] for a one-character separator: never empty. *)
Fixpoint split (sep : ascii) (s : string) : list string :=
  match s with
  | EmptyString => [EmptyString]
  | String c rest =>
      if Ascii.eqb c sep then EmptyString :: split sep rest
      else match split sep rest with
           | [] => [String c EmptyString]
           | w :: ws => String c w :: ws
           end
  end.

(** [str.isdigit] on an ASCII character. *)
Definition isdigit (c : ascii) : bool :=
  let n := nat_of_ascii c in ((48 <=? n) && (n <=? 57))%nat.

(** [''.join(filter(str.isdigit, s))]. *)
Fixpoint filter_digits (s : string) : string :=
  match s with
  | EmptyString => EmptyString
  | String c rest =>
      if isdigit c then String c (filter_digits rest) else filter_digits rest
  end.

(** A [dict] with string keys: association list in insertion order,
    keys pairwise distinct. *)
Definition dict (V : Type) : Type := list (string * V).

Fixpoint dict_get {V : Type} (d : dict V) (k : string) : option V :=
  match d with
  | [] => None
  | (k', v) :: rest => if String.eqb k' k then Some v else dict_get rest k
  end.

(** [k in d]. *)
Definition dict_mem {V : Type} (d : dict V) (k : string) : bool :=
  match dict_get d k with Some _ => true | None => false end.

(** [d[k]]: raises [KeyError] on a missing key. *)
Definition dict_item {V : Type} (d : dict V) (k : string) : result V :=
  match dict_get d k with
  | Some v => Ok v
  | None => Raise KeyError
  end.

(** [d[k] = v]: an existing key keeps its position. *)
Fixpoint dict_set {V : Type} (d : dict V) (k : string) (v : V) : dict V :=
  match d with
  | [] => [(k, v)]
  | (k', v') :: rest =>
      if String.eqb k' k then (k', v) :: rest
      else (k', v') :: dict_set rest k v
  end.

(** [dict(pairs)]: later pairs overwrite earlier ones. *)
Definition dict_of_pairs {V : Type} (pairs : list (string * V)) : dict V :=
  fold_left (fun d kv => dict_set d (fst kv) (snd kv)) pairs [].

(** [zip(xs, ys)]. *)
Fixpoint zip {A B : Type} (xs : list A) (ys : list B) : list (A * B) :=
  match xs, ys with
  | x :: xs', y :: ys' => (x, y) :: zip xs' ys'
  | _, _ => []
  end.

(** [list(range(lo, lo + n))]. *)
Fixpoint range_from (lo : Z) (n : nat) : list Z :=
  match n with
  | O => []
  | S n' => lo :: range_from (lo + 1) n'
  end.

End Py.

Import Py.

Declare Scope py_scope.
Delimit Scope py_scope with py.
Notation "x <- m ;; k" := (Py.bind m (fun x => k))
  (at level 100, m at next level, right associativity) : py_scope.
Local Open Scope py_scope.

(** ** xml.etree.ElementTree elements *)

Module Xml.

#[warnings="-register-all"] Inductive element : Type :=
| Element (tag : string) (text : option string) (children : list element).

Definition tag (e : element) : string :=
  match e with Element t _ _ => t end.
Definition text (e : element) : option string :=
  match e with Element _ t _ => t end.
Definition children (e : element) : list element :=
  match e with Element _ _ c => c end.

Definition has_tag (t : string) (e : element) : bool := String.eqb (tag e) t.

(** [e.find(t)]: the first direct child with that tag. *)
Definition find (t : string) (e : element) : option element :=
  List.find (has_tag t) (children e).

(** [e.findtext(t)]: [None] when there is no such child, the empty
    string when the child has no text. *)
Definition findtext (t : string) (e : element) : option string :=
  match find t e with
  | None => None
  | Some c => Some (match text c with Some s => s | None => EmptyString end)
  end.

(** [e.findall(t)]: the direct children with that tag, in order. *)
Definition findall (t : string) (e : element) : list element :=
  List.filter (has_tag t) (children e).

(** [e.find(t).text = s]. *)
Fixpoint set_first_text (t : string) (s : string) (cs : list element)
  : option (list element) :=
  match cs with
  | [] => None
  | c :: rest =>
      if has_tag t c then Some (Element (tag c) (Some s) (children c) :: rest)
      else match set_first_text t s rest with
           | Some rest' => Some (c :: rest')
           | None => None
           end
  end.

End Xml.

(** ** src/agml/data/utils.py *)

Module Utils.

Import Xml.

(** What the module takes from the interpreter and from OpenCV:
    floating-point conversions, integer parsing, and image decoding.
    [resized] is the test [resize != 1.0]. *)
Record Env : Type := {
  float_t : Type;
  py_float : string -> result float_t;        (* float(s) *)
  mul_resize : float_t -> float_t;            (* f * resize *)
  int_of_float : float_t -> result Z;         (* int(f) *)
  py_int : string -> result Z;                (* int(s) *)
  py_str : Z -> string;                       (* str(n) *)
  resized : bool;                             (* resize != 1.0 *)
  resize_dim : Z -> Z;                        (* int(d * resize) *)
  imread : string -> option (Z * Z);          (* cv2.imread: (height, width) *)
  et_parse : string -> result element         (* ET.parse(p).getroot() *)
}.

(** The fields every extractor fills in before the assembler adds
    [image_id] and [id]. *)
Record ann_core : Type := {
  area : Z;
  iscrowd : Z;
  bbox : list Z;
  category_id : Z;
  ignore : Z;
  segmentation : list (list Z)
}.

Record annotation : Type := {
  core : ann_core;
  image_id : Z;
  id : Z
}.

(** The image dict; [img_id] is its key ['id']. *)
Record image_info : Type := {
  file_name : string;
  height : Z;
  width : Z;
  img_id : Z
}.

(** The category dict; [cat_id] is its key ['id']. *)
Record category_info : Type := {
  supercategory : string;
  cat_id : Z;
  name : string
}.

(** [output_json_dict] without the constant ['type'] and the ['info']
    that is passed through; an entry of [images] can be [None] because
    the XML assembler appends whatever the resolver returned. *)
Record bundle : Type := {
  images : list (option image_info);
  annotations : list annotation;
  categories : list category_info
}.

(** [get_label2id]: [dict(zip(labels, range(1, len(labels) + 1)))]. *)
Definition get_label2id (labels_str : list string) : dict Z :=
  dict_of_pairs (zip labels_str (range_from 1 (length labels_str))).

Section WithEnv.

Variable E : Env.

(** [int(float(s) * resize)]. *)
Definition scaled (s : string) : result Z :=
  f <- py_float E s ;; int_of_float E (mul_resize E f).

(** [int(float(t))] where [t] comes from [findtext]. *)
Definition float_int (t : option string) : result Z :=
  match t with
  | None => Raise TypeError
  | Some s => f <- py_float E s ;; int_of_float E f
  end.

(** [get_coco_annotation_from_annoline]. *)
Definition get_coco_annotation_from_annoline
    (obj : list string) (label2id : dict Z) : result ann_core :=
  t4 <- index obj 4 ;;
  category_id <- py_int E t4 ;;
  t0 <- index obj 0 ;;
  xmin <- scaled t0 ;;
  t1 <- index obj 1 ;;
  ymin <- scaled t1 ;;
  t2 <- index obj 2 ;;
  xmax <- scaled t2 ;;
  t3 <- index obj 3 ;;
  ymax <- scaled t3 ;;
  if (xmin <? xmax) && (ymin <? ymax) then
    let o_width := xmax - xmin + 1 in
    let o_height := ymax - ymin + 1 in
    Ok {| area := o_width * o_height;
          iscrowd := 0;
          bbox := [xmin; ymin; o_width; o_height];
          category_id := category_id;
          ignore := 0;
          segmentation := [] |}
  else Raise AssertionError.

(** What [get_coco_annotation_from_obj] can return: the empty list,
    [None], or an annotation dict. *)
Inductive obj_ann : Type :=
| AnnEmpty
| AnnNone
| AnnDict (a : ann_core).

(** [if ann:] *)
Definition ann_truthy (r : obj_ann) : option ann_core :=
  match r with
  | AnnDict a => Some a
  | _ => None
  end.

(** [if name_converter: if label in name_converter:
    label = name_converter[label]]; an empty or missing converter is
    falsy, and [None] is not a key. *)
Definition remap_label (name_converter : option (dict string))
    (label : option string) : option string :=
  match name_converter with
  | Some ((_ :: _) as conv) =>
      match label with
      | Some l =>
          match dict_get conv l with
          | Some l' => Some l'
          | None => label
          end
      | None => label
      end
  | _ => label
  end.

(** The label lookup of [get_coco_annotation_from_obj]: [inl tt] is
    the early [return []], [inr c] the category id. *)
Definition resolve_category (obj : element) (label2id : dict Z)
    (name_converter : option (dict string)) : result (unit + Z) :=
  match findtext "subname" obj with
  | Some label =>
      c <- dict_item label2id label ;; Ok (inr c)
  | None =>
      let label := findtext "name" obj in
      let label := remap_label name_converter label in
      match label with
      | Some l =>
          if dict_mem label2id l
          then c <- dict_item label2id l ;; Ok (inr c)
          else Ok (inl tt)
      | None => Ok (inl tt)
      end
  end.

(** [bndbox = obj.find('bndbox')], and [obj.find('bbox')] when that is
    [None]. *)
Definition find_box (obj : element) : option element :=
  match find "bndbox" obj with
  | Some b => Some b
  | None => find "bbox" obj
  end.

(** [get_coco_annotation_from_obj]. *)
Definition get_coco_annotation_from_obj (obj : element) (label2id : dict Z)
    (name_converter : option (dict string)) : result obj_ann :=
  r <- resolve_category obj label2id name_converter ;;
  match r with
  | inl _ => Ok AnnEmpty
  | inr category_id =>
      match find_box obj with
      | None => Ok AnnNone
      | Some bndbox =>
          x <- float_int (findtext "xmin" bndbox) ;;
          let xmin := x - 1 in
          y <- float_int (findtext "ymin" bndbox) ;;
          let ymin := y - 1 in
          xmax <- float_int (findtext "xmax" bndbox) ;;
          ymax <- float_int (findtext "ymax" bndbox) ;;
          if (xmin <? xmax) && (ymin <? ymax) then
            let o_width := xmax - xmin in
            let o_height := ymax - ymin in
            Ok (AnnDict {| area := o_width * o_height;
                           iscrowd := 0;
                           bbox := [xmin; ymin; o_width; o_height];
                           category_id := category_id;
                           ignore := 0;
                           segmentation := [] |})
          else Raise AssertionError
      end
  end.

(** The part of both resolvers that sits inside [try]: decode the
    image and, when [resize != 1.0], resize it.  [cv2.imread] returns
    [None] for a file it cannot decode, and the first use of
    [img.shape] then raises. *)
Definition load_and_resize (resize_on : bool) (path : string) : result (Z * Z) :=
  match imread E path with
  | None => Raise AttributeError
  | Some (h, w) =>
      if resize_on then
        let dw := resize_dim E w in
        let dh := resize_dim E h in
        if (0 <? dw) && (0 <? dh) then Ok (dh, dw) else Raise CvError
      else Ok (h, w)
  end.

(** ["{folder}_{img_name}".format(folder=p.split('/')[-2],
    img_name=p.split('/')[-1])]. *)
Definition folder_and_name (p : string) : result string :=
  folder <- index_from_end (split "/" p) 2 ;;
  img_name <- index_from_end (split "/" p) 1 ;;
  Ok (folder +:+ "_" +:+ img_name).

(** [get_image_info_from_annoline]: everything after the first line is
    inside [try ... except Exception], which turns any failure into
    [(None, None)]. *)
Definition get_image_info_from_annoline (annotation_root : list string)
    (idx : Z) (resize_on add_foldername : bool)
  : result (option image_info * option (Z * Z)) :=
  path <- index annotation_root 0 ;;
  filename <- index_from_end (split "/" path) 1 ;;
  let body :=
    img <- load_and_resize resize_on path ;;
    filename <- (if add_foldername then folder_and_name path else Ok filename) ;;
    Ok ({| file_name := filename; height := fst img; width := snd img;
           img_id := idx |}, img) in
  match body with
  | Ok (image_info, img) => Ok (Some image_info, Some img)
  | Raise _ => Ok (None, None)
  end.

(** [get_image_info]: the XML resolver.  Its handler formats
    [annotation_root[0]], the first child of the element, which raises
    [IndexError] on an element without children. *)
Definition get_image_info (annotation_root : element)
    (idx : Z) (resize_on add_foldername : bool)
  : result (option image_info * option (Z * Z)) :=
  let filename := findtext "filename" annotation_root in
  let body :=
    filename <- match filename with
                | Some f => Ok f
                | None => Raise TypeError
                end ;;
    img <- load_and_resize resize_on filename ;;
    filename <- (if add_foldername then folder_and_name filename
                 else Ok filename) ;;
    base <- index_from_end (split "/" filename) 1 ;;
    Ok ({| file_name := base; height := fst img; width := snd img;
           img_id := idx |}, img) in
  match body with
  | Ok (image_info, img) => Ok (Some image_info, Some img)
  | Raise _ =>
      _ <- index (children annotation_root) 0 ;;
      Ok (None, None)
  end.

(** Keyword arguments of [convert_bbox_to_coco]; [resize] lives in the
    environment. *)
Record options : Type := {
  image_id_list : option (list Z);
  bnd_id_list : option (list (list Z));
  get_label_from_folder : bool;
  add_foldername : bool;
  extract_num_from_imgid : bool
}.

(** [int(''.join(filter(str.isdigit, p.split('/')[-1])))]. *)
Definition num_from_path (p : string) : result Z :=
  filename <- index_from_end (split "/" p) 1 ;;
  py_int E (filter_digits filename).

(** The nested [try] blocks that pick the category from the folder
    names.  A bare [raise] without a pending exception is a
    [RuntimeError]; inside the handler it raises the pending one
    again. *)
Definition folder_category (path : string) (label2id : dict Z) : result string :=
  let parts := split "/" path in
  let first :=
    category_name <- index_from_end parts 3 ;;
    if dict_mem label2id category_name then Ok category_name
    else Raise RuntimeError in
  match first with
  | Ok category_name => Ok category_name
  | Raise pending =>
      category_name <- index_from_end parts 2 ;;
      if dict_mem label2id category_name then Ok category_name
      else Raise pending
  end.

(** Item width of the numpy unicode array built from the tokens. *)
Definition str_width (tokens : list string) : nat :=
  fold_right (fun t w => Nat.max (String.length t) w) 1%nat tokens.

(** [obj = np.append(obj, v)] for a short row, [obj[4] = v] otherwise;
    the in-place store keeps at most [w] characters. *)
Definition set_folder_label (w : nat) (obj : list string) (v : Z) : list string :=
  if (length obj <? 5)%nat then obj ++ [py_str E v]
  else <[4%nat := substring 0 w (py_str E v)]> obj.

Fixpoint chunks {A : Type} (k n : nat) (l : list A) : list (list A) :=
  match n with
  | O => []
  | S n' => take k l :: chunks k n' (drop k l)
  end.

(** [np.reshape(tokens, (bbox_cnt, -1))] for [bbox_cnt > 0], row by row. *)
Definition np_reshape_rows (tokens : list string) (bbox_cnt : Z)
  : result (list (list string)) :=
  let n := Z.to_nat bbox_cnt in
  if (length tokens mod n =? 0)%nat
  then Ok (chunks (length tokens / n) n tokens)
  else Raise ValueError.

(** The id given to an annotation of [convert_bbox_to_coco]: the
    statement [bnd_idx + 1] of the [else] branch computes a value and
    drops it, so [bnd_idx] stays the position of the box in its line. *)
Definition bnd_id_of (opts : options) (img_idx bnd_idx : nat) : result Z :=
  match bnd_id_list opts with
  | Some ((_ :: _) as ids) =>
      row <- index ids img_idx ;;
      index row bnd_idx
  | _ => Ok (Z.of_nat bnd_idx)
  end.

(** [if get_label_from_folder: ...]: the row with its label taken from
    the folder names, or the row as it is. *)
Definition relabel_row (opts : options) (label2id : dict Z) (path : string)
    (w : nat) (obj : list string) : result (list string) :=
  if get_label_from_folder opts then
    category_name <- folder_category path label2id ;;
    v <- dict_item label2id category_name ;;
    Ok (set_folder_label w obj v)
  else Ok obj.

(** [for bnd_idx, obj in enumerate(ann_reshape)] of
    [convert_bbox_to_coco]. *)
Fixpoint boxes_loop (opts : options) (label2id : dict Z) (path : string)
    (w : nat) (img_idx : nat) (img_info : image_info)
    (rows : list (list string)) (bnd_idx : nat) (anns : list annotation)
  : result (list annotation) :=
  match rows with
  | [] => Ok anns
  | obj :: rest =>
      obj <- relabel_row opts label2id path w obj ;;
      let ann :=
        try_except
          (a <- get_coco_annotation_from_annoline obj label2id ;; Ok (Some a))
          None in
      anns <- match ann with
              | Some a =>
                  bnd_id <- bnd_id_of opts img_idx bnd_idx ;;
                  Ok (anns ++ [{| core := a; image_id := img_id img_info;
                                  id := bnd_id |}])
              | None => Ok anns
              end ;;
      boxes_loop opts label2id path w img_idx img_info rest (S bnd_idx) anns
  end.

(** [img_unique_id] of [convert_bbox_to_coco]. *)
Definition line_image_id (opts : options) (anno_line : list string)
    (img_idx : nat) : result Z :=
  match image_id_list opts with
  | Some ((_ :: _) as ids) => index ids img_idx
  | _ =>
      if extract_num_from_imgid opts then
        path <- index anno_line 0 ;;
        num_from_path path
      else Ok (Z.of_nat img_idx + 1)
  end.

(** One iteration of [for img_idx, anno_line in enumerate(annotation)].
    The image copy at the end of the iteration is wrapped in
    [try ... except: pass] and touches neither list, so it has no
    counterpart here. *)
Definition line_step (opts : options) (label2id : dict Z) (img_idx : nat)
    (anno_line : list string)
    (st : list (option image_info) * list annotation)
  : result (list (option image_info) * list annotation) :=
  img_unique_id <- line_image_id opts anno_line img_idx ;;
  r <- get_image_info_from_annoline anno_line img_unique_id (resized E)
         (add_foldername opts) ;;
  match fst r with
  | Some img_info =>
      let imgs := fst st ++ [Some img_info] in
      t1 <- index anno_line 1 ;;
      bbox_cnt <- py_int E t1 ;;
      anns <- (if 0 <? bbox_cnt then
                 rows <- np_reshape_rows (drop 2 anno_line) bbox_cnt ;;
                 path <- index anno_line 0 ;;
                 boxes_loop opts label2id path (str_width (drop 2 anno_line))
                   img_idx img_info rows 0 (snd st)
               else Ok (snd st)) ;;
      Ok (imgs, anns)
  | None => Ok st
  end.

Fixpoint lines_loop (opts : options) (label2id : dict Z)
    (lines : list (list string)) (img_idx : nat)
    (st : list (option image_info) * list annotation)
  : result (list (option image_info) * list annotation) :=
  match lines with
  | [] => Ok st
  | anno_line :: rest =>
      st <- line_step opts label2id img_idx anno_line st ;;
      lines_loop opts label2id rest (S img_idx) st
  end.

(** [for label, label_id in label2id.items(): ...]. *)
Definition category_list (label2id : dict Z) : list category_info :=
  map (fun kv => {| supercategory := "none"; cat_id := snd kv;
                    name := fst kv |}) label2id.

(** [convert_bbox_to_coco].  [Ok b] stands for: [b] was written to
    [output_jsonpath] and returned. *)
Definition convert_bbox_to_coco (annotation : list (list string))
    (label2id : dict Z) (opts : options) : result bundle :=
  st <- lines_loop opts label2id annotation 0 ([], []) ;;
  Ok {| images := fst st; annotations := snd st;
        categories := category_list label2id |}.

(** [for obj in ann_root.findall('object')] of
    [convert_xmls_to_cocojson]; [img_info['id']] on [None] is a
    [TypeError]. *)
Fixpoint objects_loop (label2id : dict Z) (name_converter : option (dict string))
    (img_info : option image_info) (objs : list element)
    (bnd_id : Z) (anns : list annotation) : result (Z * list annotation) :=
  match objs with
  | [] => Ok (bnd_id, anns)
  | obj :: rest =>
      ann <- get_coco_annotation_from_obj obj label2id name_converter ;;
      match ann_truthy ann with
      | Some a =>
          match img_info with
          | Some info =>
              objects_loop label2id name_converter img_info rest (bnd_id + 1)
                (anns ++ [{| core := a; image_id := img_id info; id := bnd_id |}])
          | None => Raise TypeError
          end
      | None => objects_loop label2id name_converter img_info rest bnd_id anns
      end
  end.

(** [ann_root.find("filename").text = img_paths[img_idx]], done when
    both path lists have the same length. *)
Definition override_filename (img_paths : list string) (n_ann : nat)
    (img_idx : nat) (ann_root : element) : result element :=
  if (length img_paths =? n_ann)%nat then
    p <- index img_paths img_idx ;;
    match set_first_text "filename" p (children ann_root) with
    | Some cs => Ok (Element (tag ann_root) (text ann_root) cs)
    | None => Raise AttributeError
    end
  else Ok ann_root.

(** The loop state of [convert_xmls_to_cocojson]. *)
Record xml_state : Type := {
  xs_bnd_id : Z;
  xs_images : list (option image_info);
  xs_annotations : list annotation
}.

(** One iteration of [for img_idx, a_path in enumerate(annotation_paths)].
    [img_info['file_name']] after the object loop is a [TypeError] when
    the resolver returned [None]; the [cv2.imwrite] that follows is
    wrapped in [try ... except: pass]. *)
Definition xml_step (img_paths : list string) (n_ann : nat) (label2id : dict Z)
    (name_converter : option (dict string)) (extract_num : bool)
    (img_idx : nat) (a_path : string) (st : xml_state) : result xml_state :=
  ann_root <- et_parse E a_path ;;
  img_unique_id <- (if extract_num then num_from_path a_path
                    else Ok (Z.of_nat img_idx + 1)) ;;
  ann_root <- override_filename img_paths n_ann img_idx ann_root ;;
  r <- get_image_info ann_root img_unique_id false false ;;
  let img_info := fst r in
  let imgs := xs_images st ++ [img_info] in
  r <- objects_loop label2id name_converter img_info
         (findall "object" ann_root) (xs_bnd_id st) (xs_annotations st) ;;
  match img_info with
  | Some _ =>
      Ok {| xs_bnd_id := fst r; xs_images := imgs; xs_annotations := snd r |}
  | None => Raise TypeError
  end.

Fixpoint xmls_loop (img_paths : list string) (n_ann : nat) (label2id : dict Z)
    (name_converter : option (dict string)) (extract_num : bool)
    (paths : list string) (img_idx : nat) (st : xml_state) : result xml_state :=
  match paths with
  | [] => Ok st
  | a_path :: rest =>
      st <- xml_step img_paths n_ann label2id name_converter extract_num
              img_idx a_path st ;;
      xmls_loop img_paths n_ann label2id name_converter extract_num
        rest (S img_idx) st
  end.

(** [convert_xmls_to_cocojson].  [Ok b] stands for: [b] was written to
    [output_jsonpath]. *)
Definition convert_xmls_to_cocojson (annotation_paths img_paths : list string)
    (label2id : dict Z) (name_converter : option (dict string))
    (extract_num_from_imgid : bool) : result bundle :=
  st <- xmls_loop img_paths (length annotation_paths) label2id name_converter
          extract_num_from_imgid annotation_paths 0
          {| xs_bnd_id := 1; xs_images := []; xs_annotations := [] |} ;;
  Ok {| images := xs_images st; annotations := xs_annotations st;
        categories := category_list label2id |}.

End WithEnv.

End Utils.

(** ** src/agml/data/utils.py: the mask extractors *)

Module Mask.

(** What the mask extractors take from scikit-image and Shapely.
    Coordinates and areas are floating-point numbers there; here they
    are an abstract type with the operations the code applies. *)
Record Geometry : Type := {
  num : Type;
  mask : Type;
  polygon : Type;
  sub1 : num -> num;                                   (* v - 1 *)
  fsub : num -> num -> num;                            (* a - b *)
  positive : num -> bool;                              (* v > 0 *)
  np_array : mask -> mask;                             (* np.array(m) *)
  find_contours : mask -> result (list (list (num * num)));
                                                       (* level 0.5, 'low' *)
  make_polygon : list (num * num) -> result polygon;   (* Polygon(contour) *)
  simplify : polygon -> polygon;   (* simplify(1.0, preserve_topology=False) *)
  exterior_coords : polygon -> result (list (num * num));
  poly_area : polygon -> num;                          (* poly.area *)
  multi_bounds : list polygon -> result (num * num * num * num);
  multi_area : list polygon -> num                     (* MultiPolygon(ps).area *)
}.

Section WithGeometry.

Variable G : Geometry.

Record mask_annotation : Type := {
  m_segmentation : list (list (num G));
  m_iscrowd : Z;
  m_image_id : Z;
  m_category_id : Z;
  m_id : Z;
  m_bbox : num G * num G * num G * num G;
  m_area : num G
}.

(** [contour[i] = (col - 1, row - 1)] for every point [(row, col)]. *)
Definition flip_unpad (contour : list (num G * num G)) : list (num G * num G) :=
  map (fun rc => (sub1 G (snd rc), sub1 G (fst rc))) contour.

(** [np.array(coords).ravel().tolist()]. *)
Definition ravel (coords : list (num G * num G)) : list (num G) :=
  flat_map (fun xy => [fst xy; snd xy]) coords.

(** The body shared by both loops: flip, build, simplify, flatten. *)
Definition trace (contour : list (num G * num G))
  : result (polygon G * list (num G)) :=
  poly <- make_polygon G (flip_unpad contour) ;;
  let poly := simplify G poly in
  coords <- exterior_coords G poly ;;
  Ok (poly, ravel coords).

Fixpoint trace_all (contours : list (list (num G * num G)))
  : result (list (polygon G * list (num G))) :=
  match contours with
  | [] => Ok []
  | c :: rest =>
      t <- trace c ;;
      ts <- trace_all rest ;;
      Ok (t :: ts)
  end.

(** [x, y, max_x, max_y = bounds; bbox = (x, y, max_x - x, max_y - y)]. *)
Definition bbox_of_bounds (b : num G * num G * num G * num G)
  : num G * num G * num G * num G :=
  let '(x, y, max_x, max_y) := b in
  (x, y, fsub G max_x x, fsub G max_y y).

(** [create_sub_mask_annotation]: the sub-mask goes to the tracer as
    it was passed. *)
Definition create_sub_mask_annotation (sub_mask : mask G)
    (image_id category_id annotation_id is_crowd : Z)
  : result mask_annotation :=
  contours <- find_contours G sub_mask ;;
  traced <- trace_all contours ;;
  let polygons := map fst traced in
  let segmentations := map snd traced in
  b <- multi_bounds G polygons ;;
  Ok {| m_segmentation := segmentations;
        m_iscrowd := is_crowd;
        m_image_id := image_id;
        m_category_id := category_id;
        m_id := annotation_id;
        m_bbox := bbox_of_bounds b;
        m_area := multi_area G polygons |}.

(** [for idx, contour in enumerate(contours)] of
    [create_sub_mask_annotation_per_bbox]. *)
Fixpoint per_bbox_loop (contours : list (list (num G * num G)))
    (image_id category_id annotation_id is_crowd : Z) (idx : nat)
    (annotations : list mask_annotation) : result (list mask_annotation) :=
  match contours with
  | [] => Ok annotations
  | contour :: rest =>
      t <- trace contour ;;
      let '(poly, segmentation) := t in
      annotations <-
        (if positive G (poly_area G poly) then
           b <- multi_bounds G [poly] ;;
           Ok (annotations ++
                 [{| m_segmentation := [segmentation];
                     m_iscrowd := is_crowd;
                     m_image_id := image_id;
                     m_category_id := category_id;
                     m_id := annotation_id + Z.of_nat idx;
                     m_bbox := bbox_of_bounds b;
                     m_area := multi_area G [poly] |}])
         else Ok annotations) ;;
      per_bbox_loop rest image_id category_id annotation_id is_crowd
        (S idx) annotations
  end.

(** [create_sub_mask_annotation_per_bbox]: the sub-mask is turned into
    an array before it goes to the tracer. *)
Definition create_sub_mask_annotation_per_bbox (sub_mask : mask G)
    (image_id category_id annotation_id is_crowd : Z)
  : result (list mask_annotation) :=
  let sub_mask_np := np_array G sub_mask in
  contours <- find_contours G sub_mask_np ;;
  per_bbox_loop contours image_id category_id annotation_id is_crowd 0 [].

End WithGeometry.

Arguments m_segmentation {G} _.
Arguments m_iscrowd {G} _.
Arguments m_image_id {G} _.
Arguments m_category_id {G} _.
Arguments m_id {G} _.
Arguments m_bbox {G} _.
Arguments m_area {G} _.

End Mask.

(** ** agml/synthetic/converter.py *)

Module Converter.

(** A path is its list of components; the file system maps the paths
    that exist to what is there. *)
Inductive node : Type :=
| File (data : string)
| Dir.

Abbreviation FS := (gmap (list string) node).

Record DataFormatConverterMetadata : Type := {
  path : list string;
  name : string;
  image_size : Z * Z;
  annotation_type : string;
  labels : list string;
  generation_date : string
}.

Record info : Type := {
  description : string;
  url : string;
  version : string;
  info_year : Z;
  contributor : string;
  date_created : string
}.

(** The document handed to [json.dump]. *)
Record coco : Type := {
  images : list Utils.image_info;
  annotations : list Utils.annotation;
  categories : list Utils.category_info;
  coco_info : info
}.

(** What the converter takes from outside this file: the numpy
    conversion of one label file into int32 boxes, the JSON serializer,
    the clock, the two helpers of [agml.utils.io], and the ways in which
    the operating system can make a copy or a write fail (the exception
    and, if the target was already created, the data left in it). *)
Record Host : Type := {
  boxes_of_text : Z * Z -> string -> result (list (Z * Z * Z * Z));
  json_dump : coco -> string;
  year : Z;
  recursive_dirname : list string -> nat -> list string;
  get_dir_list : FS -> list string -> result (list string);
  copy_fault : list string -> list string -> option (exn * option string);
  dump_fault : option (exn * option string)
}.

(** Code with side effects on the file system: the state survives an
    exception. *)
Definition io (A : Type) : Type := FS -> result A * FS.

Definition ret {A : Type} (a : A) : io A := fun fs => (Ok a, fs).

Definition iobind {A B : Type} (m : io A) (k : A -> io B) : io B :=
  fun fs =>
    match m fs with
    | (Ok a, fs') => k a fs'
    | (Raise e, fs') => (Raise e, fs')
    end.

(** A computation that only reads the file system. *)
Definition reading {A : Type} (f : FS -> result A) : io A :=
  fun fs => (f fs, fs).

Notation "x <~ m ;; k" := (iobind m (fun x => k))
  (at level 100, m at next level, right associativity) : py_scope.

(** [os.path.exists]. *)
Definition path_exists (fs : FS) (p : list string) : bool :=
  match fs !! p with Some _ => true | None => false end.

(** [os.path.basename], [os.path.dirname]. *)
Definition basename (p : list string) : string := List.last p EmptyString.
Definition dirname (p : list string) : list string := removelast p.

(** [os.remove]. *)
Definition os_remove (p : list string) : io unit :=
  fun fs =>
    match fs !! p with
    | Some (File _) => (Ok tt, delete p fs)
    | Some Dir => (Raise IsADirectoryError, fs)
    | None => (Raise FileNotFoundError, fs)
    end.

(** [shutil.rmtree]: the directory goes with everything below it. *)
Definition rmtree (p : list string) : io unit :=
  fun fs =>
    match fs !! p with
    | Some Dir => (Ok tt, filter (fun kv => ¬ p `prefix_of` kv.1) fs)
    | Some (File _) => (Raise NotADirectoryError, fs)
    | None => (Raise FileNotFoundError, fs)
    end.

(** [os.makedirs(p, exist_ok=True)]: missing ancestors are created. *)
Fixpoint makedirs_from (done todo : list string) (fs : FS) : result unit * FS :=
  match todo with
  | [] => (Ok tt, fs)
  | c :: rest =>
      let p := done ++ [c] in
      match fs !! p with
      | Some Dir => makedirs_from p rest fs
      | Some (File _) =>
          (Raise (match rest with
                  | [] => FileExistsError
                  | _ => NotADirectoryError
                  end), fs)
      | None => makedirs_from p rest (<[p := Dir]> fs)
      end
  end.

Definition makedirs (p : list string) : io unit := makedirs_from [] p.

(** Writing [data] to [p] with a possible fault of the operating system. *)
Definition write_with_fault (fault : option (exn * option string))
    (p : list string) (data : string) : io unit :=
  fun fs =>
    match fs !! p with
    | Some Dir => (Raise IsADirectoryError, fs)
    | _ =>
        match fs !! dirname p with
        | Some Dir =>
            match fault with
            | None => (Ok tt, <[p := File data]> fs)
            | Some (e, None) => (Raise e, fs)
            | Some (e, Some partial) => (Raise e, <[p := File partial]> fs)
            end
        | _ => (Raise FileNotFoundError, fs)
        end
    end.

(** [open(p, 'r')] and reading everything. *)
Definition read_text (fs : FS) (p : list string) : result string :=
  match fs !! p with
  | Some (File data) => Ok data
  | Some Dir => Raise IsADirectoryError
  | None => Raise FileNotFoundError
  end.

Definition ends_with (suf s : string) : bool :=
  (String.length suf <=? String.length s)%nat
  && String.eqb
       (substring (String.length s - String.length suf) (String.length suf) s)
       suf.

Definition hidden (c : string) : bool := String.prefix "." c.

(** The path [q] relative to [root], when [q] is below [root]. *)
Fixpoint relative_to (root q : list string) : option (list string) :=
  match root, q with
  | [], _ => Some q
  | r :: root', c :: q' => if String.eqb r c then relative_to root' q' else None
  | _ :: _, [] => None
  end.

(** The pattern ["image*/**/*.jpeg"] with [recursive=True]; [*] and
    [**] skip hidden names. *)
Definition glob_match (rel : list string) : bool :=
  match rel with
  | d :: rest =>
      String.prefix "image" d
      && match rev rest with
         | f :: mid =>
             ends_with ".jpeg" f && negb (hidden f)
             && forallb (fun c => negb (hidden c)) mid
         | [] => false
         end
  | [] => false
  end.

(** [glob.glob(os.path.join(root, "image*/**/*.jpeg"), recursive=True)],
    in the order in which the file system lists its entries. *)
Definition glob_jpeg (fs : FS) (root : list string) : list (list string) :=
  List.filter
    (fun q => match relative_to root q with
              | Some rel => glob_match rel
              | None => false
              end)
    (map fst (map_to_list fs)).

(** numpy int32 multiplication wraps around. *)
Definition wrap32 (z : Z) : Z := (z + 2 ^ 31) mod 2 ^ 32 - 2 ^ 31.

(** [str.isnumeric] on the last character of a directory name. *)
Fixpoint last_char (s : string) : option ascii :=
  match s with
  | EmptyString => None
  | String c EmptyString => Some c
  | String _ rest => last_char rest
  end.

Section WithHost.

Variable H : Host.
Variable meta : DataFormatConverterMetadata.

Definition json_path : list string := path meta ++ ["annotations.json"].
Definition images_dir : list string := path meta ++ ["images"].

(** [shutil.copyfile]: the same-file test comes first
    ([SameFileError] is an [OSError]), then the source is opened, then
    the target. *)
Definition copyfile (src dst : list string) : io unit :=
  fun fs =>
    if decide (src = dst) then (Raise OSError, fs)
    else match fs !! src with
         | None => (Raise FileNotFoundError, fs)
         | Some Dir => (Raise IsADirectoryError, fs)
         | Some (File data) =>
             write_with_fault (copy_fault H src dst) dst data fs
         end.

(** The label file to read for [label], with the [fruits]/[clusters]
    alias. *)
Definition label_file (image_dir : list string) (label : string) : list string :=
  image_dir ++ ["rectangular_labels_" +:+ label +:+ ".txt"].

Definition locate_label_file (fs : FS) (image_dir : list string)
    (label : string) : result (list string) :=
  if path_exists fs (label_file image_dir label) then
    Ok (label_file image_dir label)
  else if String.eqb label "fruits" then
    if path_exists fs (label_file image_dir "clusters")
    then Ok (label_file image_dir "clusters")
    else Raise FileNotFoundError
  else Raise FileNotFoundError.

(** [_convert_text_files_to_object_annotations]: the loop over
    [enumerate(self._meta.labels)] filling [bboxes[indx + 1]]. *)
Fixpoint labels_to_boxes (fs : FS) (image_dir : list string)
    (labels : list string) (indx : nat) (bboxes : list (Z * list (Z * Z * Z * Z)))
  : result (list (Z * list (Z * Z * Z * Z))) :=
  match labels with
  | [] => Ok bboxes
  | label :: rest =>
      p <- locate_label_file fs image_dir label ;;
      data <- read_text fs p ;;
      coords <- boxes_of_text H (image_size meta) data ;;
      labels_to_boxes fs image_dir rest (S indx)
        (bboxes ++ [(Z.of_nat indx + 1, coords)])
  end.

Definition _convert_text_files_to_object_annotations (fs : FS)
    (image_dir : list string) : result (list (Z * list (Z * Z * Z * Z))) :=
  labels_to_boxes fs image_dir (labels meta) 0 [].

(** [image_annotation_map]: one entry per image of [glob], which
    lists every path once. *)
Fixpoint annotation_map (fs : FS) (jpeg_images : list (list string))
    (acc : list (list string * list (Z * list (Z * Z * Z * Z))))
  : result (list (list string * list (Z * list (Z * Z * Z * Z)))) :=
  match jpeg_images with
  | [] => Ok acc
  | image :: rest =>
      a <- _convert_text_files_to_object_annotations fs (dirname image) ;;
      annotation_map fs rest (acc ++ [(image, a)])
  end.

(** [_create_output_directory_structure]. *)
Definition _create_output_directory_structure : io unit :=
  if String.eqb (annotation_type meta) "object_detection"
  then makedirs images_dir
  else ret tt.

(** [_map_and_move_images]. *)
Fixpoint _map_and_move_images (images : list (list string))
    (image_new_map : gmap (list string) (list string))
  : io (gmap (list string) (list string)) :=
  match images with
  | [] => ret image_new_map
  | image :: rest =>
      let image_num := basename (recursive_dirname H image 2) in
      let view_num := basename (recursive_dirname H image 1) in
      let image_name := image_num +:+ "-" +:+ view_num +:+ ".jpeg" in
      _ <~ copyfile image (images_dir ++ [image_name]) ;;
      _map_and_move_images rest
        (<[image := images_dir ++ [image_name]]> image_new_map)
  end.

(** The loop that fills [image_coco] and [image_id_map]. *)
Fixpoint image_coco_loop (image_new_map : gmap (list string) (list string))
    (images : list (list string)) (indx : nat)
    (image_coco : list Utils.image_info) (image_id_map : gmap (list string) Z)
  : result (list Utils.image_info * gmap (list string) Z) :=
  match images with
  | [] => Ok (image_coco, image_id_map)
  | image :: rest =>
      new <- match image_new_map !! image with
             | Some p => Ok p
             | None => Raise KeyError
             end ;;
      image_coco_loop image_new_map rest (S indx)
        (image_coco ++
           [{| Utils.file_name := basename new;
               Utils.height := fst (image_size meta);
               Utils.width := snd (image_size meta);
               Utils.img_id := Z.of_nat indx + 1 |}])
        (<[image := Z.of_nat indx + 1]> image_id_map)
  end.

(** [for box in bboxes]: one record per box, then
    [image_box_tracker += 1]. *)
Fixpoint box_loop (label image_id : Z) (bboxes : list (Z * Z * Z * Z))
    (image_box_tracker : Z) (annotation_coco : list Utils.annotation)
  : Z * list Utils.annotation :=
  match bboxes with
  | [] => (image_box_tracker, annotation_coco)
  | (x, y, w, h) :: rest =>
      box_loop label image_id rest (image_box_tracker + 1)
        (annotation_coco ++
           [{| Utils.core :=
                 {| Utils.area := wrap32 (w * h);
                    Utils.iscrowd := 0;
                    Utils.bbox := [x; y; w; h];
                    Utils.category_id := label;
                    Utils.ignore := 0;
                    Utils.segmentation := [] |};
               Utils.image_id := image_id;
               Utils.id := image_box_tracker |}])
  end.

(** [for label, bboxes in annotation.items()]. *)
Fixpoint label_loop (image_id : Z) (annotation : list (Z * list (Z * Z * Z * Z)))
    (image_box_tracker : Z) (annotation_coco : list Utils.annotation)
  : Z * list Utils.annotation :=
  match annotation with
  | [] => (image_box_tracker, annotation_coco)
  | (label, bboxes) :: rest =>
      let r := box_loop label image_id bboxes image_box_tracker annotation_coco in
      label_loop image_id rest (fst r) (snd r)
  end.

(** [for indx, (image, annotation) in enumerate(...)]: every iteration
    starts with [image_box_tracker = 1]. *)
Fixpoint annotation_coco_loop (image_id_map : gmap (list string) Z)
    (items : list (list string * list (Z * list (Z * Z * Z * Z))))
    (annotation_coco : list Utils.annotation) : result (list Utils.annotation) :=
  match items with
  | [] => Ok annotation_coco
  | (image, annotation) :: rest =>
      image_id <- match image_id_map !! image with
                  | Some i => Ok i
                  | None => Raise KeyError
                  end ;;
      let image_box_tracker := 1 in
      annotation_coco_loop image_id_map rest
        (snd (label_loop image_id annotation image_box_tracker annotation_coco))
  end.

(** [category_coco]: [enumerate] counts from zero. *)
Definition category_coco (labels : list string) : list Utils.category_info :=
  imap (fun i name => {| Utils.supercategory := "none";
                         Utils.cat_id := Z.of_nat i;
                         Utils.name := name |}) labels.

Definition info_coco : info :=
  {| description := name meta +:+ ": Helios-generated dataset";
     url := "None"; version := "1.0"; info_year := year H;
     contributor := "None"; date_created := generation_date meta |}.

(** The JSON document built from the annotation map and the moved
    images. *)
Definition build_coco
    (image_annotation_map : list (list string * list (Z * list (Z * Z * Z * Z))))
    (image_new_map : gmap (list string) (list string)) : result coco :=
  r <- image_coco_loop image_new_map (map fst image_annotation_map) 0 [] ∅ ;;
  annotation_coco <- annotation_coco_loop (snd r) image_annotation_map [] ;;
  Ok {| images := fst r; annotations := annotation_coco;
        categories := category_coco (labels meta); coco_info := info_coco |}.

(** [_convert_object_detection_dataset]. *)
Definition _convert_object_detection_dataset : io unit :=
  jpeg_images <~ reading (fun fs => Ok (glob_jpeg fs (path meta))) ;;
  image_annotation_map <~ reading (fun fs => annotation_map fs jpeg_images []) ;;
  _ <~ _create_output_directory_structure ;;
  image_new_map <~ _map_and_move_images (map fst image_annotation_map) ∅ ;;
  doc <~ reading (fun _ => build_coco image_annotation_map image_new_map) ;;
  write_with_fault (dump_fault H) json_path (json_dump H doc).

(** [_cleanup_failed_object_detection_conversion]. *)
Definition _cleanup_failed_object_detection_conversion : io unit :=
  _ <~ (fun fs => if path_exists fs json_path then os_remove json_path fs
                  else (Ok tt, fs)) ;;
  fun fs => if path_exists fs images_dir then rmtree images_dir fs
            else (Ok tt, fs).

(** The comprehension [dir_ for dir_ in ... if dir_[-1].isnumeric()]. *)
Fixpoint numbered_dirs (dirs : list string) : result (list string) :=
  match dirs with
  | [] => Ok []
  | dir_ :: rest =>
      match last_char dir_ with
      | None => Raise IndexError
      | Some c =>
          ds <- numbered_dirs rest ;;
          Ok (if isdigit c then dir_ :: ds else ds)
      end
  end.

Fixpoint rmtree_each (image_dirs : list string) : io unit :=
  match image_dirs with
  | [] => ret tt
  | image_dir :: rest =>
      _ <~ rmtree (path meta ++ [image_dir]) ;;
      rmtree_each rest
  end.

(** [_remove_existing_image_dirs]. *)
Definition _remove_existing_image_dirs : io unit :=
  image_dirs <~ reading (fun fs =>
                  ds <- get_dir_list H fs (path meta) ;; numbered_dirs ds) ;;
  rmtree_each image_dirs.

(** [convert]: [try ... except Exception: cleanup; raise ... else:
    remove the old directories]. *)
Definition convert : io unit :=
  fun fs =>
    if String.eqb (annotation_type meta) "object_detection" then
      match _convert_object_detection_dataset fs with
      | (Raise e, fs1) =>
          match _cleanup_failed_object_detection_conversion fs1 with
          | (Ok _, fs2) => (Raise e, fs2)
          | (Raise e', fs2) => (Raise e', fs2)
          end
      | (Ok _, fs1) => _remove_existing_image_dirs fs1
      end
    else (Ok tt, fs).

End WithHost.

End Converter.

(** ** Concrete environments for the scenarios *)

Module Demo.

Import Xml Utils.

(** Value of a string of decimal digits. *)
Fixpoint digits_value (s : string) (acc : Z) : option Z :=
  match s with
  | EmptyString => Some acc
  | String c rest =>
      if isdigit c
      then digits_value rest (10 * acc + Z.of_nat (nat_of_ascii c - 48))
      else None
  end.

(** [int(s)] on a plain decimal literal; with [resize = 1.0] this is
    also [int(float(s) * resize)] on such a literal. *)
Definition int_literal (s : string) : result Z :=
  match s with
  | EmptyString => Raise ValueError
  | String c rest =>
      if Ascii.eqb c "-" then
        match rest, digits_value rest 0 with
        | String _ _, Some v => Ok (- v)
        | _, _ => Raise ValueError
        end
      else match digits_value s 0 with
           | Some v => Ok v
           | None => Raise ValueError
           end
  end.

(** An environment with [resize = 1.0] whose numbers are integer
    literals; [files] says which images decode, [xml] what the
    annotation files parse to. *)
Definition literal_env (files : string -> option (Z * Z))
    (xml : string -> result element) : Env :=
  {| float_t := Z;
     py_float := int_literal;
     mul_resize := fun f => f;
     int_of_float := fun f => Ok f;
     py_int := int_literal;
     py_str := fun n => pretty n;
     resized := false;
     resize_dim := fun d => d;
     imread := files;
     et_parse := xml |}.

(** Only [img.jpg] and [img2.jpg] decode, as 640x480 images. *)
Definition two_images (p : string) : option (Z * Z) :=
  if String.eqb p "img.jpg" then Some (480, 640)
  else if String.eqb p "img2.jpg" then Some (480, 640)
  else None.

Definition no_xml (p : string) : result element := Raise FileNotFoundError.

Definition line_env : Env := literal_env two_images no_xml.

Definition plain : options :=
  {| image_id_list := None; bnd_id_list := None;
     get_label_from_folder := false; add_foldername := false;
     extract_num_from_imgid := false |}.

(** A box whose right edge is left of its left edge. *)
Definition degenerate_line : list string :=
  ["img.jpg"; "1"; "50"; "10"; "10"; "50"; "2"].

Definition leaf (t s : string) : element := Element t (Some s) [].

Definition bndbox_of (xmin ymin xmax ymax : string) : element :=
  Element "bndbox" None
    [leaf "xmin" xmin; leaf "ymin" ymin; leaf "xmax" xmax; leaf "ymax" ymax].

(** [<object><name>leaf</name><bndbox>10 10 50 50</bndbox></object>]. *)
Definition leaf_object : element :=
  Element "object" None [leaf "name" "leaf"; bndbox_of "10" "10" "50" "50"].

(** [<object><subname>weed</subname><name>plant</name><bndbox>...]:
    the sub-label is not in the label map [{plant: 1}]. *)
Definition sublabel_object : element :=
  Element "object" None
    [leaf "subname" "weed"; leaf "name" "plant";
     bndbox_of "10" "10" "50" "50"].

(** The same labels without any box element. *)
Definition sublabel_boxless : element :=
  Element "object" None [leaf "subname" "weed"; leaf "name" "plant"].

(** An object with a known label and no box element. *)
Definition boxless_object : element :=
  Element "object" None [leaf "name" "plant"].

(** An object whose box is degenerate after the corner correction. *)
Definition degenerate_object : element :=
  Element "object" None [leaf "name" "plant"; bndbox_of "50" "10" "10" "50"].

Definition annotation_file (img : string) (objs : list element) : element :=
  Element "annotation" None (leaf "filename" img :: objs).

(** Annotation files: [a.xml] describes the readable [img.jpg],
    [b.xml] a degenerate object on [img2.jpg], [c.xml] an image that
    does not decode, [d.xml] an object without a box, [e.xml] an object
    with a sub-label. *)
Definition xml_files (p : string) : result element :=
  if String.eqb p "a.xml" then Ok (annotation_file "img.jpg" [leaf_object])
  else if String.eqb p "b.xml"
       then Ok (annotation_file "img2.jpg" [degenerate_object])
  else if String.eqb p "c.xml"
       then Ok (annotation_file "missing.jpg" [leaf_object])
  else if String.eqb p "d.xml"
       then Ok (annotation_file "img2.jpg" [boxless_object; leaf_object])
  else if String.eqb p "e.xml"
       then Ok (annotation_file "img2.jpg" [sublabel_object])
  else Raise FileNotFoundError.

Definition xml_env : Env := literal_env two_images xml_files.

Definition xml_labels : dict Z := [("leaf", 1); ("plant", 2)].

End Demo.

(** ** A small synthetic dataset *)

Module DemoSynthetic.

Import Converter.

(** Stand-in for the numpy conversion of a label file: one box of 10 by
    10 pixels for every character of the file. *)
Fixpoint boxes_per_char (s : string) : list (Z * Z * Z * Z) :=
  match s with
  | EmptyString => []
  | String _ rest => (0, 0, 10, 10) :: boxes_per_char rest
  end.

(** [recursive_dirname]: [os.path.dirname] applied [level] times. *)
Definition dirname_times (p : list string) (level : nat) : list string :=
  Nat.iter level dirname p.

(** [get_dir_list]: the names of the directories directly in [p]. *)
Definition child_dirs (fs : FS) (p : list string) : result (list string) :=
  Ok (omap (fun kv => match snd kv, relative_to p (fst kv) with
                      | Dir, Some [d] => Some d
                      | _, _ => None
                      end) (map_to_list fs)).


(** The same host without faults. *)
Definition sound_host : Host :=
  {| boxes_of_text := fun _ s => Ok (boxes_per_char s);
     json_dump := fun _ => "{...}";
     year := 2021;
     recursive_dirname := dirname_times;
     get_dir_list := child_dirs;
     copy_fault := fun _ _ => None;
     dump_fault := None |}.

Definition meta : DataFormatConverterMetadata :=
  {| path := ["data"];
     name := "data";
     image_size := (512, 512);
     annotation_type := "object_detection";
     labels := ["leaves"];
     generation_date := "2021-11-04" |}.

Definition view (i : string) : list string := ["data"; i; "view0"].

(** Two subjects with one view each; every view holds a rendering and
    a label file with one box. *)
Definition source_tree : FS :=
  list_to_map
    [(["data"], Dir);
     (["data"; "image0"], Dir);
     (view "image0", Dir);
     (view "image0" ++ ["RGB_rendering.jpeg"], File "jpeg0");
     (view "image0" ++ ["rectangular_labels_leaves.txt"], File "a");
     (["data"; "image1"], Dir);
     (view "image1", Dir);
     (view "image1" ++ ["RGB_rendering.jpeg"], File "jpeg1");
     (view "image1" ++ ["rectangular_labels_leaves.txt"], File "b")].




(** What [_convert_object_detection_dataset] holds for this tree when
    it builds the JSON document. *)
Definition two_image_map
  : list (list string * list (Z * list (Z * Z * Z * Z))) :=
  [(view "image0" ++ ["RGB_rendering.jpeg"], [(1, [(0, 0, 10, 10)])]);
   (view "image1" ++ ["RGB_rendering.jpeg"], [(1, [(0, 0, 10, 10)])])].

Definition two_image_new_map : gmap (list string) (list string) :=
  list_to_map
    [(view "image0" ++ ["RGB_rendering.jpeg"],
      ["data"; "images"; "image0-view0.jpeg"]);
     (view "image1" ++ ["RGB_rendering.jpeg"],
      ["data"; "images"; "image1-view0.jpeg"])].

End DemoSynthetic.

(** ** A geometry on integer points *)

Module DemoMask.

Import Mask.

Definition cross (a b : Z * Z) : Z := fst a * snd b - fst b * snd a.

(** Twice the signed area of the ring through the points. *)
Fixpoint cross_sum (first : Z * Z) (ring : list (Z * Z)) : Z :=
  match ring with
  | [] => 0
  | a :: rest =>
      match rest with
      | [] => cross a first
      | b :: _ => cross a b + cross_sum first rest
      end
  end.

Definition ring_area (ring : list (Z * Z)) : Z :=
  match ring with
  | [] => 0
  | a :: _ => Z.abs (cross_sum a ring) / 2
  end.

Definition bounds_of (points : list (Z * Z)) : result (Z * Z * Z * Z) :=
  match points with
  | [] => Raise ValueError
  | (x, y) :: rest =>
      Ok (fold_left
            (fun b p => let '(x0, y0, x1, y1) := b in
                        (Z.min x0 (fst p), Z.min y0 (snd p),
                         Z.max x1 (fst p), Z.max y1 (snd p)))
            rest (x, y, x, y))
  end.

(** Integer coordinates, a mask given by the contours of its regions,
    polygons as rings of points, no simplification. *)
Definition lattice : Geometry :=
  {| num := Z;
     mask := list (list (Z * Z));
     polygon := list (Z * Z);
     sub1 := fun v => v - 1;
     fsub := Z.sub;
     positive := fun v => 0 <? v;
     np_array := fun m => m;
     find_contours := fun m => Ok m;
     make_polygon := fun c => if (3 <=? length c)%nat then Ok c
                              else Raise ValueError;
     simplify := fun p => p;
     exterior_coords := fun p => Ok p;
     poly_area := ring_area;
     multi_bounds := fun ps => bounds_of (concat ps);
     multi_area := fun ps => fold_right Z.add 0 (map ring_area ps) |}.

(** Two rectangles of one colour that do not touch, as (row, col)
    contours of the padded sub-mask. *)
Definition island1 : list (Z * Z) := [(1, 1); (1, 3); (3, 3); (3, 1)].
Definition island2 : list (Z * Z) := [(5, 6); (5, 9); (9, 9); (9, 6)].
Definition two_islands : mask lattice := [island1; island2].

(** The same geometry with two kinds of mask: an image object
    ([false]) and an array ([true]); the tracer takes arrays only. *)
Definition array_only : Geometry :=
  {| num := Z;
     mask := bool * list (list (Z * Z));
     polygon := list (Z * Z);
     sub1 := fun v => v - 1;
     fsub := Z.sub;
     positive := fun v => 0 <? v;
     np_array := fun m => (true, snd m);
     find_contours := fun m => if fst m then Ok (snd m)
                               else Raise AttributeError;
     make_polygon := fun c => if (3 <=? length c)%nat then Ok c
                              else Raise ValueError;
     simplify := fun p => p;
     exterior_coords := fun p => Ok p;
     poly_area := ring_area;
     multi_bounds := fun ps => bounds_of (concat ps);
     multi_area := fun ps => fold_right Z.add 0 (map ring_area ps) |}.

Definition two_islands_image : mask array_only := (false, [island1; island2]).

(** A thin region between the two rectangles: its polygon has no area. *)
Definition sliver : list (Z * Z) := [(4, 4); (4, 5); (4, 6)].
Definition islands_and_sliver : mask lattice := [island1; sliver; island2].

End DemoMask.

(** ** src/agml/data/utils.py: text files and annotation paths *)

Module TextFiles.

(** [str.isspace] on an ASCII character. *)
Definition isspace (c : ascii) : bool :=
  let n := nat_of_ascii c in
  (((9 <=? n) && (n <=? 13)) || ((28 <=? n) && (n <=? 32)))%nat.

(** [s.lstrip()], [s.rstrip()], [s.strip()]. *)
Fixpoint lstrip (s : string) : string :=
  match s with
  | EmptyString => EmptyString
  | String c rest => if isspace c then lstrip rest else s
  end.

Fixpoint rstrip (s : string) : string :=
  match s with
  | EmptyString => EmptyString
  | String c rest =>
      match rstrip rest with
      | EmptyString => if isspace c then EmptyString else String c EmptyString
      | kept => String c kept
      end
  end.

Definition strip (s : string) : string := rstrip (lstrip s).

(** [if s:] on a string. *)
Definition truthy_str (s : string) : bool :=
  match s with EmptyString => false | String _ _ => true end.

(** [[x.strip() for x in line if x.strip()]]. *)
Definition clean_line (line : list string) : list string :=
  map strip (List.filter (fun x => truthy_str (strip x)) line).

(** [s.split()]: the maximal runs of characters that are not
    whitespace; [cur] is the run being read. *)
Fixpoint words_from (cur : string) (s : string) : list string :=
  match s with
  | EmptyString => if truthy_str cur then [cur] else []
  | String c rest =>
      if isspace c then
        if truthy_str cur then cur :: words_from EmptyString rest
        else words_from EmptyString rest
      else words_from (cur +:+ String c EmptyString) rest
  end.

Definition split_ws (s : string) : list string := words_from EmptyString s.

(** [os.path.join(a, b)] of [posixpath]. *)
Definition path_join (a b : string) : string :=
  if String.prefix "/" b then b
  else if negb (truthy_str a) || Converter.ends_with "/" a then a +:+ b
  else a +:+ "/" +:+ b.

(** What these functions take from outside: opening and reading a text
    file, and the rows that [csv.reader] yields for its text. *)
Record Reader : Type := {
  read_file : string -> result string;
  csv_rows : ascii -> string -> result (list (list string))
}.

Section WithReader.

Variable R : Reader.

(** [for idx, line in enumerate(txt_reader)] of [read_txt_file]. *)
Fixpoint rows_loop (header : bool) (rows : list (list string)) (idx : nat)
    (txt_lines : list (list string)) (headline : option (list string))
  : list (list string) * option (list string) :=
  match rows with
  | [] => (txt_lines, headline)
  | line :: rest =>
      if header && (idx =? 0)%nat
      then rows_loop header rest (S idx) txt_lines (Some line)
      else rows_loop header rest (S idx) (txt_lines ++ [clean_line line])
             headline
  end.

(** [read_txt_file]. *)
Definition read_txt_file (file_name : string) (delimiter : ascii)
    (header : bool) : result (list (list string) * option (list string)) :=
  text <- read_file R file_name ;;
  rows <- csv_rows R delimiter text ;;
  Ok (rows_loop header rows 0 [] None).

(** [open(p)] with [p = None] is a [TypeError]. *)
Definition read_opt (p : option string) : result string :=
  match p with
  | Some p => read_file R p
  | None => Raise TypeError
  end.

(** The comprehension of [get_annpaths]; [os.path.join(None, ...)] is a
    [TypeError]. *)
Fixpoint join_all (ann_dir_path : option string) (ext_with_dot : string)
    (ann_ids : list string) : result (list string) :=
  match ann_ids with
  | [] => Ok []
  | aid :: rest =>
      p <- match ann_dir_path with
           | Some d => Ok (path_join d (aid +:+ ext_with_dot))
           | None => Raise TypeError
           end ;;
      ps <- join_all ann_dir_path ext_with_dot rest ;;
      Ok (p :: ps)
  end.

(** [get_annpaths]. *)
Definition get_annpaths (ann_dir_path ann_ids_path : option string)
    (ext : string) (annpaths_list_path : option string)
  : result (list string) :=
  match annpaths_list_path with
  | Some p =>
      text <- read_file R p ;;
      Ok (split_ws text)
  | None =>
      let ext_with_dot := if truthy_str ext then "." +:+ ext else "" in
      text <- read_opt ann_ids_path ;;
      join_all ann_dir_path ext_with_dot (split_ws text)
  end.

End WithReader.

End TextFiles.

(** ** src/agml/data/utils.py: sub-masks and vector masks *)

Module SubMasks.

(** A mask image: its size and the first three channels of
    [getpixel((x, y))]. *)
Record mask_image : Type := {
  im_width : nat;
  im_height : nat;
  getpixel : nat -> nat -> Z * Z * Z
}.

(** A one-bit image: its size and the pixels that are set. *)
Record bitmap : Type := {
  bm_width : nat;
  bm_height : nat;
  ones : gset (nat * nat)
}.

(** [sub_masks]: a dict in insertion order; its key [str(pixel)]
    determines the colour triple, which stands for it here. *)
Fixpoint masks_get (d : list ((Z * Z * Z) * bitmap)) (k : Z * Z * Z)
  : option bitmap :=
  match d with
  | [] => None
  | (k', v) :: rest => if decide (k' = k) then Some v else masks_get rest k
  end.

Fixpoint masks_set (d : list ((Z * Z * Z) * bitmap)) (k : Z * Z * Z)
    (v : bitmap) : list ((Z * Z * Z) * bitmap) :=
  match d with
  | [] => [(k, v)]
  | (k', v') :: rest =>
      if decide (k' = k) then (k', v) :: rest
      else (k', v') :: masks_set rest k v
  end.

(** [bm.putpixel((i, j), 1)]. *)
Definition putpixel (bm : bitmap) (i j : nat) : bitmap :=
  {| bm_width := bm_width bm; bm_height := bm_height bm;
     ones := {[ (i, j) ]} ∪ ones bm |}.

(** The body of the two loops of [create_sub_masks]. *)
Definition visit (img : mask_image) (x y : nat)
    (sub_masks : list ((Z * Z * Z) * bitmap)) : list ((Z * Z * Z) * bitmap) :=
  let pixel := getpixel img x y in
  if decide (pixel = (0, 0, 0)) then sub_masks
  else
    let sub_masks :=
      match masks_get sub_masks pixel with
      | None =>
          masks_set sub_masks pixel
            {| bm_width := im_width img + 2; bm_height := im_height img + 2;
               ones := ∅ |}
      | Some _ => sub_masks
      end in
    match masks_get sub_masks pixel with
    | Some bm => masks_set sub_masks pixel (putpixel bm (x + 1) (y + 1))
    | None => sub_masks
    end.

(** [for y in range(height)]. *)
Fixpoint column_loop (img : mask_image) (x : nat) (ys : list nat)
    (sub_masks : list ((Z * Z * Z) * bitmap)) : list ((Z * Z * Z) * bitmap) :=
  match ys with
  | [] => sub_masks
  | y :: rest => column_loop img x rest (visit img x y sub_masks)
  end.

(** [for x in range(width)]. *)
Fixpoint row_loop (img : mask_image) (xs : list nat)
    (sub_masks : list ((Z * Z * Z) * bitmap)) : list ((Z * Z * Z) * bitmap) :=
  match xs with
  | [] => sub_masks
  | x :: rest =>
      row_loop img rest (column_loop img x (seq 0 (im_height img)) sub_masks)
  end.

(** [create_sub_masks]. *)
Definition create_sub_masks (img : mask_image)
  : list ((Z * Z * Z) * bitmap) :=
  row_loop img (seq 0 (im_width img)) [].

(** What [mask_annotation_per_bbox] takes from [json] and Shapely
    beside the geometry of the raster extractors: the decoded
    [mask_data] with its two keys, [int()] on a decoded number, the
    number that an integer is, and [poly.bounds]. *)
Record Vector (G : Mask.Geometry) : Type := {
  jnum : Type;
  loads : string -> result (option (list jnum) * option (list jnum));
  int_of : jnum -> result Z;
  of_int : Z -> Mask.num G;
  poly_bounds : Mask.polygon G
                -> result (Mask.num G * Mask.num G * Mask.num G * Mask.num G)
}.
Arguments jnum {G} _.
Arguments loads {G} _ _.
Arguments int_of {G} _ _.
Arguments of_int {G} _ _.
Arguments poly_bounds {G} _ _.

Section WithVector.

Variable G : Mask.Geometry.
Variable V : Vector G.

(** [d[key]] on the decoded dict. *)
Definition key_item {A : Type} (o : option A) : result A :=
  match o with
  | Some a => Ok a
  | None => Raise KeyError
  end.

(** [for i in range(len(mask_data['all_points_x']))]: both keys are
    looked up again in every round. *)
Fixpoint contour_loop (xs ys : option (list (jnum V))) (n i : nat)
    (contour : list (Z * Z)) : result (list (Z * Z)) :=
  match n with
  | O => Ok contour
  | S n' =>
      px <- key_item xs ;;
      jx <- index px i ;;
      x <- int_of V jx ;;
      py <- key_item ys ;;
      jy <- index py i ;;
      y <- int_of V jy ;;
      contour_loop xs ys n' (S i) (contour ++ [(x, y)])
  end.

(** [contour.ravel().tolist()]. *)
Definition ravel_int (contour : list (Z * Z)) : list (Mask.num G) :=
  flat_map (fun xy => [of_int V (fst xy); of_int V (snd xy)]) contour.

(** [mask_annotation_per_bbox]. *)
Definition mask_annotation_per_bbox (anno_line : list string)
    (image_id category_id annotation_id is_crowd : Z)
  : result (list (Mask.mask_annotation G)) :=
  text <- index anno_line 5 ;;
  mask_data <- loads V text ;;
  xs <- key_item (fst mask_data) ;;
  if (3 <? length xs)%nat then
    xs' <- key_item (fst mask_data) ;;
    contour <- contour_loop (fst mask_data) (snd mask_data) (length xs') 0 [] ;;
    poly <- Mask.make_polygon G
              (map (fun xy => (of_int V (fst xy), of_int V (snd xy))) contour) ;;
    let poly := Mask.simplify G poly in
    let segmentation := ravel_int contour in
    if Mask.positive G (Mask.poly_area G poly) then
      b <- poly_bounds V poly ;;
      Ok [{| Mask.m_segmentation := [segmentation];
             Mask.m_iscrowd := is_crowd;
             Mask.m_image_id := image_id;
             Mask.m_category_id := category_id;
             Mask.m_id := annotation_id;
             Mask.m_bbox := Mask.bbox_of_bounds G b;
             Mask.m_area := Mask.poly_area G poly |}]
    else Ok []
  else Ok [].

End WithVector.

End SubMasks.

(** [c in s] for a character. *)
Fixpoint has_char (c : ascii) (s : string) : bool :=
  match s with
  | EmptyString => false
  | String c' rest => Ascii.eqb c' c || has_char c rest
  end.

(** ** A small colour mask *)

Module DemoSubMasks.

Definition red : Z * Z * Z := (255, 0, 0).
Definition green : Z * Z * Z := (0, 255, 0).

(** Three columns, two rows: red at (0, 1) and (2, 0), green at (1, 1),
    black elsewhere. *)
Definition corner_image : SubMasks.mask_image :=
  {| SubMasks.im_width := 3;
     SubMasks.im_height := 2;
     SubMasks.getpixel := fun x y =>
       match x, y with
       | O, S O => red
       | S (S O), O => red
       | S O, S O => green
       | _, _ => (0, 0, 0)
       end |}.

(** Vector masks on the lattice: the decoded text is looked up by
    name, numbers are integers. *)
Definition outlines : SubMasks.Vector DemoMask.lattice :=
  {| SubMasks.jnum := Z;
     SubMasks.loads := fun s =>
       if String.eqb s "square"
       then Ok (Some [0; 4; 4; 0], Some [0; 0; 4; 4])
       else if String.eqb s "ragged"
       then Ok (Some [0; 4; 4; 0], Some [0; 0; 4])
       else Raise ValueError;
     SubMasks.int_of := fun z => Ok z;
     SubMasks.of_int := fun z : Z => (z : Mask.num DemoMask.lattice);
     SubMasks.poly_bounds :=
       (DemoMask.bounds_of
        : Mask.polygon DemoMask.lattice -> result (Z * Z * Z * Z)) |}.

End DemoSubMasks.

(** ** Two small text files *)

Module DemoText.

Definition newline : ascii := ascii_of_nat 10.

(** The rows of a text without quoting: its lines, cut at the
    delimiter. *)
Definition plain_rows (delimiter : ascii) (text : string)
  : result (list (list string)) :=
  Ok (map (split delimiter)
        (List.filter TextFiles.truthy_str (split newline text))).

Definition table : string :=
  "name  count" +:+ String newline (" leaf  3 " +:+ String newline "").

Definition ids : string :=
  "a1 a2" +:+ String newline ("/abs/a3" +:+ String newline "").

Definition two_files : TextFiles.Reader :=
  {| TextFiles.read_file := fun p =>
       if String.eqb p "table.txt" then Ok table
       else if String.eqb p "ids.txt" then Ok ids
       else Raise FileNotFoundError;
     TextFiles.csv_rows := plain_rows |}.

End DemoText.

(** ** Invariants used in the proofs *)

(** The invariant of the XML job: the ids appended so far are
    1, 2, ..., and the counter is the next one. *)
Definition xml_counter_ok (st : Utils.xml_state) : Prop :=
  map Utils.id (Utils.xs_annotations st)
  = range_from 1 (length (Utils.xs_annotations st))
  /\ Utils.xs_bnd_id st = 1 + Z.of_nat (length (Utils.xs_annotations st)).





(** The ids of the image entries of a bundle. *)
Definition image_ids (imgs : list (option Utils.image_info)) : list Z :=
  omap (fun o => Utils.img_id <$> o) imgs.

(** Every image entry is a dict and every annotation names the id of
    one of them. *)
Definition refers_to_images (imgs : list (option Utils.image_info))
    (anns : list Utils.annotation) : Prop :=
  Forall (fun o => o <> None) imgs
  /\ Forall (fun a => exists info,
                 In (Some info) imgs
                 /\ Utils.image_id a = Utils.img_id info) anns.

(** The sub-masks after the pixels of [visited] have been looked at:
    every colour other than black that was seen has its padded bitmap,
    whose set pixels are the seen pixels of that colour, moved by one
    in both directions. *)
Definition sub_masks_of (img : SubMasks.mask_image)
    (visited : list (nat * nat))
    (d : list ((Z * Z * Z) * SubMasks.bitmap)) : Prop :=
  forall c : Z * Z * Z,
    match SubMasks.masks_get d c with
    | Some bm =>
        c <> (0, 0, 0)
        /\ SubMasks.bm_width bm = (SubMasks.im_width img + 2)%nat
        /\ SubMasks.bm_height bm = (SubMasks.im_height img + 2)%nat
        /\ (exists x y, In (x, y) visited /\ SubMasks.getpixel img x y = c)
        /\ (forall i j : nat,
               (i, j) ∈ SubMasks.ones bm
               <-> exists x y,
                     In (x, y) visited
                     /\ i = (x + 1)%nat /\ j = (y + 1)%nat
                     /\ SubMasks.getpixel img x y = c)
    | None =>
        c = (0, 0, 0)
        \/ forall x y, In (x, y) visited -> SubMasks.getpixel img x y <> c
    end.

(** [Image.new('1', (width+2, height+2))]. *)
Definition fresh_bitmap (img : SubMasks.mask_image) : SubMasks.bitmap :=
  {| SubMasks.bm_width := SubMasks.im_width img + 2;
     SubMasks.bm_height := SubMasks.im_height img + 2;
     SubMasks.ones := ∅ |}.

(** The pixels in the order of the two loops of [create_sub_masks]. *)
Definition scan_order (xs : list nat) (height : nat) : list (nat * nat) :=
  flat_map (fun x => map (pair x) (seq 0 height)) xs.


(** A directory name that [_remove_existing_image_dirs] selects. *)
Definition ends_in_digit (d : string) : Prop :=
  exists c, Converter.last_char d = Some c /\ isdigit c = true.

(** A text as words, each followed by the white space after it:
    [all_space] strings hold white space only, [space_free] strings
    none; the white space between two words is not empty. *)
Definition all_space (g : string) : Prop :=
  forall c, has_char c g = true -> TextFiles.isspace c = true.

Definition space_free (w : string) : Prop :=
  forall c, has_char c w = true -> TextFiles.isspace c = false.

Fixpoint spaced_text (pairs : list (string * string)) : string :=
  match pairs with
  | [] => EmptyString
  | (w, g) :: rest => w +:+ g +:+ spaced_text rest
  end.

Fixpoint well_gapped (pairs : list (string * string)) : Prop :=
  match pairs with
  | [] => True
  | (w, g) :: rest =>
      w <> EmptyString /\ space_free w /\ all_space g
      /\ (rest <> [] -> g <> EmptyString) /\ well_gapped rest
  end.

(** * Properties *)

Import Xml Utils.

(** *** The box extractors *)

Lemma bind_ok {A B : Type} (m : result A) (k : A -> result B) (a : A) :
  m = Ok a -> Py.bind m k = k a.
Proof. intros ->. reflexivity. Qed.

Lemma bind_raise {A B : Type} (m : result A) (k : A -> result B) (e : exn) :
  m = Raise e -> Py.bind m k = Raise e.
Proof. intros ->. reflexivity. Qed.

Lemma ltb_and_true (a b c d : Z) :
  a < b -> c < d -> (a <? b) && (c <? d) = true.
Proof.
  intros Hab Hcd.
  apply andb_true_intro; split; apply Z.ltb_lt; assumption.
Qed.

Lemma ltb_and_false (a b c d : Z) :
  b <= a \/ d <= c -> (a <? b) && (c <? d) = false.
Proof.
  intros [Hle | Hle].
  - apply andb_false_intro1, Z.ltb_ge, Hle.
  - apply andb_false_intro2, Z.ltb_ge, Hle.
Qed.

(** The line-record extractor on a row whose tokens convert. *)
Lemma annoline_converted (E : Env) (label2id : dict Z)
    (t0 t1 t2 t3 t4 : string) (rest : list string) (x1 y1 x2 y2 c : Z) :
  scaled E t0 = Ok x1 -> scaled E t1 = Ok y1 ->
  scaled E t2 = Ok x2 -> scaled E t3 = Ok y2 ->
  py_int E t4 = Ok c ->
  get_coco_annotation_from_annoline E (t0 :: t1 :: t2 :: t3 :: t4 :: rest) label2id
  = if (x1 <? x2) && (y1 <? y2) then
      Ok {| area := (x2 - x1 + 1) * (y2 - y1 + 1);
            iscrowd := 0;
            bbox := [x1; y1; x2 - x1 + 1; y2 - y1 + 1];
            category_id := c;
            ignore := 0;
            segmentation := [] |}
    else Raise AssertionError.
Proof.
  intros H0 H1 H2 H3 H4.
  unfold get_coco_annotation_from_annoline, index; cbn [lookup list_lookup Py.bind].
  rewrite H4; cbn [Py.bind].
  rewrite H0; cbn [Py.bind].
  rewrite H1; cbn [Py.bind].
  rewrite H2; cbn [Py.bind].
  rewrite H3; cbn [Py.bind].
  reflexivity.
Qed.

(** C8: on a row [x1 y1 x2 y2 label ...] whose scaled corners satisfy
    [x2 > x1] and [y2 > y1], the line-record extractor returns the box
    [[x1, y1, x2 - x1 + 1, y2 - y1 + 1]], its area is the product of
    width and height and its category is the integer of the fifth
    token; the record [img.jpg 1 10 10 50 50 2] gives one annotation
    with bbox [[10, 10, 41, 41]], category 2 and area 1681. *)
Theorem line_record_box_inclusive :
  (forall (E : Env) (label2id : dict Z) (t0 t1 t2 t3 t4 : string)
          (rest : list string) (x1 y1 x2 y2 c : Z),
      scaled E t0 = Ok x1 -> scaled E t1 = Ok y1 ->
      scaled E t2 = Ok x2 -> scaled E t3 = Ok y2 ->
      py_int E t4 = Ok c ->
      x2 > x1 -> y2 > y1 ->
      exists ann,
        get_coco_annotation_from_annoline E
          (t0 :: t1 :: t2 :: t3 :: t4 :: rest) label2id = Ok ann
        /\ bbox ann = [x1; y1; x2 - x1 + 1; y2 - y1 + 1]
        /\ area ann = (x2 - x1 + 1) * (y2 - y1 + 1)
        /\ (exists w h, bbox ann = [x1; y1; w; h] /\ area ann = w * h)
        /\ category_id ann = c)
  /\ (exists b a,
        convert_bbox_to_coco Demo.line_env
          [["img.jpg"; "1"; "10"; "10"; "50"; "50"; "2"]]
          [("bg", 1); ("weed", 2)] Demo.plain = Ok b
        /\ annotations b = [a]
        /\ bbox (core a) = [10; 10; 41; 41]
        /\ category_id (core a) = 2
        /\ area (core a) = 1681).
Proof.
  split.
  - intros E label2id t0 t1 t2 t3 t4 rest x1 y1 x2 y2 c H0 H1 H2 H3 H4 Hx Hy.
    rewrite (annoline_converted E label2id t0 t1 t2 t3 t4 rest x1 y1 x2 y2 c)
      by assumption.
    rewrite ltb_and_true by lia.
    eexists; split; [reflexivity |].
    cbn [bbox area category_id].
    repeat split; eauto.
  - eexists; eexists; split; [vm_compute; reflexivity |].
    cbn [annotations]; repeat split.
Qed.

Lemma line_record_box_inclusive_witness :
  exists ann,
    get_coco_annotation_from_annoline Demo.line_env
      ["10"; "10"; "50"; "50"; "2"; "1.000"] [("bg", 1); ("weed", 2)] = Ok ann
    /\ bbox ann = [10; 10; 50 - 10 + 1; 50 - 10 + 1]
    /\ area ann = (50 - 10 + 1) * (50 - 10 + 1)
    /\ (exists w h, bbox ann = [10; 10; w; h] /\ area ann = w * h)
    /\ category_id ann = 2.
Proof.
  apply (proj1 line_record_box_inclusive Demo.line_env [("bg", 1); ("weed", 2)]
           "10" "10" "50" "50" "2" ["1.000"] 10 10 50 50 2);
    first [reflexivity | lia].
Defined.

(** The XML extractor on an object whose label resolves and whose box
    element has four coordinates that convert. *)
Lemma obj_converted (E : Env) (obj : element) (label2id : dict Z)
    (name_converter : option (dict string)) (c : Z) (b : element)
    (x1 y1 x2 y2 : Z) :
  resolve_category obj label2id name_converter = Ok (inr c) ->
  find_box obj = Some b ->
  float_int E (findtext "xmin" b) = Ok x1 ->
  float_int E (findtext "ymin" b) = Ok y1 ->
  float_int E (findtext "xmax" b) = Ok x2 ->
  float_int E (findtext "ymax" b) = Ok y2 ->
  get_coco_annotation_from_obj E obj label2id name_converter
  = if (x1 - 1 <? x2) && (y1 - 1 <? y2) then
      Ok (AnnDict {| area := (x2 - (x1 - 1)) * (y2 - (y1 - 1));
                     iscrowd := 0;
                     bbox := [x1 - 1; y1 - 1; x2 - (x1 - 1); y2 - (y1 - 1)];
                     category_id := c;
                     ignore := 0;
                     segmentation := [] |})
    else Raise AssertionError.
Proof.
  intros Hc Hb Hx1 Hy1 Hx2 Hy2.
  unfold get_coco_annotation_from_obj.
  rewrite Hc; cbn [Py.bind].
  rewrite Hb, Hx1; cbn [Py.bind].
  rewrite Hy1; cbn [Py.bind].
  rewrite Hx2; cbn [Py.bind].
  rewrite Hy2; cbn [Py.bind].
  reflexivity.
Qed.

(** C2, as the code has it: for an object whose label resolves and
    whose box satisfies [xmax > xmin] and [ymax > ymin], the XML
    extractor returns the corner [(xmin - 1, ymin - 1)] and measures
    width and height from that corner, [xmax - xmin + 1] and
    [ymax - ymin + 1]; the object with box 10 10 50 50 gives
    [[9, 9, 41, 41]]; a line record with the same four numbers gets
    the same width and height and the corner [(xmin, ymin)]. *)
Theorem xml_box_from_inset_corner :
  (forall (E : Env) (obj : element) (label2id : dict Z)
          (name_converter : option (dict string)) (c : Z) (b : element)
          (x1 y1 x2 y2 : Z),
      resolve_category obj label2id name_converter = Ok (inr c) ->
      find_box obj = Some b ->
      float_int E (findtext "xmin" b) = Ok x1 ->
      float_int E (findtext "ymin" b) = Ok y1 ->
      float_int E (findtext "xmax" b) = Ok x2 ->
      float_int E (findtext "ymax" b) = Ok y2 ->
      x2 > x1 -> y2 > y1 ->
      exists a,
        get_coco_annotation_from_obj E obj label2id name_converter
        = Ok (AnnDict a)
        /\ bbox a = [x1 - 1; y1 - 1; x2 - x1 + 1; y2 - y1 + 1]
        /\ area a = (x2 - x1 + 1) * (y2 - y1 + 1)
        /\ category_id a = c
        /\ forall (t0 t1 t2 t3 t4 : string) (rest : list string) (c' : Z),
             scaled E t0 = Ok x1 -> scaled E t1 = Ok y1 ->
             scaled E t2 = Ok x2 -> scaled E t3 = Ok y2 ->
             py_int E t4 = Ok c' ->
             exists a',
               get_coco_annotation_from_annoline E
                 (t0 :: t1 :: t2 :: t3 :: t4 :: rest) label2id = Ok a'
               /\ bbox a' = [x1; y1; x2 - x1 + 1; y2 - y1 + 1])
  /\ (exists a,
        get_coco_annotation_from_obj Demo.line_env Demo.leaf_object
          [("leaf", 1)] None = Ok (AnnDict a)
        /\ bbox a = [9; 9; 41; 41]
        /\ category_id a = 1).
Proof.
  split.
  - intros E obj label2id name_converter c b x1 y1 x2 y2
      Hc Hb Hx1 Hy1 Hx2 Hy2 Hx Hy.
    rewrite (obj_converted E obj label2id name_converter c b x1 y1 x2 y2)
      by assumption.
    rewrite ltb_and_true by lia.
    eexists; split; [reflexivity |].
    cbn [bbox area category_id].
    split; [repeat f_equal; lia |].
    split; [f_equal; lia |].
    split; [reflexivity |].
    intros t0 t1 t2 t3 t4 rest c' H0 H1 H2 H3 H4.
    rewrite (annoline_converted E label2id t0 t1 t2 t3 t4 rest x1 y1 x2 y2 c')
      by assumption.
    rewrite ltb_and_true by lia.
    eexists; split; reflexivity.
  - eexists; split; [vm_compute; reflexivity |].
    split; reflexivity.
Qed.

Lemma xml_box_from_inset_corner_witness :
  exists a,
    get_coco_annotation_from_obj Demo.line_env Demo.leaf_object
      [("leaf", 1)] None = Ok (AnnDict a)
    /\ bbox a = [10 - 1; 10 - 1; 50 - 10 + 1; 50 - 10 + 1]
    /\ area a = (50 - 10 + 1) * (50 - 10 + 1)
    /\ category_id a = 1
    /\ forall (t0 t1 t2 t3 t4 : string) (rest : list string) (c' : Z),
         scaled Demo.line_env t0 = Ok 10 -> scaled Demo.line_env t1 = Ok 10 ->
         scaled Demo.line_env t2 = Ok 50 -> scaled Demo.line_env t3 = Ok 50 ->
         py_int Demo.line_env t4 = Ok c' ->
         exists a',
           get_coco_annotation_from_annoline Demo.line_env
             (t0 :: t1 :: t2 :: t3 :: t4 :: rest) [("leaf", 1)] = Ok a'
           /\ bbox a' = [10; 10; 50 - 10 + 1; 50 - 10 + 1].
Proof.
  apply (proj1 xml_box_from_inset_corner Demo.line_env Demo.leaf_object
           [("leaf", 1)] None 1 (Demo.bndbox_of "10" "10" "50" "50")
           10 10 50 50);
    first [reflexivity | lia].
Defined.

(** C2 as the spec states it fails on its own example: the object with
    box 10 10 50 50 does not get [[9, 9, 40, 40]], and its width is not
    [xmax - xmin]. *)
Lemma xml_box_example_not_exclusive :
  exists a,
    get_coco_annotation_from_obj Demo.line_env Demo.leaf_object
      [("leaf", 1)] None = Ok (AnnDict a)
    /\ bbox a <> [9; 9; 40; 40]
    /\ bbox a !! 2%nat <> Some (50 - 10).
Proof.
  eexists; split; [vm_compute; reflexivity |].
  split; cbn; intros Heq; discriminate Heq.
Qed.

(** *** Labels outside the label map, objects without a box *)

Lemma resolve_sublabel (obj : element) (label2id : dict Z)
    (name_converter : option (dict string)) (s : string) :
  findtext "subname" obj = Some s ->
  resolve_category obj label2id name_converter
  = match dict_get label2id s with
    | Some c => Ok (inr c)
    | None => Raise KeyError
    end.
Proof.
  intros Hs. unfold resolve_category, dict_item. rewrite Hs.
  destruct (dict_get label2id s); reflexivity.
Qed.

Lemma resolve_primary (obj : element) (label2id : dict Z)
    (name_converter : option (dict string)) :
  findtext "subname" obj = None ->
  resolve_category obj label2id name_converter
  = match remap_label name_converter (findtext "name" obj) with
    | Some l =>
        match dict_get label2id l with
        | Some c => Ok (inr c)
        | None => Ok (inl tt)
        end
    | None => Ok (inl tt)
    end.
Proof.
  intros Hs. unfold resolve_category, dict_item, dict_mem. rewrite Hs.
  destruct (remap_label name_converter (findtext "name" obj)) as [l |];
    [| reflexivity].
  destruct (dict_get label2id l); reflexivity.
Qed.

(** C6 at the failing input: an object whose sub-label is not in the
    label map makes the extractor raise [KeyError] whatever else the
    object holds, and the XML job that meets it stops; only the fall
    back on the primary label returns the empty list. *)
Theorem unknown_sublabel_raises :
  (forall (E : Env) (obj : element) (label2id : dict Z)
          (name_converter : option (dict string)) (s : string),
      findtext "subname" obj = Some s ->
      dict_get label2id s = None ->
      get_coco_annotation_from_obj E obj label2id name_converter
      = Raise KeyError)
  /\ (forall (E : Env) (obj : element) (label2id : dict Z)
             (name_converter : option (dict string)),
        findtext "subname" obj = None ->
        (forall l, remap_label name_converter (findtext "name" obj) = Some l ->
                   dict_get label2id l = None) ->
        get_coco_annotation_from_obj E obj label2id name_converter
        = Ok AnnEmpty)
  /\ get_coco_annotation_from_obj Demo.xml_env Demo.sublabel_object
       [("plant", 1)] None = Raise KeyError
  /\ convert_xmls_to_cocojson Demo.xml_env ["a.xml"; "e.xml"] []
       Demo.xml_labels None false = Raise KeyError.
Proof.
  split; [| split; [| split; vm_compute; reflexivity]].
  - intros E obj label2id name_converter s Hs Hnone.
    unfold get_coco_annotation_from_obj.
    rewrite (resolve_sublabel obj label2id name_converter s Hs), Hnone.
    reflexivity.
  - intros E obj label2id name_converter Hs Hnone.
    unfold get_coco_annotation_from_obj.
    rewrite (resolve_primary obj label2id name_converter Hs).
    destruct (remap_label name_converter (findtext "name" obj)) as [l |];
      [| reflexivity].
    rewrite (Hnone l eq_refl). reflexivity.
Qed.

Lemma unknown_sublabel_raises_witness :
  get_coco_annotation_from_obj Demo.xml_env Demo.sublabel_object
    Demo.xml_labels None = Raise KeyError.
Proof.
  apply (proj1 unknown_sublabel_raises Demo.xml_env Demo.sublabel_object
           Demo.xml_labels None "weed"); reflexivity.
Defined.

(** C10, with the input on which it fails: for an object with neither
    a [bndbox] nor a [bbox] child the extractor returns [None] (or the
    empty list when the primary label is unknown) and the assembler
    goes on with the next object, except that a sub-label outside the
    label map raises [KeyError] before the box is looked for. *)
Theorem boxless_object_result :
  (forall (E : Env) (obj : element) (label2id : dict Z)
          (name_converter : option (dict string)),
      find "bndbox" obj = None ->
      find "bbox" obj = None ->
      match findtext "subname" obj with
      | Some s =>
          get_coco_annotation_from_obj E obj label2id name_converter
          = if dict_mem label2id s then Ok AnnNone else Raise KeyError
      | None =>
          get_coco_annotation_from_obj E obj label2id name_converter
          = Ok AnnNone
          \/ get_coco_annotation_from_obj E obj label2id name_converter
             = Ok AnnEmpty
      end)
  /\ (forall (E : Env) (obj : element) (label2id : dict Z)
             (name_converter : option (dict string))
             (img_info : option image_info) (rest : list element)
             (bnd_id : Z) (anns : list annotation),
        get_coco_annotation_from_obj E obj label2id name_converter
        = Ok AnnNone ->
        objects_loop E label2id name_converter img_info (obj :: rest)
          bnd_id anns
        = objects_loop E label2id name_converter img_info rest bnd_id anns)
  /\ get_coco_annotation_from_obj Demo.xml_env Demo.sublabel_boxless
       [("plant", 1)] None = Raise KeyError.
Proof.
  split; [| split; [| vm_compute; reflexivity]].
  - intros E obj label2id name_converter Hb1 Hb2.
    unfold get_coco_annotation_from_obj, find_box.
    rewrite Hb1, Hb2.
    destruct (findtext "subname" obj) as [s |] eqn:Hs.
    + rewrite (resolve_sublabel obj label2id name_converter s Hs).
      unfold dict_mem.
      destruct (dict_get label2id s); reflexivity.
    + rewrite (resolve_primary obj label2id name_converter Hs).
      destruct (remap_label name_converter (findtext "name" obj)) as [l |];
        [| right; reflexivity].
      destruct (dict_get label2id l); [left | right]; reflexivity.
  - intros E obj label2id name_converter img_info rest bnd_id anns Hnone.
    cbn [objects_loop]. rewrite Hnone. reflexivity.
Qed.

Lemma boxless_object_result_witness :
  get_coco_annotation_from_obj Demo.xml_env Demo.boxless_object
    Demo.xml_labels None = Ok AnnNone
  \/ get_coco_annotation_from_obj Demo.xml_env Demo.boxless_object
       Demo.xml_labels None = Ok AnnEmpty.
Proof.
  apply (proj1 boxless_object_result Demo.xml_env Demo.boxless_object
           Demo.xml_labels None); reflexivity.
Defined.

(** *** Degenerate boxes and unreadable images in the assemblers *)

Lemma is_ok_bind_raise {A B : Type} (m : result A) (k : A -> result B) :
  is_ok m = false -> is_ok (Py.bind m k) = false.
Proof. destruct m; [discriminate | reflexivity]. Qed.

Lemma is_ok_bind_all {A B : Type} (m : result A) (k : A -> result B) :
  (forall a, is_ok (k a) = false) -> is_ok (Py.bind m k) = false.
Proof. intros Hk. destruct m; [apply Hk | reflexivity]. Qed.

(** A row whose extraction raises is dropped and the loop goes on. *)
Lemma boxes_loop_skip (E : Env) (opts : options) (label2id : dict Z)
    (path : string) (w img_idx : nat) (img_info : image_info)
    (obj obj' : list string) (rest : list (list string)) (k : nat)
    (anns : list annotation) (e : exn) :
  relabel_row E opts label2id path w obj = Ok obj' ->
  get_coco_annotation_from_annoline E obj' label2id = Raise e ->
  boxes_loop E opts label2id path w img_idx img_info (obj :: rest) k anns
  = boxes_loop E opts label2id path w img_idx img_info rest (S k) anns.
Proof.
  intros Hrow Hraise. cbn [boxes_loop].
  rewrite Hrow; cbn [Py.bind].
  rewrite Hraise; cbn [Py.bind try_except].
  reflexivity.
Qed.

(** An object on which the extractor raises stops the object loop. *)
Lemma objects_loop_raises (E : Env) (label2id : dict Z)
    (name_converter : option (dict string)) (img_info : option image_info)
    (obj : element) (e : exn) (objs : list element) :
  In obj objs ->
  get_coco_annotation_from_obj E obj label2id name_converter = Raise e ->
  forall (bnd_id : Z) (anns : list annotation),
    is_ok (objects_loop E label2id name_converter img_info objs bnd_id anns)
    = false.
Proof.
  intros Hin Hraise.
  induction objs as [| o objs IH]; [destruct Hin |].
  intros bnd_id anns. cbn [objects_loop].
  destruct (get_coco_annotation_from_obj E o label2id name_converter)
    as [r | e'] eqn:Ho; cbn [Py.bind]; [| reflexivity].
  destruct Hin as [-> | Hin]; [congruence |].
  destruct (ann_truthy r) as [a |]; [| apply IH, Hin].
  destruct img_info as [info |]; [apply IH, Hin | reflexivity].
Qed.

(** Overriding the file name leaves the objects of the tree alone. *)
Lemma set_first_text_objects (p : string) (cs cs' : list element) :
  set_first_text "filename" p cs = Some cs' ->
  List.filter (has_tag "object") cs' = List.filter (has_tag "object") cs.
Proof.
  revert cs'. induction cs as [| c cs IH]; intros cs' Hset; [discriminate |].
  cbn [set_first_text] in Hset.
  destruct (has_tag "filename" c) eqn:Htag.
  - injection Hset as <-. cbn [List.filter].
    unfold has_tag in Htag |- *. cbn [tag].
    apply String.eqb_eq in Htag. rewrite Htag. reflexivity.
  - destruct (set_first_text "filename" p cs) as [rest' |]; [| discriminate].
    injection Hset as <-. cbn [List.filter].
    rewrite (IH rest' eq_refl). reflexivity.
Qed.

Lemma override_filename_objects (img_paths : list string) (n_ann img_idx : nat)
    (root root' : element) :
  override_filename img_paths n_ann img_idx root = Ok root' ->
  findall "object" root' = findall "object" root.
Proof.
  unfold override_filename.
  destruct (length img_paths =? n_ann)%nat; [| intros [= <-]; reflexivity].
  destruct (index img_paths img_idx) as [p | e]; cbn [Py.bind]; [| discriminate].
  destruct (set_first_text "filename" p (children root)) as [cs |] eqn:Hset;
    [| discriminate].
  intros [= <-]. unfold findall. cbn [children].
  apply (set_first_text_objects p), Hset.
Qed.

(** A failing step anywhere in the list stops the XML job. *)
Lemma xmls_loop_raises (E : Env) (img_paths : list string) (n_ann : nat)
    (label2id : dict Z) (name_converter : option (dict string))
    (extract_num : bool) (a_path : string) (paths : list string) :
  In a_path paths ->
  (forall (img_idx : nat) (st : xml_state),
      is_ok (xml_step E img_paths n_ann label2id name_converter extract_num
               img_idx a_path st) = false) ->
  forall (img_idx : nat) (st : xml_state),
    is_ok (xmls_loop E img_paths n_ann label2id name_converter extract_num
             paths img_idx st) = false.
Proof.
  intros Hin Hstep.
  induction paths as [| p paths IH]; [destruct Hin |].
  intros img_idx st. cbn [xmls_loop].
  destruct Hin as [-> | Hin].
  - apply is_ok_bind_raise, Hstep.
  - apply is_ok_bind_all. intros st'. apply IH, Hin.
Qed.

(** An image that does not decode: the XML resolver returns
    [(None, None)], or raises [IndexError] from its handler. *)
Lemma get_image_info_unreadable (E : Env) (root : element) (idx : Z)
    (resize_on add_foldername : bool) :
  (forall f, findtext "filename" root = Some f -> imread E f = None) ->
  get_image_info E root idx resize_on add_foldername = Ok (None, None)
  \/ get_image_info E root idx resize_on add_foldername = Raise IndexError.
Proof.
  intros Hbad. unfold get_image_info.
  destruct (findtext "filename" root) as [f |] eqn:Hf; cbn [Py.bind].
  - unfold load_and_resize. rewrite (Hbad f eq_refl). cbn [Py.bind].
    unfold index. destruct (children root !! 0%nat); [left | right]; reflexivity.
  - unfold index. destruct (children root !! 0%nat); [left | right]; reflexivity.
Qed.

(** The line-record resolver on an image that does not decode. *)
Lemma get_image_info_from_annoline_unreadable (E : Env) (path : string)
    (rest : list string) (idx : Z) (resize_on add_foldername : bool) :
  imread E path = None ->
  get_image_info_from_annoline E (path :: rest) idx resize_on add_foldername
  = Ok (None, None).
Proof.
  intros Hbad. unfold get_image_info_from_annoline, index.
  cbn [lookup list_lookup Py.bind].
  destruct (index_from_end (split "/" path) 1) as [filename | e] eqn:Hlast.
  - cbn [Py.bind]. unfold load_and_resize. rewrite Hbad. reflexivity.
  - exfalso. unfold index_from_end, index in Hlast.
    destruct (split "/" path) as [| w ws] eqn:Hsplit.
    + destruct path as [| c path']; cbn in Hsplit; [discriminate |].
      destruct (Ascii.eqb c "/"); [discriminate |].
      destruct (split "/" path'); discriminate.
    + cbn [length] in Hlast.
      assert (Hlookup : is_Some ((w :: ws) !! (S (length ws) - 1)%nat)).
      { apply lookup_lt_is_Some. cbn [length]. lia. }
      destruct Hlookup as [x Hx]. cbn [Nat.leb] in Hlast.
      rewrite Hx in Hlast. discriminate.
Qed.

(** An XML step whose tree holds an object on which the extractor
    raises never completes. *)
Lemma xml_step_raises (E : Env) (img_paths : list string) (n_ann : nat)
    (label2id : dict Z) (name_converter : option (dict string))
    (extract_num : bool) (a_path : string) (root obj : element) (e : exn) :
  et_parse E a_path = Ok root ->
  In obj (findall "object" root) ->
  get_coco_annotation_from_obj E obj label2id name_converter = Raise e ->
  forall (img_idx : nat) (st : xml_state),
    is_ok (xml_step E img_paths n_ann label2id name_converter extract_num
             img_idx a_path st) = false.
Proof.
  intros Hparse Hin Hraise img_idx st. unfold xml_step.
  rewrite Hparse; cbn [Py.bind].
  apply is_ok_bind_all; intros img_unique_id.
  destruct (override_filename img_paths n_ann img_idx root) as [root' | e']
    eqn:Hover; cbn [Py.bind]; [| reflexivity].
  apply is_ok_bind_all; intros r.
  apply is_ok_bind_raise.
  apply (objects_loop_raises E label2id name_converter (fst r) obj e);
    [| exact Hraise].
  rewrite (override_filename_objects _ _ _ _ _ Hover). exact Hin.
Qed.

(** An XML step whose image does not decode never completes. *)
Lemma xml_step_unreadable (E : Env) (img_paths : list string) (n_ann : nat)
    (label2id : dict Z) (name_converter : option (dict string))
    (extract_num : bool) (a_path : string) (root : element) :
  et_parse E a_path = Ok root ->
  (forall (img_idx : nat) (root' : element) (f : string),
      override_filename img_paths n_ann img_idx root = Ok root' ->
      findtext "filename" root' = Some f -> imread E f = None) ->
  forall (img_idx : nat) (st : xml_state),
    is_ok (xml_step E img_paths n_ann label2id name_converter extract_num
             img_idx a_path st) = false.
Proof.
  intros Hparse Hbad img_idx st. unfold xml_step.
  rewrite Hparse; cbn [Py.bind].
  apply is_ok_bind_all; intros img_unique_id.
  destruct (override_filename img_paths n_ann img_idx root) as [root' | e']
    eqn:Hover; cbn [Py.bind]; [| reflexivity].
  destruct (get_image_info_unreadable E root' img_unique_id false false)
    as [Hnone | Hraise].
  { intros f Hf. exact (Hbad img_idx root' f Hover Hf). }
  - rewrite Hnone; cbn [Py.bind fst].
    apply is_ok_bind_all; intros r. reflexivity.
  - rewrite Hraise. reflexivity.
Qed.

(** C4, as the code has it: the line-record extractor raises
    [AssertionError] on a box with [xmax <= xmin] or [ymax <= ymin],
    but the line-record assembler catches whatever the extractor
    raises, drops the box and goes on; the XML extractor raises
    [AssertionError] on an object with a resolved label and a box that
    is degenerate after the corner correction, and an XML job that
    holds an object on which the extractor raises does not complete. *)
Theorem degenerate_box_handling :
  (forall (E : Env) (label2id : dict Z) (t0 t1 t2 t3 t4 : string)
          (rest : list string) (x1 y1 x2 y2 c : Z),
      scaled E t0 = Ok x1 -> scaled E t1 = Ok y1 ->
      scaled E t2 = Ok x2 -> scaled E t3 = Ok y2 ->
      py_int E t4 = Ok c ->
      x2 <= x1 \/ y2 <= y1 ->
      get_coco_annotation_from_annoline E
        (t0 :: t1 :: t2 :: t3 :: t4 :: rest) label2id = Raise AssertionError)
  /\ (forall (E : Env) (opts : options) (label2id : dict Z) (path : string)
             (w img_idx : nat) (img_info : image_info)
             (obj obj' : list string) (rest : list (list string)) (k : nat)
             (anns : list annotation) (e : exn),
        relabel_row E opts label2id path w obj = Ok obj' ->
        get_coco_annotation_from_annoline E obj' label2id = Raise e ->
        boxes_loop E opts label2id path w img_idx img_info (obj :: rest) k anns
        = boxes_loop E opts label2id path w img_idx img_info rest (S k) anns)
  /\ (forall (E : Env) (obj : element) (label2id : dict Z)
             (name_converter : option (dict string)) (c : Z) (b : element)
             (x1 y1 x2 y2 : Z),
        resolve_category obj label2id name_converter = Ok (inr c) ->
        find_box obj = Some b ->
        float_int E (findtext "xmin" b) = Ok x1 ->
        float_int E (findtext "ymin" b) = Ok y1 ->
        float_int E (findtext "xmax" b) = Ok x2 ->
        float_int E (findtext "ymax" b) = Ok y2 ->
        x2 <= x1 - 1 \/ y2 <= y1 - 1 ->
        get_coco_annotation_from_obj E obj label2id name_converter
        = Raise AssertionError)
  /\ (forall (E : Env) (annotation_paths img_paths : list string)
             (label2id : dict Z) (name_converter : option (dict string))
             (extract_num : bool) (a_path : string) (root obj : element)
             (e : exn),
        In a_path annotation_paths ->
        et_parse E a_path = Ok root ->
        In obj (findall "object" root) ->
        get_coco_annotation_from_obj E obj label2id name_converter = Raise e ->
        is_ok (convert_xmls_to_cocojson E annotation_paths img_paths label2id
                 name_converter extract_num) = false)
  /\ convert_xmls_to_cocojson Demo.xml_env ["a.xml"; "b.xml"] []
       Demo.xml_labels None false = Raise AssertionError.
Proof.
  split; [| split; [| split; [| split; [| vm_compute; reflexivity]]]].
  - intros E label2id t0 t1 t2 t3 t4 rest x1 y1 x2 y2 c H0 H1 H2 H3 H4 Hdeg.
    rewrite (annoline_converted E label2id t0 t1 t2 t3 t4 rest x1 y1 x2 y2 c)
      by assumption.
    rewrite ltb_and_false by exact Hdeg. reflexivity.
  - intros E opts label2id path w img_idx img_info obj obj' rest k anns e.
    apply boxes_loop_skip.
  - intros E obj label2id name_converter c b x1 y1 x2 y2
      Hc Hb Hx1 Hy1 Hx2 Hy2 Hdeg.
    rewrite (obj_converted E obj label2id name_converter c b x1 y1 x2 y2)
      by assumption.
    rewrite ltb_and_false by exact Hdeg. reflexivity.
  - intros E annotation_paths img_paths label2id name_converter extract_num
      a_path root obj e Hin Hparse Hobj Hraise.
    unfold convert_xmls_to_cocojson.
    apply is_ok_bind_raise.
    apply (xmls_loop_raises E img_paths (length annotation_paths) label2id
             name_converter extract_num a_path); [exact Hin |].
    apply (xml_step_raises E img_paths (length annotation_paths) label2id
             name_converter extract_num a_path root obj e); assumption.
Qed.

Lemma degenerate_box_handling_witness :
  get_coco_annotation_from_annoline Demo.line_env
    ["50"; "10"; "10"; "50"; "2"] [("bg", 1); ("weed", 2)]
  = Raise AssertionError.
Proof.
  apply (proj1 degenerate_box_handling Demo.line_env [("bg", 1); ("weed", 2)]
           "50" "10" "10" "50" "2" [] 50 10 10 50 2);
    first [reflexivity | lia].
Defined.

(** C4 as the spec states it fails for the line-record assembler: the
    extractor raises on the degenerate box of the record, and the job
    still completes, with the image and without the box. *)
Lemma degenerate_line_box_is_caught :
  get_coco_annotation_from_annoline Demo.line_env
    (drop 2 Demo.degenerate_line) [("bg", 1); ("weed", 2)]
  = Raise AssertionError
  /\ exists b,
       convert_bbox_to_coco Demo.line_env [Demo.degenerate_line]
         [("bg", 1); ("weed", 2)] Demo.plain = Ok b
       /\ length (images b) = 1%nat
       /\ annotations b = [].
Proof.
  split; [vm_compute; reflexivity |].
  eexists; split; [vm_compute; reflexivity |].
  split; reflexivity.
Qed.

(** C3 at the failing input: both resolvers turn an image that does not
    decode into [(None, None)] and the line-record assembler then skips
    the record, but the XML assembler has no such test: a job that
    holds an annotation file whose image does not decode never
    completes, as the job on [a.xml] and [c.xml] shows, which stops
    with [TypeError]. *)
Theorem unreadable_image_aborts_xml_job :
  (forall (E : Env) (opts : options) (label2id : dict Z) (img_idx : nat)
          (path : string) (rest : list string)
          (st : list (option image_info) * list annotation),
      imread E path = None ->
      is_ok (line_image_id E opts (path :: rest) img_idx) = true ->
      line_step E opts label2id img_idx (path :: rest) st = Ok st)
  /\ (forall (E : Env) (annotation_paths img_paths : list string)
             (label2id : dict Z) (name_converter : option (dict string))
             (extract_num : bool) (a_path : string) (root : element),
        In a_path annotation_paths ->
        et_parse E a_path = Ok root ->
        (forall (img_idx : nat) (root' : element) (f : string),
            override_filename img_paths (length annotation_paths) img_idx root
            = Ok root' ->
            findtext "filename" root' = Some f -> imread E f = None) ->
        is_ok (convert_xmls_to_cocojson E annotation_paths img_paths label2id
                 name_converter extract_num) = false)
  /\ convert_xmls_to_cocojson Demo.xml_env ["a.xml"; "c.xml"] []
       Demo.xml_labels None false = Raise TypeError
  /\ (exists b img,
        convert_bbox_to_coco Demo.line_env
          [["missing.jpg"; "1"; "10"; "10"; "50"; "50"; "2"];
           ["img.jpg"; "1"; "10"; "10"; "50"; "50"; "2"]]
          [("bg", 1); ("weed", 2)] Demo.plain = Ok b
        /\ images b = [Some img]
        /\ file_name img = "img.jpg"
        /\ map image_id (annotations b) = [img_id img]).
Proof.
  split; [| split; [| split; [vm_compute; reflexivity |]]].
  - intros E opts label2id img_idx path rest st Hbad Hid.
    unfold line_step.
    destruct (line_image_id E opts (path :: rest) img_idx) as [i | e];
      [| discriminate].
    cbn [Py.bind].
    rewrite (get_image_info_from_annoline_unreadable E path rest i _ _ Hbad).
    reflexivity.
  - intros E annotation_paths img_paths label2id name_converter extract_num
      a_path root Hin Hparse Hbad.
    unfold convert_xmls_to_cocojson.
    apply is_ok_bind_raise.
    apply (xmls_loop_raises E img_paths (length annotation_paths) label2id
             name_converter extract_num a_path); [exact Hin |].
    apply (xml_step_unreadable E img_paths (length annotation_paths) label2id
             name_converter extract_num a_path root); assumption.
  - eexists; eexists; split; [vm_compute; reflexivity |].
    repeat split.
Qed.

Lemma unreadable_image_aborts_xml_job_witness :
  is_ok (convert_xmls_to_cocojson Demo.xml_env ["a.xml"; "c.xml"] []
           Demo.xml_labels None false) = false.
Proof.
  apply (proj1 (proj2 unreadable_image_aborts_xml_job) Demo.xml_env
           ["a.xml"; "c.xml"] [] Demo.xml_labels None false "c.xml"
           (Demo.annotation_file "missing.jpg" [Demo.leaf_object])).
  - right; left; reflexivity.
  - reflexivity.
  - intros img_idx root' f Hover Hf.
    cbn in Hover. injection Hover as <-.
    cbn in Hf. injection Hf as <-.
    reflexivity.
Defined.

(** *** The category list *)

Lemma dict_set_fresh {V : Type} (d : dict V) (k : string) (v : V) :
  dict_get d k = None -> dict_set d k v = d ++ [(k, v)].
Proof.
  induction d as [| [k' v'] d IH]; cbn [dict_get dict_set app]; intros Hnone;
    [reflexivity |].
  destruct (String.eqb k' k); [discriminate |].
  rewrite IH by exact Hnone. reflexivity.
Qed.

Lemma dict_get_snoc_ne {V : Type} (d : dict V) (k k' : string) (v : V) :
  k <> k' -> dict_get (d ++ [(k, v)]) k' = dict_get d k'.
Proof.
  intros Hne.
  induction d as [| [k0 v0] d IH]; cbn [dict_get app].
  - destruct (String.eqb k k') eqn:Heq; [| reflexivity].
    apply String.eqb_eq in Heq. contradiction.
  - destruct (String.eqb k0 k'); [reflexivity | exact IH].
Qed.

(** Building a dict from pairs with distinct keys keeps the pairs in
    their order. *)
Lemma dict_of_pairs_distinct {V : Type} (pairs : list (string * V)) :
  forall d : dict V,
    NoDup (map fst pairs) ->
    (forall k, k ∈ map fst pairs -> dict_get d k = None) ->
    fold_left (fun d kv => dict_set d (fst kv) (snd kv)) pairs d = d ++ pairs.
Proof.
  induction pairs as [| [k v] pairs IH]; intros d Hnd Hfresh;
    cbn [fold_left map fst snd].
  - rewrite app_nil_r. reflexivity.
  - cbn [map fst] in Hnd. apply NoDup_cons in Hnd as [Hk Hnd].
    rewrite dict_set_fresh by (apply Hfresh; cbn [map fst]; left).
    rewrite IH.
    + rewrite <- app_assoc. reflexivity.
    + exact Hnd.
    + intros k' Hk'. rewrite dict_get_snoc_ne.
      * apply Hfresh. cbn [map fst]. right. exact Hk'.
      * intros ->. contradiction.
Qed.

Lemma zip_range_fst {A : Type} (l : list A) :
  forall lo, map fst (zip l (range_from lo (length l))) = l.
Proof.
  induction l as [| x l IH]; intros lo; cbn; [reflexivity |].
  rewrite IH. reflexivity.
Qed.

Lemma zip_range_snd {A : Type} (l : list A) :
  forall lo, map snd (zip l (range_from lo (length l)))
             = range_from lo (length l).
Proof.
  induction l as [| x l IH]; intros lo; cbn; [reflexivity |].
  rewrite IH. reflexivity.
Qed.

(** The registry of distinct labels lists them in order with the ids
    1, 2, ... *)
Lemma get_label2id_distinct (labels_str : list string) :
  NoDup labels_str ->
  get_label2id labels_str = zip labels_str (range_from 1 (length labels_str)).
Proof.
  intros Hnd. unfold get_label2id, dict_of_pairs.
  rewrite dict_of_pairs_distinct.
  - reflexivity.
  - rewrite zip_range_fst. exact Hnd.
  - intros k _. reflexivity.
Qed.

Lemma category_coco_ids (labels : list string) :
  forall lo : nat,
    map cat_id
      (imap (fun i name => {| supercategory := "none";
                              cat_id := Z.of_nat (lo + i);
                              name := name |}) labels)
    = range_from (Z.of_nat lo) (length labels).
Proof.
  induction labels as [| l labels IH]; intros lo; cbn [imap map length range_from];
    [reflexivity |].
  f_equal.
  - cbn [cat_id]. f_equal. lia.
  - replace (Z.of_nat lo + 1) with (Z.of_nat (S lo)) by lia.
    rewrite <- (IH (S lo)). f_equal.
    apply imap_ext. intros i x _. cbn. do 2 f_equal. lia.
Qed.

Lemma category_coco_names (labels : list string) :
  map name (Converter.category_coco labels) = labels.
Proof.
  unfold Converter.category_coco.
  apply list_eq. intros i.
  rewrite list_lookup_fmap, list_lookup_imap.
  destruct (labels !! i); reflexivity.
Qed.

Lemma labels_to_boxes_keys (H : Converter.Host)
    (meta : Converter.DataFormatConverterMetadata) (fs : Converter.FS)
    (image_dir : list string) (labels : list string) :
  forall (indx : nat) (bboxes out : list (Z * list (Z * Z * Z * Z))),
    Converter.labels_to_boxes H meta fs image_dir labels indx bboxes = Ok out ->
    map fst out
    = map fst bboxes ++ range_from (Z.of_nat indx + 1) (length labels).
Proof.
  induction labels as [| label labels IH]; intros indx bboxes out Hrun;
    cbn [Converter.labels_to_boxes] in Hrun.
  - injection Hrun as <-. cbn [length range_from]. rewrite app_nil_r. reflexivity.
  - destruct (Converter.locate_label_file fs image_dir label) as [p | e];
      cbn [Py.bind] in Hrun; [| discriminate].
    destruct (Converter.read_text fs p) as [data | e];
      cbn [Py.bind] in Hrun; [| discriminate].
    destruct (Converter.boxes_of_text H (Converter.image_size meta) data)
      as [coords | e]; cbn [Py.bind] in Hrun; [| discriminate].
    rewrite (IH _ _ _ Hrun), map_app, <- app_assoc.
    cbn [map fst app length range_from].
    do 3 f_equal. lia.
Qed.

(** C5 at the failing input: the two assemblers of [utils.py] emit one
    category per entry of the label map, and for the registry of
    distinct labels these carry the ids 1, 2, ... in label order; the
    synthetic reorganizer numbers its categories 0, 1, ... while the
    annotations it writes carry the category ids 1, 2, ..., so with the
    labels [fruits leaves] the category [fruits] has id 0. *)
Theorem synthetic_category_ids_start_at_zero :
  (forall (E : Env) (annotation : list (list string)) (label2id : dict Z)
          (opts : options) (b : bundle),
      convert_bbox_to_coco E annotation label2id opts = Ok b ->
      categories b = category_list label2id)
  /\ (forall (E : Env) (annotation_paths img_paths : list string)
             (label2id : dict Z) (name_converter : option (dict string))
             (extract_num : bool) (b : bundle),
        convert_xmls_to_cocojson E annotation_paths img_paths label2id
          name_converter extract_num = Ok b ->
        categories b = category_list label2id)
  /\ (forall labels_str : list string,
        NoDup labels_str ->
        map name (category_list (get_label2id labels_str)) = labels_str
        /\ map cat_id (category_list (get_label2id labels_str))
           = range_from 1 (length labels_str)
        /\ Forall (fun c => supercategory c = "none")
             (category_list (get_label2id labels_str)))
  /\ (forall labels : list string,
        map name (Converter.category_coco labels) = labels
        /\ map cat_id (Converter.category_coco labels)
           = range_from 0 (length labels))
  /\ (forall (H : Converter.Host) (meta : Converter.DataFormatConverterMetadata)
             (fs : Converter.FS) (image_dir : list string)
             (bboxes : list (Z * list (Z * Z * Z * Z))),
        Converter._convert_text_files_to_object_annotations H meta fs image_dir
        = Ok bboxes ->
        map fst bboxes = range_from 1 (length (Converter.labels meta)))
  /\ Converter.category_coco ["fruits"; "leaves"]
     = [{| supercategory := "none"; cat_id := 0; name := "fruits" |};
        {| supercategory := "none"; cat_id := 1; name := "leaves" |}].
Proof.
  split; [| split; [| split; [| split; [| split; [| reflexivity]]]]].
  - intros E annotation label2id opts b. unfold convert_bbox_to_coco.
    destruct (lines_loop E opts label2id annotation 0 ([], [])); cbn [Py.bind];
      [| discriminate].
    intros [= <-]. reflexivity.
  - intros E annotation_paths img_paths label2id name_converter extract_num b.
    unfold convert_xmls_to_cocojson.
    destruct (xmls_loop E img_paths (length annotation_paths) label2id
                name_converter extract_num annotation_paths 0 _);
      cbn [Py.bind]; [| discriminate].
    intros [= <-]. reflexivity.
  - intros labels_str Hnd.
    rewrite (get_label2id_distinct labels_str Hnd).
    unfold category_list. rewrite !map_map. cbn [name cat_id supercategory].
    split; [apply zip_range_fst |].
    split; [apply zip_range_snd |].
    apply Forall_forall. intros c Hc.
    apply list_elem_of_fmap in Hc as [kv [-> _]]. reflexivity.
  - intros labels. split; [apply category_coco_names |].
    apply (category_coco_ids labels 0).
  - intros H meta fs image_dir bboxes Hrun.
    apply (labels_to_boxes_keys H meta fs image_dir) in Hrun.
    exact Hrun.
Qed.

Lemma synthetic_category_ids_start_at_zero_witness :
  map name (category_list (get_label2id ["bg"; "weed"])) = ["bg"; "weed"]
  /\ map cat_id (category_list (get_label2id ["bg"; "weed"]))
     = range_from 1 (length ["bg"; "weed"])
  /\ Forall (fun c => supercategory c = "none")
       (category_list (get_label2id ["bg"; "weed"])).
Proof.
  apply (proj1 (proj2 (proj2 synthetic_category_ids_start_at_zero))
           ["bg"; "weed"]).
  apply (bool_decide_unpack _). vm_compute. reflexivity.
Defined.

(** *** Annotation ids *)

Lemma range_from_app (n m : nat) :
  forall lo : Z,
    range_from lo (n + m) = range_from lo n ++ range_from (lo + Z.of_nat n) m.
Proof.
  induction n as [| n IH]; intros lo; cbn [Nat.add range_from app].
  - replace (lo + Z.of_nat 0) with lo by lia. reflexivity.
  - rewrite IH. do 3 f_equal. lia.
Qed.

Lemma range_from_lower (n : nat) :
  forall lo : Z, Forall (fun i => lo <= i) (range_from lo n).
Proof.
  induction n as [| n IH]; intros lo; cbn [range_from]; constructor; [lia |].
  eapply Forall_impl; [apply (IH (lo + 1)) |].
  cbn. intros i Hi. lia.
Qed.

Lemma range_from_sorted (n : nat) :
  forall lo : Z, StronglySorted Z.lt (range_from lo n).
Proof.
  induction n as [| n IH]; intros lo; cbn [range_from]; constructor.
  - apply IH.
  - eapply Forall_impl; [apply (range_from_lower n (lo + 1)) |].
    cbn. intros i Hi. lia.
Qed.

Lemma sorted_lt_NoDup (l : list Z) : StronglySorted Z.lt l -> NoDup l.
Proof.
  induction 1 as [| x l Hsorted IH Hall]; constructor; [| exact IH].
  intros Hin. rewrite Forall_forall in Hall.
  specialize (Hall x Hin). lia.
Qed.

(** The object loop hands out consecutive ids from its counter. *)
Lemma objects_loop_ids (E : Env) (label2id : dict Z)
    (name_converter : option (dict string)) (img_info : option image_info)
    (objs : list element) :
  forall (bnd_id : Z) (anns : list annotation) (r : Z * list annotation),
    objects_loop E label2id name_converter img_info objs bnd_id anns = Ok r ->
    exists new,
      snd r = anns ++ new
      /\ map id new = range_from bnd_id (length new)
      /\ fst r = bnd_id + Z.of_nat (length new).
Proof.
  induction objs as [| obj objs IH]; intros bnd_id anns r Hrun;
    cbn [objects_loop] in Hrun.
  - injection Hrun as <-. exists []. cbn. rewrite app_nil_r.
    repeat split. lia.
  - destruct (get_coco_annotation_from_obj E obj label2id name_converter)
      as [ann | e]; cbn [Py.bind] in Hrun; [| discriminate].
    destruct (ann_truthy ann) as [a |]; [| exact (IH _ _ _ Hrun)].
    destruct img_info as [info |]; [| discriminate].
    destruct (IH _ _ _ Hrun) as (new & Hnew & Hids & Hcnt).
    exists ({| core := a; image_id := img_id info; id := bnd_id |} :: new).
    rewrite Hnew, <- app_assoc. cbn [app map id length range_from].
    rewrite Hids, Hcnt. repeat split. lia.
Qed.

Lemma xml_step_counter (E : Env) (img_paths : list string) (n_ann : nat)
    (label2id : dict Z) (name_converter : option (dict string))
    (extract_num : bool) (img_idx : nat) (a_path : string)
    (st st' : xml_state) :
  xml_counter_ok st ->
  xml_step E img_paths n_ann label2id name_converter extract_num img_idx
    a_path st = Ok st' ->
  xml_counter_ok st'.
Proof.
  intros [Hids Hcnt] Hstep. unfold xml_step in Hstep.
  destruct (et_parse E a_path) as [root | e]; cbn [Py.bind] in Hstep;
    [| discriminate].
  destruct (if extract_num then num_from_path E a_path
            else Ok (Z.of_nat img_idx + 1)) as [i | e];
    cbn [Py.bind] in Hstep; [| discriminate].
  destruct (override_filename img_paths n_ann img_idx root) as [root' | e];
    cbn [Py.bind] in Hstep; [| discriminate].
  destruct (get_image_info E root' i false false) as [r | e];
    cbn [Py.bind] in Hstep; [| discriminate].
  destruct (objects_loop E label2id name_converter (fst r)
              (findall "object" root') (xs_bnd_id st) (xs_annotations st))
    as [r' | e] eqn:Hloop; cbn [Py.bind] in Hstep; [| discriminate].
  destruct (fst r) as [info |]; [| discriminate].
  injection Hstep as <-.
  destruct (objects_loop_ids _ _ _ _ _ _ _ _ Hloop) as (new & Hnew & Hnids & Hncnt).
  unfold xml_counter_ok. cbn [xs_annotations xs_bnd_id].
  rewrite Hnew, Hncnt, map_app, length_app, Hids, Hnids, Hcnt.
  split; [| lia].
  rewrite range_from_app. reflexivity.
Qed.

Lemma xmls_loop_counter (E : Env) (img_paths : list string) (n_ann : nat)
    (label2id : dict Z) (name_converter : option (dict string))
    (extract_num : bool) (paths : list string) :
  forall (img_idx : nat) (st st' : xml_state),
    xml_counter_ok st ->
    xmls_loop E img_paths n_ann label2id name_converter extract_num paths
      img_idx st = Ok st' ->
    xml_counter_ok st'.
Proof.
  induction paths as [| p paths IH]; intros img_idx st st' Hinv Hrun;
    cbn [xmls_loop] in Hrun.
  - injection Hrun as <-. exact Hinv.
  - destruct (xml_step E img_paths n_ann label2id name_converter extract_num
                img_idx p st) as [st1 | e] eqn:Hstep;
      cbn [Py.bind] in Hrun; [| discriminate].
    eapply IH; [| exact Hrun].
    eapply xml_step_counter; eassumption.
Qed.

(** Without an explicit id list the id of a line-record annotation is
    the position of its box. *)
Lemma bnd_id_of_position (opts : options) (img_idx bnd_idx : nat) :
  truthy_list (bnd_id_list opts) = false ->
  bnd_id_of opts img_idx bnd_idx = Ok (Z.of_nat bnd_idx).
Proof.
  unfold bnd_id_of, truthy_list.
  destruct (bnd_id_list opts) as [[| row rows] |];
    [reflexivity | discriminate | reflexivity].
Qed.

(** Two runs of the box loop over the same rows, for whatever image,
    append annotations with the same ids, and these increase. *)
Lemma boxes_loop_ids (E : Env) (opts : options) (label2id : dict Z)
    (path : string) (w : nat) (rows : list (list string)) :
  truthy_list (bnd_id_list opts) = false ->
  forall (k i1 i2 : nat) (info1 info2 : image_info)
         (anns1 anns2 out1 out2 : list annotation),
    boxes_loop E opts label2id path w i1 info1 rows k anns1 = Ok out1 ->
    boxes_loop E opts label2id path w i2 info2 rows k anns2 = Ok out2 ->
    exists new1 new2,
      out1 = anns1 ++ new1 /\ out2 = anns2 ++ new2
      /\ map id new1 = map id new2
      /\ StronglySorted Z.lt (map id new1)
      /\ Forall (fun i => Z.of_nat k <= i) (map id new1).
Proof.
  intros Hfalsy.
  induction rows as [| obj rows IH];
    intros k i1 i2 info1 info2 anns1 anns2 out1 out2 Hrun1 Hrun2;
    cbn [boxes_loop] in Hrun1, Hrun2.
  - injection Hrun1 as <-. injection Hrun2 as <-.
    exists [], []. rewrite !app_nil_r. cbn [map].
    repeat split; constructor.
  - destruct (relabel_row E opts label2id path w obj) as [obj' | e];
      cbn [Py.bind] in Hrun1, Hrun2; [| discriminate].
    destruct (try_except
                (a <- get_coco_annotation_from_annoline E obj' label2id ;;
                 Ok (Some a)) None) as [a |].
    + rewrite (bnd_id_of_position opts i1 k Hfalsy) in Hrun1.
      rewrite (bnd_id_of_position opts i2 k Hfalsy) in Hrun2.
      cbn [Py.bind] in Hrun1, Hrun2.
      destruct (IH _ _ _ _ _ _ _ _ _ Hrun1 Hrun2)
        as (new1 & new2 & -> & -> & Hids & Hsorted & Hlow).
      eexists (_ :: new1), (_ :: new2).
      rewrite <- !app_assoc. cbn [app map id].
      split; [reflexivity |]. split; [reflexivity |].
      cbn [map id].
      split; [rewrite Hids; reflexivity |].
      split.
      * constructor; [exact Hsorted |].
        eapply Forall_impl; [exact Hlow |]. cbn. intros i Hi. lia.
      * constructor; [lia |].
        eapply Forall_impl; [exact Hlow |]. cbn. intros i Hi. lia.
    + cbn [Py.bind] in Hrun1, Hrun2.
      destruct (IH _ _ _ _ _ _ _ _ _ Hrun1 Hrun2)
        as (new1 & new2 & -> & -> & Hids & Hsorted & Hlow).
      exists new1, new2. repeat split; try assumption.
      eapply Forall_impl; [exact Hlow |]. cbn. intros i Hi. lia.
Qed.

(** Whether the line-record resolver finds the image does not depend on
    the id it is asked to store. *)
Lemma get_image_info_from_annoline_same (E : Env) (line : list string)
    (idx1 idx2 : Z) (resize_on add_foldername : bool)
    (r1 r2 : option image_info * option (Z * Z)) :
  get_image_info_from_annoline E line idx1 resize_on add_foldername = Ok r1 ->
  get_image_info_from_annoline E line idx2 resize_on add_foldername = Ok r2 ->
  (fst r1 = None /\ fst r2 = None)
  \/ (exists info1 info2, fst r1 = Some info1 /\ fst r2 = Some info2).
Proof.
  unfold get_image_info_from_annoline.
  destruct (index line 0) as [path | e]; cbn [Py.bind]; [| discriminate].
  destruct (index_from_end (split "/" path) 1) as [filename | e];
    cbn [Py.bind]; [| discriminate].
  destruct (load_and_resize E resize_on path) as [img | e]; cbn [Py.bind].
  - destruct (if add_foldername then folder_and_name path else Ok filename)
      as [f | e]; cbn [Py.bind].
    + intros [= <-] [= <-]. right. eexists; eexists; split; reflexivity.
    + intros [= <-] [= <-]. left. split; reflexivity.
  - intros [= <-] [= <-]. left. split; reflexivity.
Qed.

Lemma line_step_ids (E : Env) (opts : options) (label2id : dict Z)
    (line : list string) :
  truthy_list (bnd_id_list opts) = false ->
  forall (i1 i2 : nat)
         (st1 st2 out1 out2 : list (option image_info) * list annotation),
    line_step E opts label2id i1 line st1 = Ok out1 ->
    line_step E opts label2id i2 line st2 = Ok out2 ->
    exists new1 new2,
      snd out1 = snd st1 ++ new1 /\ snd out2 = snd st2 ++ new2
      /\ map id new1 = map id new2
      /\ StronglySorted Z.lt (map id new1).
Proof.
  intros Hfalsy i1 i2 st1 st2 out1 out2 Hrun1 Hrun2.
  unfold line_step in Hrun1, Hrun2.
  destruct (line_image_id E opts line i1) as [id1 | e];
    cbn [Py.bind] in Hrun1; [| discriminate].
  destruct (line_image_id E opts line i2) as [id2 | e];
    cbn [Py.bind] in Hrun2; [| discriminate].
  destruct (get_image_info_from_annoline E line id1 (resized E)
              (add_foldername opts)) as [r1 | e] eqn:Hr1;
    cbn [Py.bind] in Hrun1; [| discriminate].
  destruct (get_image_info_from_annoline E line id2 (resized E)
              (add_foldername opts)) as [r2 | e] eqn:Hr2;
    cbn [Py.bind] in Hrun2; [| discriminate].
  destruct (get_image_info_from_annoline_same E line id1 id2 _ _ r1 r2 Hr1 Hr2)
    as [[Hn1 Hn2] | (info1 & info2 & Hs1 & Hs2)].
  - rewrite Hn1 in Hrun1. rewrite Hn2 in Hrun2.
    injection Hrun1 as <-. injection Hrun2 as <-.
    exists [], []. rewrite !app_nil_r. repeat split. constructor.
  - rewrite Hs1 in Hrun1. rewrite Hs2 in Hrun2.
    destruct (index line 1) as [t1 | e]; cbn [Py.bind] in Hrun1, Hrun2;
      [| discriminate].
    destruct (py_int E t1) as [bbox_cnt | e]; cbn [Py.bind] in Hrun1, Hrun2;
      [| discriminate].
    destruct (0 <? bbox_cnt).
    + destruct (np_reshape_rows (drop 2 line) bbox_cnt) as [rows | e];
        cbn [Py.bind] in Hrun1, Hrun2; [| discriminate].
      destruct (index line 0) as [path | e]; cbn [Py.bind] in Hrun1, Hrun2;
        [| discriminate].
      destruct (boxes_loop E opts label2id path (str_width (drop 2 line)) i1
                  info1 rows 0 (snd st1)) as [a1 | e] eqn:Hb1;
        cbn [Py.bind] in Hrun1; [| discriminate].
      destruct (boxes_loop E opts label2id path (str_width (drop 2 line)) i2
                  info2 rows 0 (snd st2)) as [a2 | e] eqn:Hb2;
        cbn [Py.bind] in Hrun2; [| discriminate].
      injection Hrun1 as <-. injection Hrun2 as <-. cbn [snd].
      destruct (boxes_loop_ids E opts label2id path _ rows Hfalsy
                  _ _ _ _ _ _ _ _ _ Hb1 Hb2)
        as (new1 & new2 & -> & -> & Hids & Hsorted & _).
      exists new1, new2. repeat split; assumption.
    + cbn [Py.bind] in Hrun1, Hrun2.
      injection Hrun1 as <-. injection Hrun2 as <-. cbn [snd].
      exists [], []. rewrite !app_nil_r. repeat split. constructor.
Qed.

Lemma lines_loop_ids (E : Env) (opts : options) (label2id : dict Z)
    (lines : list (list string)) :
  truthy_list (bnd_id_list opts) = false ->
  forall (i1 i2 : nat)
         (st1 st2 out1 out2 : list (option image_info) * list annotation),
    lines_loop E opts label2id lines i1 st1 = Ok out1 ->
    lines_loop E opts label2id lines i2 st2 = Ok out2 ->
    exists new1 new2,
      snd out1 = snd st1 ++ new1 /\ snd out2 = snd st2 ++ new2
      /\ map id new1 = map id new2.
Proof.
  intros Hfalsy.
  induction lines as [| line lines IH];
    intros i1 i2 st1 st2 out1 out2 Hrun1 Hrun2;
    cbn [lines_loop] in Hrun1, Hrun2.
  - injection Hrun1 as <-. injection Hrun2 as <-.
    exists [], []. rewrite !app_nil_r. repeat split.
  - destruct (line_step E opts label2id i1 line st1) as [m1 | e] eqn:Hs1;
      cbn [Py.bind] in Hrun1; [| discriminate].
    destruct (line_step E opts label2id i2 line st2) as [m2 | e] eqn:Hs2;
      cbn [Py.bind] in Hrun2; [| discriminate].
    destruct (line_step_ids E opts label2id line Hfalsy _ _ _ _ _ _ Hs1 Hs2)
      as (a1 & a2 & Ha1 & Ha2 & Haids & _).
    destruct (IH _ _ _ _ _ _ Hrun1 Hrun2) as (b1 & b2 & Hb1 & Hb2 & Hbids).
    exists (a1 ++ b1), (a2 ++ b2).
    rewrite Hb1, Hb2, Ha1, Ha2, <- !app_assoc, !map_app, Haids, Hbids.
    repeat split.
Qed.

Lemma lines_loop_app (E : Env) (opts : options) (label2id : dict Z)
    (ls1 ls2 : list (list string)) :
  forall (img_idx : nat) (st : list (option image_info) * list annotation),
    lines_loop E opts label2id (ls1 ++ ls2) img_idx st
    = (st' <- lines_loop E opts label2id ls1 img_idx st ;;
       lines_loop E opts label2id ls2 (img_idx + length ls1) st').
Proof.
  induction ls1 as [| line ls1 IH]; intros img_idx st;
    cbn [app lines_loop length Py.bind].
  - rewrite Nat.add_0_r. reflexivity.
  - destruct (line_step E opts label2id img_idx line st) as [st1 | e];
      cbn [Py.bind]; [| reflexivity].
    rewrite IH. replace (S img_idx + length ls1)%nat
      with (img_idx + S (length ls1))%nat by lia.
    reflexivity.
Qed.

(** The box loop of the reorganizer numbers its boxes from the tracker
    it is given. *)
Lemma box_loop_ids (label image_id : Z) (bboxes : list (Z * Z * Z * Z)) :
  forall (tracker : Z) (acc : list annotation),
    exists new,
      snd (Converter.box_loop label image_id bboxes tracker acc) = acc ++ new
      /\ map id new = range_from tracker (length bboxes)
      /\ fst (Converter.box_loop label image_id bboxes tracker acc)
         = tracker + Z.of_nat (length bboxes).
Proof.
  induction bboxes as [| [[[x y] w] h] bboxes IH]; intros tracker acc;
    cbn [Converter.box_loop].
  - exists []. cbn. rewrite app_nil_r. repeat split. lia.
  - destruct (IH (tracker + 1) (acc ++
      [{| core := {| area := Converter.wrap32 (w * h); iscrowd := 0;
                     bbox := [x; y; w; h]; category_id := label;
                     ignore := 0; segmentation := [] |};
          image_id := image_id; id := tracker |}]))
      as (new & Hnew & Hids & Hcnt).
    eexists (_ :: new).
    rewrite Hnew, Hcnt, <- app_assoc. cbn [app map id length range_from].
    rewrite Hids. repeat split. lia.
Qed.

Lemma label_loop_ids (image_id : Z)
    (annotation : list (Z * list (Z * Z * Z * Z))) :
  forall (tracker : Z) (acc : list Utils.annotation),
    exists new,
      snd (Converter.label_loop image_id annotation tracker acc) = acc ++ new
      /\ map id new
         = range_from tracker (length (flat_map snd annotation))
      /\ fst (Converter.label_loop image_id annotation tracker acc)
         = tracker + Z.of_nat (length (flat_map snd annotation)).
Proof.
  induction annotation as [| [label bboxes] annotation IH]; intros tracker acc;
    cbn [Converter.label_loop flat_map snd].
  - exists []. cbn. rewrite app_nil_r. repeat split. lia.
  - destruct (box_loop_ids label image_id bboxes tracker acc)
      as (new1 & Hnew1 & Hids1 & Hcnt1).
    destruct (IH (fst (Converter.box_loop label image_id bboxes tracker acc))
                (snd (Converter.box_loop label image_id bboxes tracker acc)))
      as (new2 & Hnew2 & Hids2 & Hcnt2).
    exists (new1 ++ new2).
    rewrite Hnew2, Hcnt2, Hnew1, Hcnt1, <- app_assoc, map_app, Hids1, Hids2,
      Hcnt1, length_app, range_from_app.
    repeat split. lia.
Qed.

(** Every image of the reorganizer starts again at id 1. *)
Lemma annotation_coco_loop_ids (image_id_map : gmap (list string) Z)
    (items : list (list string * list (Z * list (Z * Z * Z * Z)))) :
  forall acc out : list annotation,
    Converter.annotation_coco_loop image_id_map items acc = Ok out ->
    map id out
    = map id acc
      ++ flat_map (fun item => range_from 1 (length (flat_map snd (snd item))))
           items.
Proof.
  induction items as [| [image annotation] items IH]; intros acc out Hrun;
    cbn [Converter.annotation_coco_loop] in Hrun.
  - injection Hrun as <-. cbn [flat_map]. rewrite app_nil_r. reflexivity.
  - destruct (image_id_map !! image) as [image_id |]; cbn [Py.bind] in Hrun;
      [| discriminate].
    rewrite (IH _ _ Hrun).
    destruct (label_loop_ids image_id annotation 1 acc) as (new & -> & Hids & _).
    rewrite map_app, Hids, <- app_assoc. reflexivity.
Qed.

(** C1, as the code has it: in the XML assembler the annotation ids are
    one counter that starts at 1 and runs through the whole job, so
    they are unique and strictly increasing in the order of appending
    and never start again at a new image; the line-record assembler
    without an explicit id list and the synthetic reorganizer number
    the annotations of each image on their own: in the line-record
    assembler the ids given to the records of a job do not depend on
    the records processed before them and increase within one record,
    and in the reorganizer the ids of every image are 1, 2, ... *)
Theorem annotation_id_allocation :
  (forall (E : Env) (annotation_paths img_paths : list string)
          (label2id : dict Z) (name_converter : option (dict string))
          (extract_num : bool) (b : bundle),
      convert_xmls_to_cocojson E annotation_paths img_paths label2id
        name_converter extract_num = Ok b ->
      map id (annotations b) = range_from 1 (length (annotations b))
      /\ NoDup (map id (annotations b))
      /\ StronglySorted Z.lt (map id (annotations b)))
  /\ (forall (E : Env) (opts : options) (label2id : dict Z)
             (ls1 ls2 : list (list string)) (b1 b2 b : bundle),
        truthy_list (bnd_id_list opts) = false ->
        convert_bbox_to_coco E ls1 label2id opts = Ok b1 ->
        convert_bbox_to_coco E ls2 label2id opts = Ok b2 ->
        convert_bbox_to_coco E (ls1 ++ ls2) label2id opts = Ok b ->
        map id (annotations b)
        = map id (annotations b1) ++ map id (annotations b2))
  /\ (forall (E : Env) (opts : options) (label2id : dict Z)
             (line : list string) (b : bundle),
        truthy_list (bnd_id_list opts) = false ->
        convert_bbox_to_coco E [line] label2id opts = Ok b ->
        StronglySorted Z.lt (map id (annotations b)))
  /\ (forall (H : Converter.Host) (meta : Converter.DataFormatConverterMetadata)
             (image_annotation_map :
                list (list string * list (Z * list (Z * Z * Z * Z))))
             (image_new_map : gmap (list string) (list string))
             (doc : Converter.coco),
        Converter.build_coco H meta image_annotation_map image_new_map
        = Ok doc ->
        map id (Converter.annotations doc)
        = flat_map
            (fun item => range_from 1 (length (flat_map snd (snd item))))
            image_annotation_map).
Proof.
  split; [| split; [| split]].
  - intros E annotation_paths img_paths label2id name_converter extract_num b.
    unfold convert_xmls_to_cocojson.
    destruct (xmls_loop E img_paths (length annotation_paths) label2id
                name_converter extract_num annotation_paths 0
                {| xs_bnd_id := 1; xs_images := []; xs_annotations := [] |})
      as [st | e] eqn:Hloop; cbn [Py.bind]; [| discriminate].
    intros [= <-]. cbn [annotations].
    assert (Hinv : xml_counter_ok st).
    { eapply xmls_loop_counter; [| exact Hloop].
      split; reflexivity. }
    destruct Hinv as [Hids _].
    split; [exact Hids |].
    rewrite Hids.
    split; [apply sorted_lt_NoDup |]; apply range_from_sorted.
  - intros E opts label2id ls1 ls2 b1 b2 b Hfalsy Hjob1 Hjob2 Hjob.
    unfold convert_bbox_to_coco in Hjob1, Hjob2, Hjob.
    rewrite lines_loop_app in Hjob.
    destruct (lines_loop E opts label2id ls1 0 ([], [])) as [st1 | e];
      cbn [Py.bind] in Hjob1, Hjob; [| discriminate].
    destruct (lines_loop E opts label2id ls2 0 ([], [])) as [st2 | e] eqn:H2;
      cbn [Py.bind] in Hjob2; [| discriminate].
    destruct (lines_loop E opts label2id ls2 (0 + length ls1) st1)
      as [st | e] eqn:H12; cbn [Py.bind] in Hjob; [| discriminate].
    injection Hjob1 as <-. injection Hjob2 as <-. injection Hjob as <-.
    cbn [annotations].
    destruct (lines_loop_ids E opts label2id ls2 Hfalsy _ _ _ _ _ _ H12 H2)
      as (new1 & new2 & -> & -> & Hids).
    cbn [snd app]. rewrite map_app, Hids. reflexivity.
  - intros E opts label2id line b Hfalsy Hjob.
    unfold convert_bbox_to_coco in Hjob. cbn [lines_loop] in Hjob.
    destruct (line_step E opts label2id 0 line ([], [])) as [st | e] eqn:Hstep;
      cbn [Py.bind] in Hjob; [| discriminate].
    injection Hjob as <-. cbn [annotations].
    destruct (line_step_ids E opts label2id line Hfalsy _ _ _ _ _ _ Hstep Hstep)
      as (new1 & _ & -> & _ & _ & Hsorted).
    exact Hsorted.
  - intros H meta image_annotation_map image_new_map doc.
    unfold Converter.build_coco.
    destruct (Converter.image_coco_loop meta image_new_map
                (map fst image_annotation_map) 0 [] ∅) as [r | e];
      cbn [Py.bind]; [| discriminate].
    destruct (Converter.annotation_coco_loop (snd r) image_annotation_map [])
      as [out | e] eqn:Hloop; cbn [Py.bind]; [| discriminate].
    intros [= <-]. cbn [Converter.annotations].
    apply (annotation_coco_loop_ids _ _ _ _ Hloop).
Qed.

Lemma annotation_id_allocation_witness :
  exists b,
    convert_xmls_to_cocojson Demo.xml_env ["a.xml"; "d.xml"] []
      Demo.xml_labels None false = Ok b
    /\ map id (annotations b) = range_from 1 (length (annotations b))
    /\ NoDup (map id (annotations b))
    /\ StronglySorted Z.lt (map id (annotations b)).
Proof.
  eexists. split; [vm_compute; reflexivity |].
  apply (proj1 annotation_id_allocation Demo.xml_env ["a.xml"; "d.xml"] []
           Demo.xml_labels None false).
  vm_compute. reflexivity.
Defined.

(** C1 as the spec states it fails outside the XML assembler: two
    line records with one box each both get the id 0, and two images
    of the reorganizer with one box each both get the id 1. *)
Lemma annotation_ids_repeat :
  (exists b,
     convert_bbox_to_coco Demo.line_env
       [["img.jpg"; "1"; "10"; "10"; "50"; "50"; "2"];
        ["img2.jpg"; "1"; "10"; "10"; "50"; "50"; "2"]]
       [("bg", 1); ("weed", 2)] Demo.plain = Ok b
     /\ map id (annotations b) = [0; 0]
     /\ map image_id (annotations b) = [1; 2]
     /\ ~ NoDup (map id (annotations b))
     /\ ~ StronglySorted Z.lt (map id (annotations b)))
  /\ (exists doc,
        Converter.build_coco DemoSynthetic.sound_host DemoSynthetic.meta
          DemoSynthetic.two_image_map DemoSynthetic.two_image_new_map = Ok doc
        /\ map id (Converter.annotations doc) = [1; 1]
        /\ map image_id (Converter.annotations doc) = [1; 2]
        /\ ~ NoDup (map id (Converter.annotations doc))).
Proof.
  split.
  - eexists. split; [vm_compute; reflexivity |].
    cbn [annotations map id image_id].
    split; [reflexivity |]. split; [reflexivity |].
    split.
    + intros Hnd. apply NoDup_cons in Hnd as [Hnotin _].
      apply Hnotin. left.
    + intros Hsorted. inversion Hsorted as [| x l _ Hall]; subst.
      inversion Hall as [| y l' Hlt _]; subst. lia.
  - eexists. split; [vm_compute; reflexivity |].
    cbn [Converter.annotations map id image_id].
    split; [reflexivity |]. split; [reflexivity |].
    intros Hnd. apply NoDup_cons in Hnd as [Hnotin _].
    apply Hnotin. left.
Qed.

(** *** The reorganizer's cleanup after a failed conversion *)

Section Rollback.

Import Converter.

Variable H : Host.
Variable meta : DataFormatConverterMetadata.























Lemma lookup_rmtree_kept (p q : list string) (fs : FS) :
  ~ p `prefix_of` q ->
  filter (fun kv : list string * node => ~ p `prefix_of` kv.1) fs !! q
  = fs !! q.
Proof.
  intros Hout. destruct (fs !! q) as [x |] eqn:Hq.
  - apply map_lookup_filter_Some_2; [exact Hq | exact Hout].
  - apply map_lookup_filter_None_2. left. exact Hq.
Qed.

Lemma lookup_rmtree_gone (p q : list string) (fs : FS) :
  p `prefix_of` q ->
  filter (fun kv : list string * node => ~ p `prefix_of` kv.1) fs !! q = None.
Proof.
  intros Hin. apply map_lookup_filter_None_2. right.
  intros x _ Hnot. cbn in Hnot. exact (Hnot Hin).
Qed.



End Rollback.




(** *** The mask extractors *)

Section MaskProperties.

Import Mask.

Variable G : Geometry.

(** The per-instance loop builds the polygon of every contour and keeps
    those whose simplified polygon has a positive area. *)
Lemma per_bbox_loop_count (contours : list (list (num G * num G)))
    (image_id category_id annotation_id is_crowd : Z) :
  forall (idx : nat) (acc out : list (mask_annotation G)),
    per_bbox_loop G contours image_id category_id annotation_id is_crowd
      idx acc = Ok out ->
    exists polys,
      Forall2 (fun c q =>
                 make_polygon G
                   (map (fun rc => (sub1 G (snd rc), sub1 G (fst rc))) c)
                 = Ok q) contours polys
      /\ length out
         = (length acc
            + length (List.filter
                        (fun q => positive G (poly_area G (simplify G q)))
                        polys))%nat.
Proof.
  induction contours as [| c contours IH]; intros idx acc out Hrun;
    cbn [per_bbox_loop] in Hrun.
  - injection Hrun as <-. exists []. split; [constructor |].
    cbn. lia.
  - unfold trace, flip_unpad in Hrun.
    destruct (make_polygon G _) as [q | e] eqn:Hq; cbn [Py.bind] in Hrun;
      [| discriminate].
    destruct (exterior_coords G (simplify G q)) as [coords | e];
      cbn [Py.bind] in Hrun; [| discriminate].
    destruct (positive G (poly_area G (simplify G q))) eqn:Hpos.
    + destruct (multi_bounds G [simplify G q]) as [b | e]; cbn [Py.bind] in Hrun;
        [| discriminate].
      destruct (IH _ _ _ Hrun) as (polys & Hpolys & Hlen).
      exists (q :: polys). split; [constructor; assumption |].
      cbn [List.filter]. rewrite Hpos, Hlen, length_app. cbn [length]. lia.
    + cbn [Py.bind] in Hrun.
      destruct (IH _ _ _ Hrun) as (polys & Hpolys & Hlen).
      exists (q :: polys). split; [constructor; assumption |].
      cbn [List.filter]. rewrite Hpos, Hlen. reflexivity.
Qed.

End MaskProperties.

(** C9: the per-instance extractor turns the sub-mask into an array,
    and when the tracer gives two contours for it, one for each of two
    separate regions, whose simplified polygons have a positive area,
    it returns two records, one per contour, with the ids
    [annotation_id] and [annotation_id + 1]; the segmentation of each is
    the flattened exterior of the simplified polygon of the contour
    moved by one pixel, its box is (x, y, max_x - x, max_y - y) for the
    bounds of that polygon, its area is the area of that polygon.  The
    whole-mask extractor hands the sub-mask to the tracer as it was
    passed: when the tracer gives the two contours for it, the one
    record holds both segmentations, the box of the bounds of the two
    polygons together and their combined area; when the tracer rejects
    the sub-mask that was passed, the extractor raises what the tracer
    raises, also where the per-instance extractor returns its two
    records.  For any sub-mask the per-instance extractor returns as
    many records as there are contours whose simplified polygon has a
    positive area.  Contour tracing and polygon geometry are those of
    scikit-image and Shapely. *)
Theorem two_islands_two_records :
  (forall (G : Mask.Geometry) (sub_mask : Mask.mask G)
          (image_id category_id annotation_id is_crowd : Z)
          (c1 c2 : list (Mask.num G * Mask.num G))
          (q1 q2 : Mask.polygon G) (e1 e2 : list (Mask.num G * Mask.num G))
          (x1 y1 mx1 my1 x2 y2 mx2 my2 : Mask.num G),
      Mask.find_contours G (Mask.np_array G sub_mask) = Ok [c1; c2] ->
      Mask.make_polygon G
        (map (fun rc => (Mask.sub1 G (snd rc), Mask.sub1 G (fst rc))) c1)
      = Ok q1 ->
      Mask.make_polygon G
        (map (fun rc => (Mask.sub1 G (snd rc), Mask.sub1 G (fst rc))) c2)
      = Ok q2 ->
      Mask.exterior_coords G (Mask.simplify G q1) = Ok e1 ->
      Mask.exterior_coords G (Mask.simplify G q2) = Ok e2 ->
      Mask.positive G (Mask.poly_area G (Mask.simplify G q1)) = true ->
      Mask.positive G (Mask.poly_area G (Mask.simplify G q2)) = true ->
      Mask.multi_bounds G [Mask.simplify G q1] = Ok (x1, y1, mx1, my1) ->
      Mask.multi_bounds G [Mask.simplify G q2] = Ok (x2, y2, mx2, my2) ->
      exists r1 r2,
        Mask.create_sub_mask_annotation_per_bbox G sub_mask image_id
          category_id annotation_id is_crowd = Ok [r1; r2]
        /\ Mask.m_id r1 = annotation_id
        /\ Mask.m_id r2 = annotation_id + 1
        /\ Mask.m_segmentation r1
           = [flat_map (fun xy => [fst xy; snd xy]) e1]
        /\ Mask.m_segmentation r2
           = [flat_map (fun xy => [fst xy; snd xy]) e2]
        /\ Mask.m_bbox r1 = (x1, y1, Mask.fsub G mx1 x1, Mask.fsub G my1 y1)
        /\ Mask.m_bbox r2 = (x2, y2, Mask.fsub G mx2 x2, Mask.fsub G my2 y2)
        /\ Mask.m_area r1 = Mask.multi_area G [Mask.simplify G q1]
        /\ Mask.m_area r2 = Mask.multi_area G [Mask.simplify G q2])
  /\ (forall (G : Mask.Geometry) (sub_mask : Mask.mask G)
             (image_id category_id annotation_id is_crowd : Z)
             (c1 c2 : list (Mask.num G * Mask.num G))
             (q1 q2 : Mask.polygon G) (e1 e2 : list (Mask.num G * Mask.num G))
             (x y mx my : Mask.num G),
        Mask.find_contours G sub_mask = Ok [c1; c2] ->
        Mask.make_polygon G
          (map (fun rc => (Mask.sub1 G (snd rc), Mask.sub1 G (fst rc))) c1)
        = Ok q1 ->
        Mask.make_polygon G
          (map (fun rc => (Mask.sub1 G (snd rc), Mask.sub1 G (fst rc))) c2)
        = Ok q2 ->
        Mask.exterior_coords G (Mask.simplify G q1) = Ok e1 ->
        Mask.exterior_coords G (Mask.simplify G q2) = Ok e2 ->
        Mask.multi_bounds G [Mask.simplify G q1; Mask.simplify G q2]
        = Ok (x, y, mx, my) ->
        exists r,
          Mask.create_sub_mask_annotation G sub_mask image_id category_id
            annotation_id is_crowd = Ok r
          /\ Mask.m_id r = annotation_id
          /\ Mask.m_segmentation r
             = [flat_map (fun xy => [fst xy; snd xy]) e1;
                flat_map (fun xy => [fst xy; snd xy]) e2]
          /\ Mask.m_bbox r = (x, y, Mask.fsub G mx x, Mask.fsub G my y)
          /\ Mask.m_area r
             = Mask.multi_area G [Mask.simplify G q1; Mask.simplify G q2])
  /\ (forall (G : Mask.Geometry) (sub_mask : Mask.mask G)
             (image_id category_id annotation_id is_crowd : Z) (e : exn),
        Mask.find_contours G sub_mask = Raise e ->
        Mask.create_sub_mask_annotation G sub_mask image_id category_id
          annotation_id is_crowd = Raise e)
  /\ (forall (G : Mask.Geometry) (sub_mask : Mask.mask G)
             (image_id category_id annotation_id is_crowd : Z)
             (out : list (Mask.mask_annotation G)),
        Mask.create_sub_mask_annotation_per_bbox G sub_mask image_id
          category_id annotation_id is_crowd = Ok out ->
        exists contours polys,
          Mask.find_contours G (Mask.np_array G sub_mask) = Ok contours
          /\ Forall2 (fun c q =>
                        Mask.make_polygon G
                          (map (fun rc => (Mask.sub1 G (snd rc),
                                           Mask.sub1 G (fst rc))) c)
                        = Ok q) contours polys
          /\ length out
             = length (List.filter
                         (fun q => Mask.positive G
                                     (Mask.poly_area G (Mask.simplify G q)))
                         polys)).
Proof.
  split; [| split; [| split]].
  - intros G sub_mask image_id category_id annotation_id is_crowd
      c1 c2 q1 q2 e1 e2 x1 y1 mx1 my1 x2 y2 mx2 my2
      Hfind Hq1 Hq2 He1 He2 Hpos1 Hpos2 Hb1 Hb2.
    unfold Mask.create_sub_mask_annotation_per_bbox.
    rewrite Hfind. cbn [Py.bind Mask.per_bbox_loop].
    unfold Mask.trace, Mask.flip_unpad, Mask.ravel.
    rewrite Hq1; cbn [Py.bind]. rewrite He1; cbn [Py.bind].
    rewrite Hpos1, Hb1; cbn [Py.bind].
    rewrite Hq2; cbn [Py.bind]. rewrite He2; cbn [Py.bind].
    rewrite Hpos2, Hb2; cbn [Py.bind app].
    eexists; eexists. split; [reflexivity |].
    cbn [Mask.m_id Mask.m_segmentation Mask.m_bbox Mask.m_area
         Mask.bbox_of_bounds].
    repeat split; lia.
  - intros G sub_mask image_id category_id annotation_id is_crowd
      c1 c2 q1 q2 e1 e2 x y mx my Hfind Hq1 Hq2 He1 He2 Hb.
    unfold Mask.create_sub_mask_annotation.
    rewrite Hfind. cbn [Py.bind Mask.trace_all].
    unfold Mask.trace, Mask.flip_unpad, Mask.ravel.
    rewrite Hq1; cbn [Py.bind]. rewrite He1; cbn [Py.bind].
    rewrite Hq2; cbn [Py.bind]. rewrite He2; cbn [Py.bind map fst snd].
    rewrite Hb; cbn [Py.bind].
    eexists. split; [reflexivity |].
    cbn [Mask.m_id Mask.m_segmentation Mask.m_bbox Mask.m_area
         Mask.bbox_of_bounds].
    repeat split.
  - intros G sub_mask image_id category_id annotation_id is_crowd e Hfind.
    unfold Mask.create_sub_mask_annotation. rewrite Hfind. reflexivity.
  - intros G sub_mask image_id category_id annotation_id is_crowd out Hrun.
    unfold Mask.create_sub_mask_annotation_per_bbox in Hrun.
    cbv zeta in Hrun.
    destruct (Mask.find_contours G (Mask.np_array G sub_mask))
      as [contours | e]; cbn [Py.bind] in Hrun; [| discriminate].
    destruct (per_bbox_loop_count G _ _ _ _ _ _ _ _ Hrun)
      as (polys & Hpolys & Hlen).
    exists contours, polys. split; [reflexivity |]. split; [exact Hpolys |].
    rewrite Hlen. reflexivity.
Qed.

Lemma two_islands_two_records_witness :
  (exists r1 r2,
     Mask.create_sub_mask_annotation_per_bbox DemoMask.array_only
       DemoMask.two_islands_image 1 2 7 0 = Ok [r1; r2]
     /\ Mask.m_id r1 = 7
     /\ Mask.m_id r2 = 7 + 1
     /\ Mask.m_segmentation r1 = [[0; 0; 2; 0; 2; 2; 0; 2]]
     /\ Mask.m_segmentation r2 = [[5; 4; 8; 4; 8; 8; 5; 8]]
     /\ Mask.m_bbox r1 = (0, 0, 2, 2)
     /\ Mask.m_bbox r2 = (5, 4, 3, 4)
     /\ Mask.m_area r1 = 4
     /\ Mask.m_area r2 = 12)
  /\ (exists r,
        Mask.create_sub_mask_annotation DemoMask.lattice DemoMask.two_islands
          1 2 7 0 = Ok r
        /\ Mask.m_id r = 7
        /\ Mask.m_segmentation r
           = [[0; 0; 2; 0; 2; 2; 0; 2]; [5; 4; 8; 4; 8; 8; 5; 8]]
        /\ Mask.m_bbox r = (0, 0, 8, 8)
        /\ Mask.m_area r = 16)
  /\ Mask.create_sub_mask_annotation DemoMask.array_only
       DemoMask.two_islands_image 1 2 7 0 = Raise AttributeError.
Proof.
  split; [| split].
  - apply (proj1 two_islands_two_records DemoMask.array_only
             DemoMask.two_islands_image 1 2 7 0
             DemoMask.island1 DemoMask.island2
             [(0, 0); (2, 0); (2, 2); (0, 2)] [(5, 4); (8, 4); (8, 8); (5, 8)]
             [(0, 0); (2, 0); (2, 2); (0, 2)] [(5, 4); (8, 4); (8, 8); (5, 8)]
             0 0 2 2 5 4 8 8); reflexivity.
  - apply (proj1 (proj2 two_islands_two_records) DemoMask.lattice
             DemoMask.two_islands 1 2 7 0
             DemoMask.island1 DemoMask.island2
             [(0, 0); (2, 0); (2, 2); (0, 2)] [(5, 4); (8, 4); (8, 8); (5, 8)]
             [(0, 0); (2, 0); (2, 2); (0, 2)] [(5, 4); (8, 4); (8, 8); (5, 8)]
             0 0 8 8); reflexivity.
  - apply (proj1 (proj2 (proj2 two_islands_two_records)) DemoMask.array_only
             DemoMask.two_islands_image 1 2 7 0 AttributeError).
    reflexivity.
Defined.

(** * Further properties of the code *)

(** *** The label registry *)

Lemma dict_get_set {V : Type} (d : dict V) (k k' : string) (v : V) :
  dict_get (dict_set d k v) k'
  = if String.eqb k k' then Some v else dict_get d k'.
Proof.
  induction d as [| [k0 v0] d IH]; cbn [dict_set dict_get].
  - reflexivity.
  - destruct (String.eqb k0 k) eqn:H0k; cbn [dict_get].
    + apply String.eqb_eq in H0k. subst k0.
      destruct (String.eqb k k'); reflexivity.
    + destruct (String.eqb k0 k') eqn:H0k'.
      * apply String.eqb_eq in H0k'. subst k0.
        rewrite String.eqb_sym, H0k. reflexivity.
      * exact IH.
Qed.

Lemma dict_set_keys {V : Type} (d : dict V) (k : string) (v : V) :
  map fst (dict_set d k v)
  = if dict_mem d k then map fst d else map fst d ++ [k].
Proof.
  unfold dict_mem.
  induction d as [| [k0 v0] d IH]; cbn [dict_set dict_get map fst app].
  - reflexivity.
  - destruct (String.eqb k0 k) eqn:H0k; cbn [map fst].
    + apply String.eqb_eq in H0k. subst k0. reflexivity.
    + rewrite IH. destruct (dict_get d k); reflexivity.
Qed.

Lemma dict_set_values {V : Type} (P : V -> Prop) (d : dict V) (k : string)
    (v : V) :
  Forall (fun kv => P (snd kv)) d -> P v ->
  Forall (fun kv => P (snd kv)) (dict_set d k v).
Proof.
  intros Hd Hv.
  induction d as [| [k0 v0] d IH]; cbn [dict_set].
  - constructor; [exact Hv | constructor].
  - inversion Hd as [| x l Hx Hl]; subst.
    destruct (String.eqb k0 k).
    + constructor; [exact Hv | exact Hl].
    + constructor; [exact Hx | exact (IH Hl)].
Qed.

Lemma dict_mem_keys {V : Type} (d : dict V) (k : string) :
  dict_mem d k = true <-> k ∈ map fst d.
Proof.
  unfold dict_mem.
  induction d as [| [k0 v0] d IH]; cbn [dict_get map fst].
  - split; [discriminate | intros Hin; inversion Hin].
  - destruct (String.eqb k0 k) eqn:H0k.
    + apply String.eqb_eq in H0k. subst k0.
      split; [intros _; left | reflexivity].
    + rewrite IH. split; [intros Hin; right; exact Hin |].
      intros Hin. apply elem_of_cons in Hin as [-> | Hin]; [| exact Hin].
      rewrite String.eqb_refl in H0k. discriminate.
Qed.

Lemma zip_range_snoc {A : Type} (l : list A) (x : A) :
  forall lo,
    zip (l ++ [x]) (range_from lo (length (l ++ [x])))
    = zip l (range_from lo (length l)) ++ [(x, lo + Z.of_nat (length l))].
Proof.
  induction l as [| y l IH]; intros lo; cbn [app length range_from zip].
  - replace (lo + Z.of_nat 0) with lo by lia. reflexivity.
  - rewrite IH. cbn [app].
    replace (lo + Z.of_nat (S (length l))) with (lo + 1 + Z.of_nat (length l))
      by lia.
    reflexivity.
Qed.

(** Registering one more label is one more assignment. *)
Lemma get_label2id_snoc (labels_str : list string) (l : string) :
  get_label2id (labels_str ++ [l])
  = dict_set (get_label2id labels_str) l (Z.of_nat (length labels_str) + 1).
Proof.
  unfold get_label2id, dict_of_pairs.
  rewrite zip_range_snoc, fold_left_app. cbn [fold_left fst snd].
  f_equal. lia.
Qed.

(** X1: whatever the label sequence, a label is mapped to the 1-based
    position of its last occurrence, and a string that is no label is
    not a key. *)
Theorem registry_lookup :
  (forall (labels_str : list string) (i : nat) (l : string),
      labels_str !! i = Some l ->
      (forall j, (i < j)%nat -> labels_str !! j <> Some l) ->
      dict_get (get_label2id labels_str) l = Some (Z.of_nat i + 1))
  /\ (forall (labels_str : list string) (l : string),
        l ∉ labels_str -> dict_get (get_label2id labels_str) l = None).
Proof.
  split.
  - intros labels_str. induction labels_str as [| x labels_str IH] using rev_ind;
      intros i l Hi Hlast; [discriminate |].
    rewrite get_label2id_snoc, dict_get_set.
    destruct (decide (i = length labels_str)) as [-> | Hne].
    + rewrite list_lookup_middle in Hi by reflexivity.
      injection Hi as ->. rewrite String.eqb_refl. reflexivity.
    + assert (Hlt : (i < length labels_str)%nat).
      { apply lookup_lt_Some in Hi. rewrite length_app in Hi.
        cbn [length] in Hi. lia. }
      rewrite lookup_app_l in Hi by exact Hlt.
      destruct (String.eqb x l) eqn:Hxl.
      * apply String.eqb_eq in Hxl. subst x. exfalso.
        apply (Hlast (length labels_str) Hlt).
        apply list_lookup_middle. reflexivity.
      * apply IH; [exact Hi |].
        intros j Hj Hjl. apply (Hlast j Hj).
        rewrite lookup_app_l; [exact Hjl |].
        apply lookup_lt_Some in Hjl. exact Hjl.
  - intros labels_str. induction labels_str as [| x labels_str IH] using rev_ind;
      intros l Hnotin; [reflexivity |].
    rewrite get_label2id_snoc, dict_get_set.
    destruct (String.eqb x l) eqn:Hxl.
    + apply String.eqb_eq in Hxl. subst x. exfalso.
      apply Hnotin. apply elem_of_app. right. left.
    + apply IH. intros Hin. apply Hnotin. apply elem_of_app. left. exact Hin.
Qed.

Lemma registry_lookup_witness :
  dict_get (get_label2id ["leaf"; "stem"; "leaf"]) "leaf" = Some (Z.of_nat 2 + 1).
Proof.
  apply (proj1 registry_lookup ["leaf"; "stem"; "leaf"] 2%nat "leaf").
  - reflexivity.
  - intros j Hj. destruct j as [| [| [| j]]]; try lia. discriminate.
Defined.

(** X2: the keys of the registry are pairwise distinct and are exactly
    the labels, and every id lies between 1 and the number of labels. *)
Theorem registry_keys (labels_str : list string) :
  NoDup (map fst (get_label2id labels_str))
  /\ (forall l, l ∈ map fst (get_label2id labels_str) <-> l ∈ labels_str)
  /\ Forall (fun kv => 1 <= snd kv <= Z.of_nat (length labels_str))
       (get_label2id labels_str).
Proof.
  induction labels_str as [| x labels_str (Hnd & Hkeys & Hvals)] using rev_ind.
  - split; [constructor |]. split; [| constructor].
    intros l. reflexivity.
  - rewrite get_label2id_snoc, dict_set_keys.
    destruct (dict_mem (get_label2id labels_str) x) eqn:Hmem.
    + apply dict_mem_keys in Hmem.
      split; [exact Hnd |]. split.
      * intros l. rewrite Hkeys, elem_of_app, list_elem_of_singleton.
        split; [intros Hin; left; exact Hin |].
        intros [Hin | ->]; [exact Hin | apply Hkeys, Hmem].
      * apply (dict_set_values
                 (fun v => 1 <= v <= Z.of_nat (length (labels_str ++ [x])))).
        -- eapply Forall_impl; [exact Hvals |].
           cbn. intros kv Hkv. rewrite length_app. cbn [length]. lia.
        -- rewrite length_app. cbn [length]. lia.
    + assert (Hnotin : x ∉ map fst (get_label2id labels_str)).
      { intros Hin. apply dict_mem_keys in Hin. congruence. }
      split; [| split].
      * apply NoDup_app. split; [exact Hnd |].
        split; [| apply NoDup_singleton].
        intros l Hl Hlx. apply list_elem_of_singleton in Hlx. subst l.
        contradiction.
      * intros l. rewrite !elem_of_app, Hkeys. reflexivity.
      * apply (dict_set_values
                 (fun v => 1 <= v <= Z.of_nat (length (labels_str ++ [x])))).
        -- eapply Forall_impl; [exact Hvals |].
           cbn. intros kv Hkv. rewrite length_app. cbn [length]. lia.
        -- rewrite length_app. cbn [length]. lia.
Qed.

(** *** What the extractors return *)

Ltac step_bind H :=
  match type of H with
  | Py.bind ?m _ = Ok _ =>
      let Hm := fresh "Hm" in
      destruct m eqn:Hm; cbn [Py.bind] in H; [| discriminate H]
  end.

Tactic Notation "step_bind" hyp(H) "as" ident(x) ident(Hx) :=
  match type of H with
  | Py.bind ?m _ = Ok _ =>
      destruct m as [x |] eqn:Hx; cbn [Py.bind] in H; [| discriminate H]
  end.

(** X3: every annotation that the line-record extractor returns has a
    box of four numbers whose width and height are at least 2, so a
    box one pixel wide or high is never emitted; its area is the
    product, and the remaining fields are constant. *)
Theorem annoline_result_shape (E : Env) (obj : list string) (label2id : dict Z)
    (ann : ann_core) :
  get_coco_annotation_from_annoline E obj label2id = Ok ann ->
  exists x y w h,
    bbox ann = [x; y; w; h]
    /\ 2 <= w /\ 2 <= h
    /\ area ann = w * h /\ 4 <= area ann
    /\ iscrowd ann = 0 /\ ignore ann = 0 /\ segmentation ann = [].
Proof.
  intros Hrun. unfold get_coco_annotation_from_annoline in Hrun.
  step_bind Hrun as t4 Ht4. step_bind Hrun as c Hc.
  step_bind Hrun as t0 Ht0. step_bind Hrun as x1 Hx1.
  step_bind Hrun as t1 Ht1. step_bind Hrun as y1 Hy1.
  step_bind Hrun as t2 Ht2. step_bind Hrun as x2 Hx2.
  step_bind Hrun as t3 Ht3. step_bind Hrun as y2 Hy2.
  destruct ((x1 <? x2) && (y1 <? y2)) eqn:Hbox; [| discriminate].
  apply andb_prop in Hbox as [Hx Hy].
  apply Z.ltb_lt in Hx. apply Z.ltb_lt in Hy.
  injection Hrun as <-. cbn [bbox area iscrowd ignore segmentation].
  exists x1, y1, (x2 - x1 + 1), (y2 - y1 + 1).
  repeat split; nia.
Qed.

Lemma annoline_result_shape_witness :
  exists ann,
    get_coco_annotation_from_annoline Demo.line_env
      ["10"; "10"; "50"; "50"; "2"] [("bg", 1); ("weed", 2)] = Ok ann
    /\ exists x y w h,
         bbox ann = [x; y; w; h]
         /\ 2 <= w /\ 2 <= h
         /\ area ann = w * h /\ 4 <= area ann
         /\ iscrowd ann = 0 /\ ignore ann = 0 /\ segmentation ann = [].
Proof.
  eexists. split; [reflexivity |].
  apply (annoline_result_shape Demo.line_env ["10"; "10"; "50"; "50"; "2"]
           [("bg", 1); ("weed", 2)]).
  reflexivity.
Defined.

Lemma resolve_category_known (obj : element) (label2id : dict Z)
    (name_converter : option (dict string)) (c : Z) :
  resolve_category obj label2id name_converter = Ok (inr c) ->
  exists label, dict_get label2id label = Some c.
Proof.
  unfold resolve_category, dict_item, dict_mem.
  destruct (findtext "subname" obj) as [s |].
  - destruct (dict_get label2id s) as [c' |] eqn:Hs; cbn [Py.bind];
      [| discriminate].
    intros [= <-]. exists s. exact Hs.
  - destruct (remap_label name_converter (findtext "name" obj)) as [l |];
      [| discriminate].
    destruct (dict_get label2id l) as [c' |] eqn:Hl; cbn [Py.bind];
      [| discriminate].
    intros [= <-]. exists l. exact Hl.
Qed.

(** X4: every annotation dict that the XML extractor returns has a box
    of four numbers with width and height at least 1 and the product
    as area, and its category id is the id of some label of the label
    map. *)
Theorem obj_result_shape (E : Env) (obj : element) (label2id : dict Z)
    (name_converter : option (dict string)) (a : ann_core) :
  get_coco_annotation_from_obj E obj label2id name_converter = Ok (AnnDict a) ->
  (exists x y w h,
     bbox a = [x; y; w; h] /\ 1 <= w /\ 1 <= h /\ area a = w * h)
  /\ (exists label, dict_get label2id label = Some (category_id a))
  /\ iscrowd a = 0 /\ segmentation a = [].
Proof.
  intros Hrun. unfold get_coco_annotation_from_obj in Hrun.
  step_bind Hrun as r Hr.
  destruct r as [[] | c]; [discriminate |].
  destruct (find_box obj) as [b |]; [| discriminate].
  step_bind Hrun as x1 Hx1. step_bind Hrun as y1 Hy1.
  step_bind Hrun as x2 Hx2. step_bind Hrun as y2 Hy2.
  destruct ((x1 - 1 <? x2) && (y1 - 1 <? y2)) eqn:Hbox; [| discriminate].
  apply andb_prop in Hbox as [Hx Hy].
  apply Z.ltb_lt in Hx. apply Z.ltb_lt in Hy.
  injection Hrun as <-. cbn [bbox area category_id iscrowd segmentation].
  split.
  - exists (x1 - 1), (y1 - 1), (x2 - (x1 - 1)), (y2 - (y1 - 1)).
    repeat split; lia.
  - split; [| split; reflexivity].
    exact (resolve_category_known obj label2id name_converter c Hr).
Qed.

Lemma obj_result_shape_witness :
  exists a,
    get_coco_annotation_from_obj Demo.xml_env Demo.leaf_object Demo.xml_labels
      None = Ok (AnnDict a)
    /\ (exists x y w h,
          bbox a = [x; y; w; h] /\ 1 <= w /\ 1 <= h /\ area a = w * h)
    /\ (exists label, dict_get Demo.xml_labels label = Some (category_id a))
    /\ iscrowd a = 0 /\ segmentation a = [].
Proof.
  eexists. split; [reflexivity |].
  apply (obj_result_shape Demo.xml_env Demo.leaf_object Demo.xml_labels None).
  reflexivity.
Defined.

(** X5: the name converter acts on the primary label only: with a
    sub-label the extractor returns what it returns without a
    converter, and without a sub-label a primary label that the
    converter maps to a known label gets the id of that label,
    whatever id the primary label itself may have. *)
Theorem name_converter_scope :
  (forall (E : Env) (obj : element) (label2id : dict Z)
          (name_converter : option (dict string)) (s : string),
      findtext "subname" obj = Some s ->
      get_coco_annotation_from_obj E obj label2id name_converter
      = get_coco_annotation_from_obj E obj label2id None)
  /\ (forall (obj : element) (label2id : dict Z) (kv : string * string)
             (conv : dict string) (n m : string) (c : Z),
        findtext "subname" obj = None ->
        findtext "name" obj = Some n ->
        dict_get (kv :: conv) n = Some m ->
        dict_get label2id m = Some c ->
        resolve_category obj label2id (Some (kv :: conv)) = Ok (inr c)).
Proof.
  split.
  - intros E obj label2id name_converter s Hs.
    unfold get_coco_annotation_from_obj.
    rewrite !(resolve_sublabel obj label2id _ s Hs). reflexivity.
  - intros obj label2id kv conv n m c Hs Hn Hconv Hm.
    rewrite (resolve_primary obj label2id _ Hs), Hn.
    unfold remap_label. rewrite Hconv, Hm. reflexivity.
Qed.

Lemma name_converter_scope_witness :
  get_coco_annotation_from_obj Demo.xml_env Demo.sublabel_object
    [("weed", 5); ("plant", 2)] (Some [("weed", "plant")])
  = get_coco_annotation_from_obj Demo.xml_env Demo.sublabel_object
      [("weed", 5); ("plant", 2)] None.
Proof.
  apply (proj1 name_converter_scope Demo.xml_env Demo.sublabel_object
           [("weed", 5); ("plant", 2)] (Some [("weed", "plant")]) "weed").
  reflexivity.
Defined.

(** *** Records that give too few tokens *)

Lemma chunks_length {A : Type} (k n : nat) :
  forall l : list A, Forall (fun row => (length row <= k)%nat) (chunks k n l).
Proof.
  induction n as [| n IH]; intros l; cbn [chunks]; constructor.
  - rewrite length_take. lia.
  - apply IH.
Qed.

Lemma annoline_short_row (E : Env) (obj : list string) (label2id : dict Z) :
  (length obj < 5)%nat ->
  get_coco_annotation_from_annoline E obj label2id = Raise IndexError.
Proof.
  intros Hshort. unfold get_coco_annotation_from_annoline, index.
  rewrite lookup_ge_None_2 by lia. reflexivity.
Qed.

Lemma boxes_loop_short_rows (E : Env) (opts : options) (label2id : dict Z)
    (path : string) (w img_idx : nat) (img_info : image_info)
    (rows : list (list string)) :
  get_label_from_folder opts = false ->
  Forall (fun row => (length row < 5)%nat) rows ->
  forall (k : nat) (anns : list annotation),
    boxes_loop E opts label2id path w img_idx img_info rows k anns = Ok anns.
Proof.
  intros Hplain Hrows. induction Hrows as [| row rows Hrow _ IH];
    intros k anns; cbn [boxes_loop]; [reflexivity |].
  unfold relabel_row. rewrite Hplain. cbn [Py.bind].
  rewrite (annoline_short_row E row label2id Hrow). cbn [Py.bind try_except].
  apply IH.
Qed.

(** X6: when the label is not taken from the folder names, a record
    that holds fewer than five tokens per announced box adds no
    annotation: each of its boxes makes the extractor raise
    [IndexError], which the assembler swallows. *)
Theorem short_record_adds_no_annotation (E : Env) (opts : options)
    (label2id : dict Z) (img_idx : nat) (anno_line : list string)
    (t1 : string) (bbox_cnt : Z)
    (st st' : list (option image_info) * list annotation) :
  get_label_from_folder opts = false ->
  anno_line !! 1%nat = Some t1 ->
  py_int E t1 = Ok bbox_cnt ->
  (Z.of_nat (length (drop 2 anno_line)) < 5 * bbox_cnt) ->
  line_step E opts label2id img_idx anno_line st = Ok st' ->
  snd st' = snd st.
Proof.
  intros Hplain Ht1 Hcnt Hshort Hstep. unfold line_step in Hstep.
  step_bind Hstep as i Hi. step_bind Hstep as r Hr.
  destruct (fst r) as [img_info |]; [| injection Hstep as <-; reflexivity].
  unfold index in Hstep. rewrite Ht1 in Hstep. cbn [Py.bind] in Hstep.
  rewrite Hcnt in Hstep. cbn [Py.bind] in Hstep.
  destruct (0 <? bbox_cnt) eqn:Hpos.
  - apply Z.ltb_lt in Hpos.
    unfold np_reshape_rows in Hstep.
    destruct (length (drop 2 anno_line) mod Z.to_nat bbox_cnt =? 0)%nat;
      cbn [Py.bind] in Hstep; [| discriminate].
    destruct (anno_line !! 0%nat) as [path |]; cbn [Py.bind] in Hstep;
      [| discriminate].
    rewrite boxes_loop_short_rows in Hstep.
    + cbn [Py.bind] in Hstep. injection Hstep as <-. reflexivity.
    + exact Hplain.
    + eapply Forall_impl; [apply chunks_length |].
      cbn. intros row Hrow.
      assert (Hdiv : (length (drop 2 anno_line) / Z.to_nat bbox_cnt < 5)%nat).
      { apply Nat.Div0.div_lt_upper_bound. lia. }
      lia.
  - cbn [Py.bind] in Hstep. injection Hstep as <-. reflexivity.
Qed.

Lemma short_record_adds_no_annotation_witness :
  exists st',
    line_step Demo.line_env Demo.plain [("bg", 1); ("weed", 2)] 0
      ["img.jpg"; "1"; "10"; "10"; "50"; "50"] ([], []) = Ok st'
    /\ length (fst st') = 1%nat
    /\ snd st' = snd (([], []) : list (option image_info) * list annotation).
Proof.
  eexists. split; [reflexivity |]. split; [reflexivity |].
  apply (short_record_adds_no_annotation Demo.line_env Demo.plain
           [("bg", 1); ("weed", 2)] 0 ["img.jpg"; "1"; "10"; "10"; "50"; "50"]
           "1" 1);
    first [reflexivity | cbn; lia].
Defined.

(** *** The image-info resolvers *)

Lemma split_no_sep (sep : ascii) (s : string) :
  Forall (fun w => has_char sep w = false) (split sep s).
Proof.
  induction s as [| c s IH]; cbn [split].
  - constructor; [reflexivity | constructor].
  - destruct (Ascii.eqb c sep) eqn:Hc.
    + constructor; [reflexivity | exact IH].
    + destruct (split sep s) as [| w ws].
      * constructor; [| constructor]. cbn [has_char]. rewrite Hc. reflexivity.
      * inversion IH as [| x l Hw Hws]; subst.
        constructor; [| exact Hws]. cbn [has_char]. rewrite Hc. exact Hw.
Qed.

Lemma split_not_nil (sep : ascii) (s : string) : split sep s <> [].
Proof.
  destruct s as [| c s]; cbn [split]; [discriminate |].
  destruct (Ascii.eqb c sep); [discriminate |].
  destruct (split sep s); discriminate.
Qed.

Lemma index_from_end_In {A : Type} (l : list A) (k : nat) (x : A) :
  index_from_end l k = Ok x -> In x l.
Proof.
  unfold index_from_end, index.
  destruct (k <=? length l)%nat; [| discriminate].
  destruct (l !! (length l - k)%nat) as [y |] eqn:Hy; [| discriminate].
  intros [= <-]. apply list_elem_of_In, list_elem_of_lookup. eauto.
Qed.

Lemma index_from_end_last {A : Type} (l : list A) :
  l <> [] -> exists x, index_from_end l 1 = Ok x.
Proof.
  intros Hne. unfold index_from_end, index.
  destruct l as [| y l]; [contradiction |].
  cbn [length Nat.leb].
  destruct (lookup_lt_is_Some_2 (y :: l) (S (length l) - 1)) as [x Hx].
  { cbn [length]. lia. }
  rewrite Hx. eauto.
Qed.

Lemma split_part_no_sep (sep : ascii) (s w : string) (k : nat) :
  index_from_end (split sep s) k = Ok w -> has_char sep w = false.
Proof.
  intros Hw. apply index_from_end_In in Hw.
  pose proof (split_no_sep sep s) as Hall.
  rewrite Forall_forall in Hall. apply Hall, list_elem_of_In, Hw.
Qed.

Lemma has_char_append (c : ascii) (a b : string) :
  has_char c (a +:+ b) = has_char c a || has_char c b.
Proof.
  induction a as [| c' a IH]; simpl; [reflexivity |].
  rewrite IH, orb_assoc. reflexivity.
Qed.

Lemma folder_and_name_no_slash (p f : string) :
  folder_and_name p = Ok f -> has_char "/" f = false.
Proof.
  unfold folder_and_name. intros Hrun.
  destruct (index_from_end (split "/" p) 2) as [folder |] eqn:Hfolder;
    cbn [Py.bind] in Hrun; [| discriminate].
  destruct (index_from_end (split "/" p) 1) as [img_name |] eqn:Hname;
    cbn [Py.bind] in Hrun; [| discriminate].
  injection Hrun as <-.
  rewrite !has_char_append.
  rewrite (split_part_no_sep _ _ _ _ Hfolder), (split_part_no_sep _ _ _ _ Hname).
  reflexivity.
Qed.

Lemma split_whole (sep : ascii) (s : string) :
  has_char sep s = false -> split sep s = [s].
Proof.
  induction s as [| c s IH]; intros Hfree; cbn [split]; [reflexivity |].
  cbn [has_char] in Hfree. apply orb_false_iff in Hfree as [Hc Hs].
  rewrite Hc, (IH Hs). reflexivity.
Qed.

Lemma split_app_sep (sep : ascii) (a b : string) :
  split sep (a +:+ String sep b) = split sep a ++ split sep b.
Proof.
  induction a as [| c a IH].
  - change (split sep (String sep b) = [EmptyString] ++ split sep b).
    cbn [split]. rewrite Ascii.eqb_refl. reflexivity.
  - change (split sep (String c (a +:+ String sep b))
            = split sep (String c a) ++ split sep b).
    cbn [split]. destruct (Ascii.eqb c sep).
    + rewrite IH. reflexivity.
    + rewrite IH. pose proof (split_not_nil sep a) as Hne.
      destruct (split sep a) as [| w ws]; [contradiction | reflexivity].
Qed.

Lemma index_from_end_snoc {A : Type} (l : list A) (x : A) :
  index_from_end (l ++ [x]) 1 = Ok x.
Proof.
  unfold index_from_end, index. rewrite length_app. cbn [length].
  replace (1 <=? length l + 1)%nat with true by (symmetry; apply Nat.leb_le; lia).
  replace (length l + 1 - 1)%nat with (length l + 0)%nat by lia.
  rewrite lookup_app_r by lia.
  replace (length l + 0 - length l)%nat with 0%nat by lia. reflexivity.
Qed.

Lemma index_from_end_snoc2 {A : Type} (l : list A) (y x : A) :
  index_from_end (l ++ [y; x]) 2 = Ok y.
Proof.
  unfold index_from_end, index. rewrite length_app. cbn [length].
  replace (2 <=? length l + 2)%nat with true by (symmetry; apply Nat.leb_le; lia).
  replace (length l + 2 - 2)%nat with (length l + 0)%nat by lia.
  rewrite lookup_app_r by lia.
  replace (length l + 0 - length l)%nat with 0%nat by lia. reflexivity.
Qed.

(** The parts of a path that ends in [name], and of one that ends in
    [folder/name]. *)
Lemma split_path_name (path name : string) :
  has_char "/" name = false ->
  path = name \/ (exists dir, path = dir +:+ "/" +:+ name) ->
  exists l, split "/" path = l ++ [name].
Proof.
  intros Hname [-> | [dir ->]].
  - exists []. apply split_whole, Hname.
  - exists (split "/" dir).
    change (dir +:+ "/" +:+ name) with (dir +:+ String "/" name).
    rewrite split_app_sep, (split_whole _ _ Hname). reflexivity.
Qed.

Lemma split_path_folder_name (path folder name : string) :
  has_char "/" folder = false -> has_char "/" name = false ->
  path = folder +:+ "/" +:+ name
  \/ (exists dir, path = dir +:+ "/" +:+ folder +:+ "/" +:+ name) ->
  exists l, split "/" path = l ++ [folder; name].
Proof.
  intros Hfolder Hname Hpath.
  assert (Hend : split "/" (folder +:+ "/" +:+ name) = [folder; name]).
  { change (folder +:+ "/" +:+ name) with (folder +:+ String "/" name).
    rewrite split_app_sep, (split_whole _ _ Hfolder), (split_whole _ _ Hname).
    reflexivity. }
  destruct Hpath as [-> | [dir ->]].
  - exists []. exact Hend.
  - exists (split "/" dir).
    change (dir +:+ "/" +:+ folder +:+ "/" +:+ name)
      with (dir +:+ String "/" (folder +:+ "/" +:+ name)).
    rewrite split_app_sep, Hend. reflexivity.
Qed.

Lemma index_from_end_app_last {A : Type} (l : list A) (y x : A) :
  index_from_end (l ++ [y; x]) 1 = Ok x.
Proof.
  change (l ++ [y; x]) with (l ++ [y] ++ [x]). rewrite app_assoc.
  apply index_from_end_snoc.
Qed.

(** The line-record resolver in terms of the image loader and of the
    name it gives the image. *)
Lemma annoline_info_eq (E : Env) (path filename : string) (rest : list string)
    (idx : Z) (resize_on add_foldername : bool) :
  index_from_end (split "/" path) 1 = Ok filename ->
  get_image_info_from_annoline E (path :: rest) idx resize_on add_foldername
  = match imread E path with
    | None => Ok (None, None)
    | Some (h, w) =>
        if negb resize_on
           || (0 <? resize_dim E w) && (0 <? resize_dim E h)
        then
          match (if add_foldername then folder_and_name path
                 else Ok filename) with
          | Ok f =>
              Ok (Some {| file_name := f;
                          height := if resize_on then resize_dim E h else h;
                          width := if resize_on then resize_dim E w else w;
                          img_id := idx |},
                  Some (if resize_on then (resize_dim E h, resize_dim E w)
                        else (h, w)))
          | Raise _ => Ok (None, None)
          end
        else Ok (None, None)
    end.
Proof.
  intros Hname. unfold get_image_info_from_annoline, index.
  cbn [lookup list_lookup Py.bind]. rewrite Hname. cbn [Py.bind].
  unfold load_and_resize.
  destruct (imread E path) as [[h w] |]; [| reflexivity].
  destruct resize_on; cbn [negb orb].
  - destruct ((0 <? resize_dim E w) && (0 <? resize_dim E h));
      cbn [Py.bind]; [| reflexivity].
    destruct (if add_foldername then folder_and_name path else Ok filename);
      reflexivity.
  - cbn [Py.bind].
    destruct (if add_foldername then folder_and_name path else Ok filename);
      reflexivity.
Qed.

(** X7: what the line-record resolver returns on a record with at least
    one token.  It returns [(None, None)] when the image does not
    decode, when the resized image would have no width or no height,
    and when the folder name is asked for and the path has no ['/'].
    Otherwise it returns an image dict with the image: the dict has the
    id passed in and the height and width of the decoded image, or of
    the resized one; its file name is what follows the last ['/'] of
    the path and, when the folder name is asked for, what lies between
    the last two ['/'] (or before the only one), an underscore, and
    that name. *)
Theorem line_resolver_outcomes (E : Env) (path : string) (rest : list string)
    (idx : Z) (resize_on add_foldername : bool) :
  (imread E path = None ->
   get_image_info_from_annoline E (path :: rest) idx resize_on add_foldername
   = Ok (None, None))
  /\ (forall h w,
        imread E path = Some (h, w) ->
        resize_on = true ->
        resize_dim E w <= 0 \/ resize_dim E h <= 0 ->
        get_image_info_from_annoline E (path :: rest) idx resize_on
          add_foldername = Ok (None, None))
  /\ (add_foldername = true ->
      has_char "/" path = false ->
      get_image_info_from_annoline E (path :: rest) idx resize_on
        add_foldername = Ok (None, None))
  /\ (forall h w name,
        imread E path = Some (h, w) ->
        (resize_on = true -> 0 < resize_dim E w /\ 0 < resize_dim E h) ->
        add_foldername = false ->
        has_char "/" name = false ->
        path = name \/ (exists dir, path = dir +:+ "/" +:+ name) ->
        get_image_info_from_annoline E (path :: rest) idx resize_on
          add_foldername
        = Ok (Some {| file_name := name;
                      height := if resize_on then resize_dim E h else h;
                      width := if resize_on then resize_dim E w else w;
                      img_id := idx |},
              Some (if resize_on then (resize_dim E h, resize_dim E w)
                    else (h, w))))
  /\ (forall h w folder name,
        imread E path = Some (h, w) ->
        (resize_on = true -> 0 < resize_dim E w /\ 0 < resize_dim E h) ->
        add_foldername = true ->
        has_char "/" folder = false ->
        has_char "/" name = false ->
        path = folder +:+ "/" +:+ name
        \/ (exists dir, path = dir +:+ "/" +:+ folder +:+ "/" +:+ name) ->
        get_image_info_from_annoline E (path :: rest) idx resize_on
          add_foldername
        = Ok (Some {| file_name := folder +:+ "_" +:+ name;
                      height := if resize_on then resize_dim E h else h;
                      width := if resize_on then resize_dim E w else w;
                      img_id := idx |},
              Some (if resize_on then (resize_dim E h, resize_dim E w)
                    else (h, w)))).
Proof.
  destruct (index_from_end_last (split "/" path) (split_not_nil "/" path))
    as [filename Hlast].
  assert (Hsize : forall h w,
             (resize_on = true -> 0 < resize_dim E w /\ 0 < resize_dim E h) ->
             negb resize_on
             || (0 <? resize_dim E w) && (0 <? resize_dim E h) = true).
  { intros h w Hdims. destruct resize_on; [| reflexivity].
    destruct (Hdims eq_refl) as [Hw Hh]. cbn [negb orb].
    apply ltb_and_true; assumption. }
  split; [| split; [| split; [| split]]].
  - intros Hread. rewrite (annoline_info_eq E path filename) by exact Hlast.
    rewrite Hread. reflexivity.
  - intros h w Hread -> Hdims.
    rewrite (annoline_info_eq E path filename) by exact Hlast.
    rewrite Hread. cbn [negb orb].
    rewrite ltb_and_false by exact Hdims. reflexivity.
  - intros -> Hfree.
    rewrite (annoline_info_eq E path filename) by exact Hlast.
    unfold folder_and_name. rewrite (split_whole _ _ Hfree).
    destruct (imread E path) as [[h w] |]; [| reflexivity].
    destruct (negb resize_on || _); reflexivity.
  - intros h w name Hread Hdims -> Hname Hpath.
    destruct (split_path_name path name Hname Hpath) as [l Hsplit].
    rewrite (annoline_info_eq E path name)
      by (rewrite Hsplit; apply index_from_end_snoc).
    rewrite Hread, (Hsize h w Hdims). reflexivity.
  - intros h w folder name Hread Hdims -> Hfolder Hname Hpath.
    destruct (split_path_folder_name path folder name Hfolder Hname Hpath)
      as [l Hsplit].
    rewrite (annoline_info_eq E path name)
      by (rewrite Hsplit; apply index_from_end_app_last).
    rewrite Hread, (Hsize h w Hdims).
    unfold folder_and_name.
    rewrite Hsplit, index_from_end_snoc2, index_from_end_app_last.
    reflexivity.
Qed.

Lemma line_resolver_outcomes_witness :
  get_image_info_from_annoline Demo.line_env ["img.jpg"; "0"] 5 false true
  = Ok (None, None)
  /\ get_image_info_from_annoline Demo.line_env ["img.jpg"; "0"] 5 true false
     = Ok (Some {| file_name := "img.jpg"; height := 480; width := 640;
                   img_id := 5 |}, Some (480, 640)).
Proof.
  split.
  - apply (proj1 (proj2 (proj2 (line_resolver_outcomes Demo.line_env "img.jpg"
                                  ["0"] 5 false true))));
      reflexivity.
  - apply (proj1 (proj2 (proj2 (proj2
             (line_resolver_outcomes Demo.line_env "img.jpg" ["0"] 5 true
                false)))) 480 640 "img.jpg").
    + reflexivity.
    + intros _. vm_compute. split; reflexivity.
    + reflexivity.
    + reflexivity.
    + left. reflexivity.
Defined.

(** X8: the XML resolver raises nothing but [IndexError], and only for
    an annotation root without children; otherwise it returns
    [(None, None)], or an image dict for the file named by the
    [filename] child, with the id it was given, the size of the image
    and a file name without any ['/']. *)
Theorem xml_resolver_results (E : Env) (root : element) (idx : Z)
    (resize_on add_foldername : bool) :
  match get_image_info E root idx resize_on add_foldername with
  | Raise e => e = IndexError /\ children root = []
  | Ok r =>
      r = (None, None)
      \/ exists info img f,
           r = (Some info, Some img)
           /\ findtext "filename" root = Some f
           /\ load_and_resize E resize_on f = Ok img
           /\ img_id info = idx
           /\ height info = fst img /\ width info = snd img
           /\ has_char "/" (file_name info) = false
  end.
Proof.
  unfold get_image_info.
  assert (Hhandler :
    match (_ <- index (children root) 0 ;;
           Ok (@None image_info, @None (Z * Z))) with
    | Raise e => e = IndexError /\ children root = []
    | Ok r =>
        r = (None, None)
        \/ exists info img f,
             r = (Some info, Some img)
             /\ findtext "filename" root = Some f
             /\ load_and_resize E resize_on f = Ok img
             /\ img_id info = idx
             /\ height info = fst img /\ width info = snd img
             /\ has_char "/" (file_name info) = false
    end).
  { unfold index. destruct (children root) as [| c cs]; cbn.
    - split; reflexivity.
    - left. reflexivity. }
  destruct (findtext "filename" root) as [f |]; cbn [Py.bind];
    [| exact Hhandler].
  destruct (load_and_resize E resize_on f) as [img |] eqn:Hload;
    cbn [Py.bind]; [| exact Hhandler].
  destruct (if add_foldername then folder_and_name f else Ok f)
    as [f' |] eqn:Hname; cbn [Py.bind]; [| exact Hhandler].
  destruct (index_from_end (split "/" f') 1) as [base |] eqn:Hbase;
    cbn [Py.bind]; [| exact Hhandler].
  right. exists {| file_name := base; height := fst img; width := snd img;
                   img_id := idx |}, img, f.
  cbn [img_id height width file_name].
  repeat split; [exact Hload |].
  exact (split_part_no_sep _ _ _ _ Hbase).
Qed.

(** *** What a completed job holds *)

Lemma boxes_loop_image_ids (E : Env) (opts : options) (label2id : dict Z)
    (path : string) (w img_idx : nat) (img_info : image_info)
    (rows : list (list string)) :
  forall (k : nat) (anns out : list annotation),
    boxes_loop E opts label2id path w img_idx img_info rows k anns = Ok out ->
    exists new,
      out = anns ++ new
      /\ Forall (fun a => image_id a = img_id img_info) new.
Proof.
  induction rows as [| obj rows IH]; intros k anns out Hrun;
    cbn [boxes_loop] in Hrun.
  - injection Hrun as <-. exists []. rewrite app_nil_r. split; constructor.
  - step_bind Hrun as obj' Hobj.
    destruct (try_except
                (a <- get_coco_annotation_from_annoline E obj' label2id ;;
                 Ok (Some a)) None) as [a |].
    + step_bind Hrun as anns1 Hanns1. step_bind Hanns1 as bnd_id Hid.
      injection Hanns1 as <-.
      destruct (IH _ _ _ Hrun) as (new & -> & Hnew).
      eexists (_ :: new). rewrite <- app_assoc. split; [reflexivity |].
      constructor; [reflexivity | exact Hnew].
    + cbn [Py.bind] in Hrun. exact (IH _ _ _ Hrun).
Qed.

Lemma refers_extend (imgs : list (option image_info)) (anns new : list annotation)
    (info : image_info) :
  refers_to_images imgs anns ->
  Forall (fun a => image_id a = img_id info) new ->
  refers_to_images (imgs ++ [Some info]) (anns ++ new).
Proof.
  intros [Himgs Hanns] Hnew. split.
  - apply Forall_app. split; [exact Himgs |].
    constructor; [discriminate | constructor].
  - apply Forall_app. split.
    + eapply Forall_impl; [exact Hanns |].
      cbn. intros a (i & Hin & Hid). exists i. split; [| exact Hid].
      apply in_or_app. left. exact Hin.
    + eapply Forall_impl; [exact Hnew |].
      cbn. intros a Hid. exists info. split; [| exact Hid].
      apply in_or_app. right. left. reflexivity.
Qed.

Lemma line_step_refers (E : Env) (opts : options) (label2id : dict Z)
    (img_idx : nat) (anno_line : list string)
    (st st' : list (option image_info) * list annotation) :
  refers_to_images (fst st) (snd st) ->
  line_step E opts label2id img_idx anno_line st = Ok st' ->
  refers_to_images (fst st') (snd st').
Proof.
  intros Hinv Hstep. unfold line_step in Hstep.
  step_bind Hstep as i Hi. step_bind Hstep as r Hr.
  destruct (fst r) as [img_info |]; [| injection Hstep as <-; exact Hinv].
  step_bind Hstep as t1 Ht1. step_bind Hstep as bbox_cnt Hcnt.
  step_bind Hstep as anns Hanns.
  injection Hstep as <-. cbn [fst snd].
  destruct (0 <? bbox_cnt).
  - step_bind Hanns as rows Hrows. step_bind Hanns as path Hpath.
    destruct (boxes_loop_image_ids _ _ _ _ _ _ _ _ _ _ _ Hanns)
      as (new & -> & Hnew).
    apply refers_extend; assumption.
  - injection Hanns as <-.
    rewrite <- (app_nil_r (snd st)).
    apply refers_extend; [exact Hinv | constructor].
Qed.

Lemma lines_loop_refers (E : Env) (opts : options) (label2id : dict Z)
    (lines : list (list string)) :
  forall (img_idx : nat)
         (st st' : list (option image_info) * list annotation),
    refers_to_images (fst st) (snd st) ->
    lines_loop E opts label2id lines img_idx st = Ok st' ->
    refers_to_images (fst st') (snd st').
Proof.
  induction lines as [| line lines IH]; intros img_idx st st' Hinv Hrun;
    cbn [lines_loop] in Hrun.
  - injection Hrun as <-. exact Hinv.
  - step_bind Hrun as st1 Hstep.
    exact (IH _ _ _ (line_step_refers _ _ _ _ _ _ _ Hinv Hstep) Hrun).
Qed.

(** X9: in the bundle of a completed line-record job every image entry
    is an image dict and every annotation carries the id of one of the
    images of the bundle. *)
Theorem line_job_refers_to_images (E : Env) (annotation : list (list string))
    (label2id : dict Z) (opts : options) (b : bundle) :
  convert_bbox_to_coco E annotation label2id opts = Ok b ->
  refers_to_images (images b) (annotations b).
Proof.
  intros Hjob. unfold convert_bbox_to_coco in Hjob.
  step_bind Hjob as st Hloop. injection Hjob as <-. cbn [images annotations].
  apply (lines_loop_refers E opts label2id annotation 0 ([], []) st);
    [| exact Hloop].
  split; constructor.
Qed.

Lemma line_job_refers_to_images_witness :
  exists b,
    convert_bbox_to_coco Demo.line_env
      [["missing.jpg"; "1"; "10"; "10"; "50"; "50"; "2"];
       ["img.jpg"; "1"; "10"; "10"; "50"; "50"; "2"]]
      [("bg", 1); ("weed", 2)] Demo.plain = Ok b
    /\ refers_to_images (images b) (annotations b).
Proof.
  eexists. split; [reflexivity |].
  apply (line_job_refers_to_images Demo.line_env
           [["missing.jpg"; "1"; "10"; "10"; "50"; "50"; "2"];
            ["img.jpg"; "1"; "10"; "10"; "50"; "50"; "2"]]
           [("bg", 1); ("weed", 2)] Demo.plain).
  reflexivity.
Defined.







Lemma objects_loop_image_ids (E : Env) (label2id : dict Z)
    (name_converter : option (dict string)) (info : image_info)
    (objs : list element) :
  forall (bnd_id : Z) (anns : list annotation) (r : Z * list annotation),
    objects_loop E label2id name_converter (Some info) objs bnd_id anns = Ok r ->
    exists new,
      snd r = anns ++ new
      /\ Forall (fun a => image_id a = img_id info) new.
Proof.
  induction objs as [| obj objs IH]; intros bnd_id anns r Hrun;
    cbn [objects_loop] in Hrun.
  - injection Hrun as <-. exists []. rewrite app_nil_r. split; constructor.
  - step_bind Hrun as ann Hann.
    destruct (ann_truthy ann) as [a |]; [| exact (IH _ _ _ Hrun)].
    destruct (IH _ _ _ Hrun) as (new & -> & Hnew).
    eexists (_ :: new). rewrite <- app_assoc. split; [reflexivity |].
    constructor; [reflexivity | exact Hnew].
Qed.

Lemma xml_resolver_id (E : Env) (root : element) (idx : Z)
    (resize_on add_foldername : bool) (r : option image_info * option (Z * Z))
    (info : image_info) :
  get_image_info E root idx resize_on add_foldername = Ok r ->
  fst r = Some info -> img_id info = idx.
Proof.
  unfold get_image_info. intros Hrun Hfst.
  destruct (filename <- match findtext "filename" root with
                        | Some f => Ok f
                        | None => Raise TypeError
                        end ;;
            img <- load_and_resize E resize_on filename ;;
            filename0 <- (if add_foldername then folder_and_name filename
                          else Ok filename) ;;
            base <- index_from_end (split "/" filename0) 1 ;;
            Ok ({| file_name := base; height := fst img; width := snd img;
                   img_id := idx |}, img)) as [[image_info img] |] eqn:Hbody.
  - injection Hrun as <-. cbn [fst] in Hfst. injection Hfst as <-.
    step_bind Hbody as f Hf. step_bind Hbody as img' Himg.
    step_bind Hbody as f' Hf'. step_bind Hbody as base Hbase.
    injection Hbody as <- _. reflexivity.
  - step_bind Hrun as c Hc. injection Hrun as <-. discriminate.
Qed.

(** One completed step of the XML job appends one image dict and
    annotations that carry its id. *)
Lemma xml_step_shape (E : Env) (img_paths : list string) (n_ann : nat)
    (label2id : dict Z) (name_converter : option (dict string))
    (extract_num : bool) (img_idx : nat) (a_path : string)
    (st st' : xml_state) :
  xml_step E img_paths n_ann label2id name_converter extract_num img_idx
    a_path st = Ok st' ->
  exists info new,
    xs_images st' = xs_images st ++ [Some info]
    /\ xs_annotations st' = xs_annotations st ++ new
    /\ Forall (fun a => image_id a = img_id info) new
    /\ (extract_num = false -> img_id info = Z.of_nat img_idx + 1).
Proof.
  intros Hstep. unfold xml_step in Hstep.
  step_bind Hstep as root Hroot. step_bind Hstep as i Hi.
  step_bind Hstep as root' Hover. step_bind Hstep as r Hr.
  step_bind Hstep as r' Hloop.
  destruct (fst r) as [info |] eqn:Hfst; [| discriminate].
  injection Hstep as <-. cbn [xs_images xs_annotations].
  destruct (objects_loop_image_ids _ _ _ _ _ _ _ _ Hloop) as (new & -> & Hnew).
  exists info, new. repeat split; [exact Hnew |].
  intros ->. injection Hi as <-.
  exact (xml_resolver_id _ _ _ _ _ _ _ Hr Hfst).
Qed.

Lemma xmls_loop_shape (E : Env) (img_paths : list string) (n_ann : nat)
    (label2id : dict Z) (name_converter : option (dict string))
    (extract_num : bool) (paths : list string) :
  forall (img_idx : nat) (st st' : xml_state),
    refers_to_images (xs_images st) (xs_annotations st) ->
    xmls_loop E img_paths n_ann label2id name_converter extract_num paths
      img_idx st = Ok st' ->
    refers_to_images (xs_images st') (xs_annotations st')
    /\ exists infos,
         xs_images st' = xs_images st ++ map Some infos
         /\ length infos = length paths
         /\ (extract_num = false ->
             map img_id infos
             = range_from (Z.of_nat img_idx + 1) (length paths)).
Proof.
  induction paths as [| p paths IH]; intros img_idx st st' Hinv Hrun;
    cbn [xmls_loop] in Hrun.
  - injection Hrun as <-. split; [exact Hinv |].
    exists []. cbn. rewrite app_nil_r. repeat split.
  - step_bind Hrun as st1 Hstep.
    destruct (xml_step_shape _ _ _ _ _ _ _ _ _ _ Hstep)
      as (info & new & Himgs & Hanns & Hnew & Hid).
    assert (Hinv1 : refers_to_images (xs_images st1) (xs_annotations st1)).
    { rewrite Himgs, Hanns. apply refers_extend; assumption. }
    destruct (IH _ _ _ Hinv1 Hrun) as (Hinv' & infos & Himgs' & Hlen & Hids).
    split; [exact Hinv' |].
    exists (info :: infos).
    rewrite Himgs', Himgs, <- app_assoc. cbn [app map length range_from].
    repeat split; [lia |].
    intros Hextract. rewrite (Hid Hextract), (Hids Hextract).
    do 2 f_equal. lia.
Qed.

(** X11: a completed XML job holds exactly one image dict for every
    annotation path, and every annotation carries the id of one of
    them. *)
Theorem xml_job_refers_to_images (E : Env)
    (annotation_paths img_paths : list string) (label2id : dict Z)
    (name_converter : option (dict string)) (extract_num : bool) (b : bundle) :
  convert_xmls_to_cocojson E annotation_paths img_paths label2id
    name_converter extract_num = Ok b ->
  refers_to_images (images b) (annotations b)
  /\ length (images b) = length annotation_paths.
Proof.
  intros Hjob. unfold convert_xmls_to_cocojson in Hjob.
  step_bind Hjob as st Hloop. injection Hjob as <-. cbn [images annotations].
  assert (Hinit : refers_to_images [] []) by (split; constructor).
  destruct (xmls_loop_shape E img_paths (length annotation_paths) label2id
              name_converter extract_num annotation_paths 0
              {| xs_bnd_id := 1; xs_images := []; xs_annotations := [] |} st
              Hinit Hloop)
    as (Hinv & infos & Himgs & Hlen & _).
  split; [exact Hinv |].
  rewrite Himgs. cbn [xs_images app]. rewrite length_map. exact Hlen.
Qed.

Lemma xml_job_refers_to_images_witness :
  exists b,
    convert_xmls_to_cocojson Demo.xml_env ["a.xml"; "d.xml"] []
      Demo.xml_labels None false = Ok b
    /\ refers_to_images (images b) (annotations b)
    /\ length (images b) = length ["a.xml"; "d.xml"].
Proof.
  eexists. split; [reflexivity |].
  apply (xml_job_refers_to_images Demo.xml_env ["a.xml"; "d.xml"] []
           Demo.xml_labels None false).
  reflexivity.
Defined.

Lemma image_ids_some (infos : list image_info) :
  image_ids (map Some infos) = map img_id infos.
Proof.
  unfold image_ids. induction infos as [| i infos IH]; cbn; [reflexivity |].
  f_equal. exact IH.
Qed.

(** X12: when the image id is not taken from the digits of the file
    name, the images of a completed XML job carry the ids 1, 2, ...,
    one for every annotation path in order. *)
Theorem xml_job_default_image_ids (E : Env)
    (annotation_paths img_paths : list string) (label2id : dict Z)
    (name_converter : option (dict string)) (b : bundle) :
  convert_xmls_to_cocojson E annotation_paths img_paths label2id
    name_converter false = Ok b ->
  image_ids (images b) = range_from 1 (length annotation_paths).
Proof.
  intros Hjob. unfold convert_xmls_to_cocojson in Hjob.
  step_bind Hjob as st Hloop. injection Hjob as <-. cbn [images].
  assert (Hinit : refers_to_images [] []) by (split; constructor).
  destruct (xmls_loop_shape E img_paths (length annotation_paths) label2id
              name_converter false annotation_paths 0
              {| xs_bnd_id := 1; xs_images := []; xs_annotations := [] |} st
              Hinit Hloop)
    as (_ & infos & Himgs & _ & Hids).
  rewrite Himgs. cbn [xs_images app].
  rewrite image_ids_some. exact (Hids eq_refl).
Qed.

Lemma xml_job_default_image_ids_witness :
  exists b,
    convert_xmls_to_cocojson Demo.xml_env ["a.xml"; "d.xml"] []
      Demo.xml_labels None false = Ok b
    /\ image_ids (images b) = range_from 1 (length ["a.xml"; "d.xml"]).
Proof.
  eexists. split; [reflexivity |].
  apply (xml_job_default_image_ids Demo.xml_env ["a.xml"; "d.xml"] []
           Demo.xml_labels None).
  reflexivity.
Defined.

(** *** A record that cannot be split into its boxes *)

Lemma lines_loop_raises (E : Env) (opts : options) (label2id : dict Z)
    (line : list string) (lines : list (list string)) :
  In line lines ->
  (forall (img_idx : nat) (st : list (option image_info) * list annotation),
      is_ok (line_step E opts label2id img_idx line st) = false) ->
  forall (img_idx : nat) (st : list (option image_info) * list annotation),
    is_ok (lines_loop E opts label2id lines img_idx st) = false.
Proof.
  intros Hin Hstep.
  induction lines as [| l lines IH]; [destruct Hin |].
  intros img_idx st. cbn [lines_loop].
  destruct Hin as [-> | Hin].
  - apply is_ok_bind_raise, Hstep.
  - apply is_ok_bind_all. intros st'. apply IH, Hin.
Qed.

Lemma line_resolver_readable (E : Env) (path : string) (rest : list string)
    (idx : Z) (img : Z * Z) :
  imread E path = Some img ->
  exists info,
    get_image_info_from_annoline E (path :: rest) idx false false
    = Ok (Some info, Some img).
Proof.
  intros Hread. unfold get_image_info_from_annoline, index.
  cbn [lookup list_lookup Py.bind].
  destruct (index_from_end_last (split "/" path) (split_not_nil "/" path))
    as [filename Hlast].
  rewrite Hlast. cbn [Py.bind].
  unfold load_and_resize. rewrite Hread. destruct img as [h w].
  cbn [Py.bind]. eexists. reflexivity.
Qed.

(** X13: a record whose image decodes and whose tokens after the box
    count cannot be divided evenly among the announced boxes makes
    the whole line-record job fail (the [ValueError] of [np.reshape] is
    outside the [try] that swallows the errors of single boxes). *)
Theorem ragged_record_aborts_line_job (E : Env) (opts : options)
    (label2id : dict Z) (annotation : list (list string))
    (path t1 : string) (rest : list string) (img : Z * Z) (bbox_cnt : Z) :
  In (path :: t1 :: rest) annotation ->
  imread E path = Some img ->
  resized E = false ->
  add_foldername opts = false ->
  py_int E t1 = Ok bbox_cnt ->
  0 < bbox_cnt ->
  (length rest mod Z.to_nat bbox_cnt <> 0)%nat ->
  is_ok (convert_bbox_to_coco E annotation label2id opts) = false.
Proof.
  intros Hin Hread Hresize Hfolder Hcnt Hpos Hragged.
  unfold convert_bbox_to_coco. apply is_ok_bind_raise.
  apply (lines_loop_raises E opts label2id (path :: t1 :: rest)); [exact Hin |].
  intros img_idx st. unfold line_step.
  apply is_ok_bind_all. intros i.
  rewrite Hresize, Hfolder.
  destruct (line_resolver_readable E path (t1 :: rest) i img Hread)
    as [info Hinfo].
  rewrite Hinfo. cbn [Py.bind fst index lookup list_lookup].
  unfold index. cbn [lookup list_lookup Py.bind].
  rewrite Hcnt. cbn [Py.bind].
  apply Z.ltb_lt in Hpos. rewrite Hpos.
  unfold np_reshape_rows. cbn [drop].
  change (drop 0 rest) with rest.
  apply Nat.eqb_neq in Hragged. rewrite Hragged. reflexivity.
Qed.

Lemma ragged_record_aborts_line_job_witness :
  is_ok (convert_bbox_to_coco Demo.line_env
           [["img.jpg"; "2"; "10"; "10"; "50"; "50"; "2"; "7"; "7"]]
           [("bg", 1); ("weed", 2)] Demo.plain) = false.
Proof.
  apply (ragged_record_aborts_line_job Demo.line_env Demo.plain
           [("bg", 1); ("weed", 2)]
           [["img.jpg"; "2"; "10"; "10"; "50"; "50"; "2"; "7"; "7"]]
           "img.jpg" "2" ["10"; "10"; "50"; "50"; "2"; "7"; "7"] (480, 640) 2);
    first [reflexivity | lia | (left; reflexivity) | (vm_compute; lia)].
Defined.

(** *** Sub-masks of a colour mask *)

Section SubMaskProperties.

Import SubMasks.

Variable img : mask_image.

Lemma masks_get_set_eq (d : list ((Z * Z * Z) * bitmap)) (k : Z * Z * Z)
    (v : bitmap) :
  masks_get (masks_set d k v) k = Some v.
Proof.
  induction d as [| [k' v'] d IH]; cbn [masks_set masks_get].
  - destruct (decide (k = k)); [reflexivity | contradiction].
  - destruct (decide (k' = k)) as [-> | Hne]; cbn [masks_get].
    + destruct (decide (k = k)); [reflexivity | contradiction].
    + destruct (decide (k' = k)); [contradiction | exact IH].
Qed.

Lemma masks_get_set_ne (d : list ((Z * Z * Z) * bitmap)) (k k' : Z * Z * Z)
    (v : bitmap) :
  k <> k' -> masks_get (masks_set d k v) k' = masks_get d k'.
Proof.
  intros Hne.
  induction d as [| [k0 v0] d IH]; cbn [masks_set masks_get].
  - destruct (decide (k = k')); [contradiction | reflexivity].
  - destruct (decide (k0 = k)) as [-> | Hne0]; cbn [masks_get].
    + destruct (decide (k = k')); [contradiction | reflexivity].
    + destruct (decide (k0 = k')); [reflexivity | exact IH].
Qed.

(** What one round of the loops does to the entry of a colour. *)
Lemma visit_get (x y : nat) (d : list ((Z * Z * Z) * bitmap)) (c : Z * Z * Z) :
  masks_get (visit img x y d) c
  = if decide (getpixel img x y = (0, 0, 0)) then masks_get d c
    else if decide (getpixel img x y = c)
         then Some (putpixel (default (fresh_bitmap img) (masks_get d c))
                      (x + 1) (y + 1))
         else masks_get d c.
Proof.
  unfold visit.
  destruct (decide (getpixel img x y = (0, 0, 0))) as [Hblack | Hcolour];
    [reflexivity |].
  destruct (decide (getpixel img x y = c)) as [<- | Hother].
  - destruct (masks_get d (getpixel img x y)) as [bm |] eqn:Hget.
    + rewrite Hget. apply masks_get_set_eq.
    + rewrite masks_get_set_eq. apply masks_get_set_eq.
  - destruct (masks_get d (getpixel img x y)) as [bm |] eqn:Hget.
    + rewrite Hget. apply masks_get_set_ne, Hother.
    + rewrite masks_get_set_eq.
      rewrite !masks_get_set_ne by exact Hother. reflexivity.
Qed.

Lemma sub_masks_of_visit (x y : nat) (visited : list (nat * nat))
    (d : list ((Z * Z * Z) * bitmap)) :
  sub_masks_of img visited d ->
  sub_masks_of img (visited ++ [(x, y)]) (visit img x y d).
Proof.
  intros Hinv c. specialize (Hinv c). rewrite visit_get.
  assert (Hold : forall x' y', In (x', y') visited ->
                               In (x', y') (visited ++ [(x, y)])).
  { intros x' y' Hin. apply in_or_app. left. exact Hin. }
  assert (Hnew : In (x, y) (visited ++ [(x, y)])).
  { apply in_or_app. right. left. reflexivity. }
  assert (Hsplit : forall x' y', In (x', y') (visited ++ [(x, y)]) ->
                                 In (x', y') visited \/ (x' = x /\ y' = y)).
  { intros x' y' Hin. apply in_app_or in Hin as [Hin | [Heq | []]].
    - left. exact Hin.
    - right. injection Heq as -> ->. split; reflexivity. }
  destruct (decide (getpixel img x y = (0, 0, 0))) as [Hblack | Hcolour].
  - destruct (masks_get d c) as [bm |].
    + destruct Hinv as (Hc & Hw & Hh & (x0 & y0 & Hin0 & Hp0) & Hones).
      repeat split; try assumption.
      * exists x0, y0. split; [apply Hold, Hin0 | exact Hp0].
      * intros Hij. apply Hones in Hij as (x' & y' & Hin & Hi & Hj & Hp).
        exists x', y'. repeat split; try assumption. apply Hold, Hin.
      * intros (x' & y' & Hin & Hi & Hj & Hp). apply Hones.
        apply Hsplit in Hin as [Hin | [-> ->]].
        -- exists x', y'. repeat split; assumption.
        -- congruence.
    + destruct Hinv as [Hc | Hnone]; [left; exact Hc |].
      destruct (decide (c = (0, 0, 0))) as [Hc | Hc]; [left; exact Hc |].
      right. intros x' y' Hin. apply Hsplit in Hin as [Hin | [-> ->]].
      * apply Hnone, Hin.
      * congruence.
  - destruct (decide (getpixel img x y = c)) as [Hpix | Hother].
    + assert (Hc : c <> (0, 0, 0)) by congruence.
      destruct (masks_get d c) as [bm |]; cbn [default putpixel bm_width
        bm_height ones fresh_bitmap].
      * destruct Hinv as (_ & Hw & Hh & _ & Hones).
        repeat split; try assumption.
        -- exists x, y. split; [exact Hnew | exact Hpix].
        -- rewrite elem_of_union, elem_of_singleton.
           intros [Heq | Hij].
           ++ injection Heq as -> ->. exists x, y. repeat split; assumption.
           ++ apply Hones in Hij as (x' & y' & Hin & Hi & Hj & Hp).
              exists x', y'. repeat split; try assumption. apply Hold, Hin.
        -- rewrite elem_of_union, elem_of_singleton.
           intros (x' & y' & Hin & -> & -> & Hp).
           apply Hsplit in Hin as [Hin | [-> ->]].
           ++ right. apply Hones. exists x', y'. repeat split; assumption.
           ++ left. reflexivity.
      * destruct Hinv as [Hblack | Hnone]; [contradiction |].
        repeat split; try assumption.
        -- exists x, y. split; [exact Hnew | exact Hpix].
        -- rewrite elem_of_union, elem_of_singleton, elem_of_empty.
           intros [Heq | []].
           injection Heq as -> ->. exists x, y. repeat split; assumption.
        -- rewrite elem_of_union, elem_of_singleton.
           intros (x' & y' & Hin & -> & -> & Hp).
           apply Hsplit in Hin as [Hin | [-> ->]].
           ++ exfalso. exact (Hnone _ _ Hin Hp).
           ++ left. reflexivity.
    + destruct (masks_get d c) as [bm |].
      * destruct Hinv as (Hc & Hw & Hh & (x0 & y0 & Hin0 & Hp0) & Hones).
        repeat split; try assumption.
        -- exists x0, y0. split; [apply Hold, Hin0 | exact Hp0].
        -- intros Hij. apply Hones in Hij as (x' & y' & Hin & Hi & Hj & Hp).
           exists x', y'. repeat split; try assumption. apply Hold, Hin.
        -- intros (x' & y' & Hin & Hi & Hj & Hp). apply Hones.
           apply Hsplit in Hin as [Hin | [-> ->]].
           ++ exists x', y'. repeat split; assumption.
           ++ contradiction.
      * destruct Hinv as [Hc | Hnone]; [left; exact Hc |].
        right. intros x' y' Hin. apply Hsplit in Hin as [Hin | [-> ->]].
        -- apply Hnone, Hin.
        -- exact Hother.
Qed.

Lemma column_loop_inv (x : nat) (ys : list nat) :
  forall (visited : list (nat * nat)) (d : list ((Z * Z * Z) * bitmap)),
    sub_masks_of img visited d ->
    sub_masks_of img (visited ++ map (pair x) ys) (column_loop img x ys d).
Proof.
  induction ys as [| y ys IH]; intros visited d Hinv; cbn [column_loop map].
  - rewrite app_nil_r. exact Hinv.
  - replace (visited ++ (x, y) :: map (pair x) ys)
      with ((visited ++ [(x, y)]) ++ map (pair x) ys)
      by (rewrite <- app_assoc; reflexivity).
    apply IH, sub_masks_of_visit, Hinv.
Qed.

Lemma row_loop_inv (xs : list nat) :
  forall (visited : list (nat * nat)) (d : list ((Z * Z * Z) * bitmap)),
    sub_masks_of img visited d ->
    sub_masks_of img (visited ++ scan_order xs (im_height img))
      (row_loop img xs d).
Proof.
  induction xs as [| x xs IH]; intros visited d Hinv;
    cbn [row_loop scan_order flat_map].
  - rewrite app_nil_r. exact Hinv.
  - rewrite app_assoc. apply IH, column_loop_inv, Hinv.
Qed.

Lemma in_scan_order (x y : nat) :
  In (x, y) (scan_order (seq 0 (im_width img)) (im_height img))
  <-> (x < im_width img)%nat /\ (y < im_height img)%nat.
Proof.
  unfold scan_order. rewrite in_flat_map. split.
  - intros (x' & Hx & Hin). apply in_map_iff in Hin as (y' & Heq & Hy).
    injection Heq as -> ->. apply in_seq in Hx, Hy. lia.
  - intros [Hx Hy]. exists x. split; [apply in_seq; lia |].
    apply in_map_iff. exists y. split; [reflexivity | apply in_seq; lia].
Qed.

Lemma create_sub_masks_inv :
  sub_masks_of img (scan_order (seq 0 (im_width img)) (im_height img))
    (create_sub_masks img).
Proof.
  apply (row_loop_inv (seq 0 (im_width img)) [] []).
  intros c. right. intros x y [].
Qed.

End SubMaskProperties.

(** X14: the sub-masks have an entry for a colour exactly when the
    colour is not black and some pixel of the image has it. *)
Theorem sub_mask_keys (img : SubMasks.mask_image) (c : Z * Z * Z) :
  SubMasks.masks_get (SubMasks.create_sub_masks img) c <> None
  <-> c <> (0, 0, 0)
      /\ exists x y : nat,
           (x < SubMasks.im_width img)%nat
           /\ (y < SubMasks.im_height img)%nat
           /\ SubMasks.getpixel img x y = c.
Proof.
  pose proof (create_sub_masks_inv img c) as Hinv.
  destruct (SubMasks.masks_get (SubMasks.create_sub_masks img) c) as [bm |].
  - destruct Hinv as (Hc & _ & _ & (x & y & Hin & Hp) & _).
    split; [| discriminate]. intros _. split; [exact Hc |].
    apply in_scan_order in Hin as [Hx Hy]. exists x, y. repeat split; assumption.
  - split; [congruence |]. intros (Hc & x & y & Hx & Hy & Hp).
    destruct Hinv as [Hblack | Hnone]; [contradiction |].
    exfalso. apply (Hnone x y); [| exact Hp].
    apply in_scan_order. split; assumption.
Qed.

(** X15: the sub-mask of a colour is two pixels wider and higher than
    the image, and its set pixels are exactly the pixels of that colour
    moved by one to the right and down, so the one-pixel border stays
    empty. *)
Theorem sub_mask_pixels (img : SubMasks.mask_image) (c : Z * Z * Z)
    (bm : SubMasks.bitmap) :
  SubMasks.masks_get (SubMasks.create_sub_masks img) c = Some bm ->
  SubMasks.bm_width bm = (SubMasks.im_width img + 2)%nat
  /\ SubMasks.bm_height bm = (SubMasks.im_height img + 2)%nat
  /\ forall i j : nat,
       (i, j) ∈ SubMasks.ones bm
       <-> (1 <= i <= SubMasks.im_width img)%nat
           /\ (1 <= j <= SubMasks.im_height img)%nat
           /\ SubMasks.getpixel img (i - 1) (j - 1) = c.
Proof.
  intros Hget. pose proof (create_sub_masks_inv img c) as Hinv.
  rewrite Hget in Hinv. destruct Hinv as (_ & Hw & Hh & _ & Hones).
  split; [exact Hw |]. split; [exact Hh |].
  intros i j. rewrite Hones. split.
  - intros (x & y & Hin & -> & -> & Hp).
    apply in_scan_order in Hin as [Hx Hy].
    replace (x + 1 - 1)%nat with x by lia.
    replace (y + 1 - 1)%nat with y by lia.
    repeat split; try lia. exact Hp.
  - intros ([Hi1 Hi2] & [Hj1 Hj2] & Hp).
    exists (i - 1)%nat, (j - 1)%nat.
    split; [apply in_scan_order; lia |].
    repeat split; try lia. exact Hp.
Qed.

Lemma sub_mask_pixels_witness :
  exists bm,
    SubMasks.masks_get (SubMasks.create_sub_masks DemoSubMasks.corner_image)
      DemoSubMasks.red = Some bm
    /\ SubMasks.bm_width bm = 5%nat
    /\ SubMasks.bm_height bm = 4%nat
    /\ forall i j : nat,
         (i, j) ∈ SubMasks.ones bm
         <-> (1 <= i <= 3)%nat /\ (1 <= j <= 2)%nat
             /\ SubMasks.getpixel DemoSubMasks.corner_image (i - 1) (j - 1)
                = DemoSubMasks.red.
Proof.
  eexists. split; [reflexivity |].
  apply (sub_mask_pixels DemoSubMasks.corner_image DemoSubMasks.red).
  reflexivity.
Defined.

(** *** Mask records *)

Section MaskRecords.

Import Mask.

Variable G : Geometry.

Lemma trace_all_length (contours : list (list (num G * num G)))
    (traced : list (polygon G * list (num G))) :
  trace_all G contours = Ok traced -> length traced = length contours.
Proof.
  revert traced.
  induction contours as [| c contours IH]; intros traced Hrun;
    cbn [trace_all] in Hrun.
  - injection Hrun as <-. reflexivity.
  - step_bind Hrun as t Ht. step_bind Hrun as ts Hts.
    injection Hrun as <-. cbn [length]. f_equal. exact (IH _ eq_refl).
Qed.


End MaskRecords.



(** X17: the record of the whole-mask extractor holds one segmentation
    for every contour that was traced, also for a contour whose polygon
    has no area, and carries the id, image, category and crowd flag
    passed in. *)
Theorem whole_mask_record_keeps_every_contour (G : Mask.Geometry)
    (sub_mask : Mask.mask G) (image_id category_id annotation_id is_crowd : Z)
    (r : Mask.mask_annotation G) :
  Mask.create_sub_mask_annotation G sub_mask image_id category_id
    annotation_id is_crowd = Ok r ->
  exists contours,
    Mask.find_contours G sub_mask = Ok contours
    /\ length (Mask.m_segmentation r) = length contours
    /\ Mask.m_id r = annotation_id
    /\ Mask.m_image_id r = image_id
    /\ Mask.m_category_id r = category_id
    /\ Mask.m_iscrowd r = is_crowd.
Proof.
  intros Hrun. unfold Mask.create_sub_mask_annotation in Hrun.
  destruct (Mask.find_contours G sub_mask) as [contours | e];
    cbn [Py.bind] in Hrun; [| discriminate].
  exists contours. split; [reflexivity |].
  step_bind Hrun as traced Htraced. step_bind Hrun as b Hb.
  injection Hrun as <-.
  cbn [Mask.m_segmentation Mask.m_id Mask.m_image_id Mask.m_category_id
       Mask.m_iscrowd].
  rewrite length_map, (trace_all_length G _ _ Htraced).
  repeat split.
Qed.

Lemma whole_mask_record_keeps_every_contour_witness :
  exists r,
    Mask.create_sub_mask_annotation DemoMask.lattice
      DemoMask.islands_and_sliver 1 2 7 0 = Ok r
    /\ length (Mask.m_segmentation r) = 3%nat
    /\ exists contours,
         Mask.find_contours DemoMask.lattice DemoMask.islands_and_sliver
         = Ok contours
         /\ length (Mask.m_segmentation r) = length contours
         /\ Mask.m_id r = 7
         /\ Mask.m_image_id r = 1
         /\ Mask.m_category_id r = 2
         /\ Mask.m_iscrowd r = 0.
Proof.
  eexists. split; [reflexivity |]. split; [reflexivity |].
  apply (whole_mask_record_keeps_every_contour DemoMask.lattice
           DemoMask.islands_and_sliver 1 2 7 0).
  reflexivity.
Defined.

(** *** Vector masks *)

Section VectorMasks.

Import Mask SubMasks.

Variable G : Geometry.
Variable V : Vector G.


Lemma contour_loop_short (xs ys : list (jnum V)) (n : nat) :
  forall (i : nat) (acc : list (Z * Z)),
    (i <= length ys)%nat -> (length ys < i + n)%nat ->
    is_ok (contour_loop G V (Some xs) (Some ys) n i acc) = false.
Proof.
  induction n as [| n IH]; intros i acc Hlow Hshort; [lia |].
  cbn [contour_loop key_item Py.bind].
  destruct (index xs i) as [jx | e]; cbn [Py.bind]; [| reflexivity].
  destruct (int_of V jx) as [x | e]; cbn [Py.bind]; [| reflexivity].
  unfold index at 1. destruct (ys !! i) as [jy |] eqn:Hjy; cbn [Py.bind];
    [| reflexivity].
  destruct (int_of V jy) as [y | e]; cbn [Py.bind]; [| reflexivity].
  apply lookup_lt_Some in Hjy. apply IH; lia.
Qed.


End VectorMasks.



(** X19: when the decoded mask has more than three x coordinates and
    fewer y coordinates than x coordinates, the vector-mask extractor
    raises instead of returning a record. *)
Theorem vector_mask_unequal_lengths (G : Mask.Geometry) (V : SubMasks.Vector G)
    (anno_line : list string) (image_id category_id annotation_id is_crowd : Z)
    (text : string) (xs ys : list (SubMasks.jnum V)) :
  index anno_line 5 = Ok text ->
  SubMasks.loads V text = Ok (Some xs, Some ys) ->
  (3 < length xs)%nat ->
  (length ys < length xs)%nat ->
  is_ok (SubMasks.mask_annotation_per_bbox G V anno_line image_id category_id
           annotation_id is_crowd) = false.
Proof.
  intros Htext Hload Hmany Hshort. unfold SubMasks.mask_annotation_per_bbox.
  rewrite Htext; cbn [Py.bind]. rewrite Hload; cbn [Py.bind fst snd
    SubMasks.key_item].
  apply Nat.ltb_lt in Hmany. rewrite Hmany.
  apply is_ok_bind_raise, contour_loop_short; lia.
Qed.

Lemma vector_mask_unequal_lengths_witness :
  is_ok (SubMasks.mask_annotation_per_bbox DemoMask.lattice
           DemoSubMasks.outlines ["img.jpg"; "0"; "0"; "4"; "4"; "ragged"]
           1 2 7 0) = false.
Proof.
  apply (vector_mask_unequal_lengths DemoMask.lattice DemoSubMasks.outlines
           ["img.jpg"; "0"; "0"; "4"; "4"; "ragged"] 1 2 7 0 "ragged"
           [0; 4; 4; 0] [0; 0; 4]);
    first [reflexivity | (cbn; lia)].
Defined.

(** *** Text files *)

Section TextFileProperties.

Import TextFiles.

Lemma rstrip_head (c : ascii) (rest : string) :
  rstrip (String c rest) = EmptyString
  \/ exists kept, rstrip (String c rest) = String c kept.
Proof.
  cbn [rstrip]. destruct (rstrip rest) as [| k ks].
  - destruct (isspace c); [left; reflexivity |].
    right. exists EmptyString. reflexivity.
  - right. eexists. reflexivity.
Qed.

Lemma rstrip_idempotent (s : string) : rstrip (rstrip s) = rstrip s.
Proof.
  induction s as [| c rest IH]; [reflexivity |].
  cbn [rstrip]. destruct (rstrip rest) as [| k ks] eqn:Hrest.
  - destruct (isspace c) eqn:Hc; [reflexivity |].
    cbn [rstrip]. rewrite Hc. reflexivity.
  - cbn [rstrip] in IH |- *.
    change (match rstrip ks with
            | EmptyString => if isspace k then EmptyString
                             else String k EmptyString
            | String a s0 => String k (String a s0)
            end) with (rstrip (String k ks)) in IH |- *.
    rewrite IH. reflexivity.
Qed.

Lemma lstrip_head (s : string) :
  lstrip s = EmptyString
  \/ exists c rest, lstrip s = String c rest /\ isspace c = false.
Proof.
  induction s as [| c rest IH]; [left; reflexivity |].
  cbn [lstrip]. destruct (isspace c) eqn:Hc; [exact IH |].
  right. exists c, rest. split; [reflexivity | exact Hc].
Qed.

Lemma strip_idempotent (s : string) : strip (strip s) = strip s.
Proof.
  unfold strip.
  assert (Hfix : lstrip (rstrip (lstrip s)) = rstrip (lstrip s)).
  { destruct (lstrip_head s) as [-> | (c & rest & -> & Hc)]; [reflexivity |].
    destruct (rstrip_head c rest) as [-> | [kept ->]]; [reflexivity |].
    cbn [lstrip]. rewrite Hc. reflexivity. }
  rewrite Hfix. apply rstrip_idempotent.
Qed.

Lemma clean_line_tokens (line : list string) :
  Forall (fun t => t <> EmptyString /\ strip t = t) (clean_line line).
Proof.
  unfold clean_line. induction line as [| x line IH]; [constructor |].
  cbn [List.filter]. destruct (truthy_str (strip x)) eqn:Hx; [| exact IH].
  cbn [map]. constructor; [| exact IH].
  split; [| apply strip_idempotent].
  intros Hempty. rewrite Hempty in Hx. discriminate.
Qed.

Lemma rows_loop_rows (header : bool) (rows : list (list string)) :
  forall (idx : nat) (txt_lines : list (list string))
         (headline : option (list string)),
    rows_loop header rows (S idx) txt_lines headline
    = (txt_lines ++ map clean_line rows, headline).
Proof.
  induction rows as [| line rows IH]; intros idx txt_lines headline;
    cbn [rows_loop map].
  - rewrite app_nil_r. reflexivity.
  - cbn [Nat.eqb]. rewrite andb_false_r, IH, <- app_assoc. reflexivity.
Qed.

Lemma append_assoc_string (a b c : string) :
  a +:+ b +:+ c = (a +:+ b) +:+ c.
Proof.
  induction a as [| k a IH]; [reflexivity |].
  change (String k (a +:+ b +:+ c) = String k ((a +:+ b) +:+ c)).
  rewrite IH. reflexivity.
Qed.

End TextFileProperties.

(** X20: what the text reader returns for the rows that the CSV reader
    yields: with [header] the first row is returned as it is read and
    the other rows are the cleaned lines, without [header] there is no
    headline and every row is a cleaned line; a row of blanks stays as
    an empty line; no token of a cleaned line is empty and none has
    white space at either end. *)
Theorem read_txt_file_rows (R : TextFiles.Reader) (file_name : string)
    (delimiter : ascii) (header : bool) (txt_lines : list (list string))
    (headline : option (list string)) :
  TextFiles.read_txt_file R file_name delimiter header
  = Ok (txt_lines, headline) ->
  exists text rows,
    TextFiles.read_file R file_name = Ok text
    /\ TextFiles.csv_rows R delimiter text = Ok rows
    /\ txt_lines = map TextFiles.clean_line (if header then tl rows else rows)
    /\ headline = (if header then head rows else None)
    /\ Forall (Forall (fun t => t <> EmptyString /\ TextFiles.strip t = t))
         txt_lines.
Proof.
  intros Hrun. unfold TextFiles.read_txt_file in Hrun.
  step_bind Hrun as text Htext. step_bind Hrun as rows Hrows.
  exists text, rows. split; [reflexivity |]. split; [exact Hrows |].
  assert (Hshape : txt_lines
                   = map TextFiles.clean_line (if header then tl rows else rows)
                   /\ headline = (if header then head rows else None)).
  { destruct rows as [| row rows].
    - cbn [TextFiles.rows_loop] in Hrun. injection Hrun as <- <-.
      destruct header; split; reflexivity.
    - cbn [TextFiles.rows_loop Nat.eqb] in Hrun. destruct header;
        cbn [andb] in Hrun; rewrite rows_loop_rows in Hrun;
        injection Hrun as <- <-; split; reflexivity. }
  destruct Hshape as [-> ->]. repeat split.
  apply Forall_map, Forall_forall. intros line _. apply clean_line_tokens.
Qed.

Lemma read_txt_file_rows_witness :
  exists text rows,
    TextFiles.read_file DemoText.two_files "table.txt" = Ok text
    /\ TextFiles.csv_rows DemoText.two_files " " text = Ok rows
    /\ [["leaf"; "3"]]
       = map TextFiles.clean_line (if true then tl rows else rows)
    /\ Some ["name"; ""; "count"] = (if true then head rows else None)
    /\ Forall (Forall (fun t => t <> EmptyString /\ TextFiles.strip t = t))
         [["leaf"; "3"]].
Proof.
  apply (read_txt_file_rows DemoText.two_files "table.txt" " " true
           [["leaf"; "3"]] (Some ["name"; ""; "count"])).
  reflexivity.
Defined.

Lemma words_from_gaps (s : string) :
  forall cur : string,
    space_free cur ->
    exists lead pairs,
      cur +:+ s = lead +:+ spaced_text pairs
      /\ all_space lead
      /\ (cur <> EmptyString -> lead = EmptyString)
      /\ well_gapped pairs
      /\ TextFiles.words_from cur s = map fst pairs.
Proof.
  induction s as [| c rest IH]; intros cur Hcur; cbn [TextFiles.words_from].
  - destruct cur as [| k ks]; cbn [TextFiles.truthy_str].
    + exists EmptyString, []. repeat split. intros c Hc. discriminate.
    + exists EmptyString, [(String k ks, EmptyString)].
      split; [reflexivity |]. split; [intros c Hc; discriminate |].
      split; [reflexivity |]. split; [| reflexivity].
      cbn [well_gapped]. split; [discriminate |]. split; [exact Hcur |].
      split; [intros c Hc; discriminate |]. split; [| exact I].
      intros Hne. destruct Hne. reflexivity.
  - destruct (TextFiles.isspace c) eqn:Hc.
    + destruct (IH EmptyString) as (lead & pairs & Heq & Hlead & _ & Hgaps & Hwords).
      { intros c' Hin. discriminate. }
      change (EmptyString +:+ rest) with rest in Heq.
      assert (Hgap : all_space (String c lead)).
      { intros c' Hin. cbn [has_char] in Hin.
        apply orb_true_iff in Hin as [Hin | Hin]; [| apply Hlead, Hin].
        apply Ascii.eqb_eq in Hin. subst c'. exact Hc. }
      destruct cur as [| k ks]; cbn [TextFiles.truthy_str].
      * exists (String c lead), pairs.
        split; [| split; [exact Hgap | split; [| split; assumption]]].
        -- change (String c rest = String c (lead +:+ spaced_text pairs)).
           rewrite Heq. reflexivity.
        -- intros Hne. destruct Hne. reflexivity.
      * exists EmptyString, ((String k ks, String c lead) :: pairs).
        split; [| split; [| split; [| split]]].
        -- change (String k ks +:+ String c rest
                   = String k ks +:+ String c (lead +:+ spaced_text pairs)).
           rewrite Heq. reflexivity.
        -- intros c' Hin. discriminate.
        -- reflexivity.
        -- cbn [well_gapped]. split; [discriminate |]. split; [exact Hcur |].
           split; [exact Hgap |]. split; [intros _; discriminate | exact Hgaps].
        -- cbn [map fst]. rewrite Hwords. reflexivity.
    + destruct (IH (cur +:+ String c EmptyString))
        as (lead & pairs & Heq & Hlead & Hnil & Hgaps & Hwords).
      { intros c' Hin. rewrite has_char_append in Hin.
        apply orb_true_iff in Hin as [Hin | Hin]; [apply Hcur, Hin |].
        cbn [has_char] in Hin. rewrite orb_false_r in Hin.
        apply Ascii.eqb_eq in Hin. subst c'. exact Hc. }
      assert (Hlead0 : lead = EmptyString).
      { apply Hnil. destruct cur; discriminate. }
      exists lead, pairs.
      split; [| split; [exact Hlead | split; [| split; assumption]]].
      * rewrite <- Heq, <- append_assoc_string. reflexivity.
      * intros _. exact Hlead0.
Qed.

Lemma split_ws_gaps (text : string) :
  exists lead pairs,
    text = lead +:+ spaced_text pairs
    /\ all_space lead
    /\ well_gapped pairs
    /\ TextFiles.split_ws text = map fst pairs.
Proof.
  destruct (words_from_gaps text EmptyString)
    as (lead & pairs & Heq & Hlead & _ & Hgaps & Hwords).
  { intros c Hin. discriminate. }
  exists lead, pairs. repeat split; assumption.
Qed.

(** X21: when a file of annotation paths is given, the paths returned
    are the words of that file, in order: the file's text is some
    white space, then every returned path followed by white space, the
    white space between two paths not being empty; no returned path is
    empty or holds white space.  The directory, the id file and the
    extension play no part. *)
Theorem annpaths_from_list (R : TextFiles.Reader)
    (ann_dir_path ann_ids_path : option string) (ext annpaths_list_path : string)
    (paths : list string) :
  TextFiles.get_annpaths R ann_dir_path ann_ids_path ext
    (Some annpaths_list_path) = Ok paths ->
  exists text lead pairs,
    TextFiles.read_file R annpaths_list_path = Ok text
    /\ text = lead +:+ spaced_text pairs
    /\ all_space lead
    /\ well_gapped pairs
    /\ paths = map fst pairs.
Proof.
  intros Hrun. unfold TextFiles.get_annpaths in Hrun.
  step_bind Hrun as text Htext. injection Hrun as <-.
  destruct (split_ws_gaps text) as (lead & pairs & Heq & Hlead & Hgaps & Hwords).
  exists text, lead, pairs. repeat split; assumption.
Qed.

Lemma annpaths_from_list_witness :
  exists text lead pairs,
    TextFiles.read_file DemoText.two_files "ids.txt" = Ok text
    /\ text = lead +:+ spaced_text pairs
    /\ all_space lead
    /\ well_gapped pairs
    /\ ["a1"; "a2"; "/abs/a3"] = map fst pairs.
Proof.
  apply (annpaths_from_list DemoText.two_files (Some "ann") None "xml"
           "ids.txt").
  reflexivity.
Defined.

Lemma join_all_map (d ext_with_dot : string) (ann_ids : list string) :
  forall paths : list string,
    TextFiles.join_all (Some d) ext_with_dot ann_ids = Ok paths ->
    paths = map (fun aid => TextFiles.path_join d (aid +:+ ext_with_dot)) ann_ids.
Proof.
  induction ann_ids as [| aid ann_ids IH]; intros paths Hrun;
    cbn [TextFiles.join_all Py.bind] in Hrun.
  - injection Hrun as <-. reflexivity.
  - step_bind Hrun as ps Hps. injection Hrun as <-.
    cbn [map]. f_equal. apply IH. reflexivity.
Qed.

Lemma ends_with_slash (d : string) :
  Converter.ends_with "/" d = true <-> exists d', d = d' +:+ "/".
Proof.
  induction d as [| c r IH].
  - split; [discriminate |]. intros [d' Heq]. destruct d'; discriminate.
  - destruct r as [| c2 r2].
    + unfold Converter.ends_with. cbn.
      destruct (Ascii.eqb c "/") eqn:Hc.
      * apply Ascii.eqb_eq in Hc. subst c.
        split; [| reflexivity]. intros _. exists EmptyString. reflexivity.
      * split; [discriminate |].
        intros [d' Heq]. destruct d' as [| k [| k2 d2]]; try discriminate.
        injection Heq as ->. rewrite Ascii.eqb_refl in Hc. discriminate.
    + assert (Hstep : Converter.ends_with "/" (String c (String c2 r2))
                      = Converter.ends_with "/" (String c2 r2)).
      { unfold Converter.ends_with. cbn [String.length Nat.leb Nat.sub andb].
        rewrite !Nat.sub_0_r. reflexivity. }
      rewrite Hstep, IH. split.
      * intros [d' ->]. exists (String c d'). reflexivity.
      * intros [d' Heq]. destruct d' as [| k d'']; [discriminate |].
        injection Heq as -> Heq. exists d''. exact Heq.
Qed.

Lemma path_join_cases (d aid e : string) :
  aid <> EmptyString ->
  ((exists r, aid = String "/" r) -> TextFiles.path_join d (aid +:+ e) = aid +:+ e)
  /\ ((forall r, aid <> String "/" r) ->
      d = EmptyString \/ (exists d', d = d' +:+ "/") ->
      TextFiles.path_join d (aid +:+ e) = d +:+ aid +:+ e)
  /\ ((forall r, aid <> String "/" r) ->
      d <> EmptyString -> (forall d', d <> d' +:+ "/") ->
      TextFiles.path_join d (aid +:+ e) = d +:+ "/" +:+ aid +:+ e).
Proof.
  intros Hne. destruct aid as [| k ks]; [contradiction |].
  unfold TextFiles.path_join.
  change (String k ks +:+ e) with (String k (ks +:+ e)).
  cbn [String.prefix].
  destruct (Ascii.ascii_dec "/" k) as [<- | Hk].
  - destruct (ks +:+ e); (split; [reflexivity |]);
      split; intros Hrel; destruct (Hrel ks eq_refl).
  - assert (Hrel : ~ exists r, String k ks = String "/" r).
    { intros [r Heq]. injection Heq as Heq _. congruence. }
    split; [intros Habs; destruct (Hrel Habs) |].
    split.
    + intros _ [-> | Hslash]; [reflexivity |].
      apply ends_with_slash in Hslash. rewrite Hslash, orb_true_r. reflexivity.
    + intros _ Hd Hslash.
      destruct d as [| dk ds]; [contradiction |]. cbn [TextFiles.truthy_str negb orb].
      destruct (Converter.ends_with "/" (String dk ds)) eqn:Hends; [| reflexivity].
      apply ends_with_slash in Hends as [d' Heq]. destruct (Hslash d' Heq).
Qed.

(** X22: when no file of annotation paths is given, a call that
    returns has read the id file, whose text is some white space and
    then every id followed by white space, and returns one path for
    every id, in order: the id with the extension (after a dot, when
    the extension is not empty) when the id starts with ['/'], whatever
    the directory; otherwise the directory, the id and the extension
    when the directory is empty or ends in ['/'], and the directory, a
    ['/'], the id and the extension when it does not. *)
Theorem annpaths_from_ids (R : TextFiles.Reader) (ann_dir_path : string)
    (ann_ids_path : option string) (ext : string) (paths : list string) :
  TextFiles.get_annpaths R (Some ann_dir_path) ann_ids_path ext None
  = Ok paths ->
  exists ids_path text lead pairs,
    ann_ids_path = Some ids_path
    /\ TextFiles.read_file R ids_path = Ok text
    /\ text = lead +:+ spaced_text pairs
    /\ all_space lead
    /\ well_gapped pairs
    /\ Forall2
         (fun aid p =>
            let tail := aid +:+ match ext with
                                | EmptyString => EmptyString
                                | String _ _ => "." +:+ ext
                                end in
            ((exists r, aid = String "/" r) -> p = tail)
            /\ ((forall r, aid <> String "/" r) ->
                ann_dir_path = EmptyString
                \/ (exists d', ann_dir_path = d' +:+ "/") ->
                p = ann_dir_path +:+ tail)
            /\ ((forall r, aid <> String "/" r) ->
                ann_dir_path <> EmptyString ->
                (forall d', ann_dir_path <> d' +:+ "/") ->
                p = ann_dir_path +:+ "/" +:+ tail))
         (map fst pairs) paths.
Proof.
  intros Hrun. unfold TextFiles.get_annpaths in Hrun.
  destruct ann_ids_path as [ids_path |]; cbn [TextFiles.read_opt Py.bind] in Hrun;
    [| discriminate].
  step_bind Hrun as text Htext.
  destruct (split_ws_gaps text) as (lead & pairs & Heq & Hlead & Hgaps & Hwords).
  exists ids_path, text, lead, pairs.
  split; [reflexivity |]. split; [exact Htext |]. split; [exact Heq |].
  split; [exact Hlead |]. split; [exact Hgaps |].
  apply join_all_map in Hrun. rewrite Hwords in Hrun. subst paths.
  assert (Hext : (if TextFiles.truthy_str ext then "." +:+ ext else EmptyString)
                 = match ext with
                   | EmptyString => EmptyString
                   | String _ _ => "." +:+ ext
                   end).
  { destruct ext; reflexivity. }
  rewrite Hext. clear Heq Hwords Hext.
  induction pairs as [| [w g] pairs IH]; cbn [map fst]; [constructor |].
  cbn [well_gapped] in Hgaps. destruct Hgaps as (Hw & _ & _ & _ & Hgaps).
  constructor; [| exact (IH Hgaps)].
  cbv zeta. exact (path_join_cases ann_dir_path w _ Hw).
Qed.

Lemma annpaths_from_ids_witness :
  exists ids_path text lead pairs,
    Some "ids.txt" = Some ids_path
    /\ TextFiles.read_file DemoText.two_files ids_path = Ok text
    /\ text = lead +:+ spaced_text pairs
    /\ all_space lead
    /\ well_gapped pairs
    /\ Forall2
         (fun aid p =>
            let tail := aid +:+ match "xml" with
                                | EmptyString => EmptyString
                                | String _ _ => "." +:+ "xml"
                                end in
            ((exists r, aid = String "/" r) -> p = tail)
            /\ ((forall r, aid <> String "/" r) ->
                "ann" = EmptyString \/ (exists d', "ann" = d' +:+ "/") ->
                p = "ann" +:+ tail)
            /\ ((forall r, aid <> String "/" r) ->
                "ann" <> EmptyString ->
                (forall d', "ann" <> d' +:+ "/") ->
                p = "ann" +:+ "/" +:+ tail))
         (map fst pairs) ["ann/a1.xml"; "ann/a2.xml"; "/abs/a3.xml"].
Proof.
  apply (annpaths_from_ids DemoText.two_files "ann" (Some "ids.txt") "xml"
           ["ann/a1.xml"; "ann/a2.xml"; "/abs/a3.xml"]).
  reflexivity.
Defined.

(** *** The document of the reorganizer *)

Section Document.

Variable H : Converter.Host.
Variable meta : Converter.DataFormatConverterMetadata.

Lemma image_coco_loop_shape (image_new_map : gmap (list string) (list string))
    (imgs : list (list string)) :
  forall (indx : nat) (image_coco : list image_info)
         (image_id_map : gmap (list string) Z)
         (r : list image_info * gmap (list string) Z),
    Converter.image_coco_loop meta image_new_map imgs indx image_coco
      image_id_map = Ok r ->
    exists added,
      fst r = image_coco ++ added
      /\ map img_id added = range_from (Z.of_nat indx + 1) (length imgs)
      /\ Forall (fun i => height i = fst (Converter.image_size meta)
                          /\ width i = snd (Converter.image_size meta)) added
      /\ (forall k v, snd r !! k = Some v ->
                      image_id_map !! k = Some v
                      \/ Z.of_nat indx + 1 <= v
                         <= Z.of_nat indx + Z.of_nat (length imgs)).
Proof.
  induction imgs as [| image imgs IH];
    intros indx image_coco image_id_map r Hrun;
    cbn [Converter.image_coco_loop] in Hrun.
  - injection Hrun as <-. exists []. rewrite app_nil_r. cbn [fst snd].
    repeat split; [constructor |]. intros k v Hk. left. exact Hk.
  - step_bind Hrun as new Hnew.
    destruct (IH _ _ _ _ Hrun) as (added & Hfst & Hids & Hsizes & Hmap).
    eexists (_ :: added). rewrite Hfst, <- app_assoc.
    split; [reflexivity |].
    cbn [map img_id length range_from]. split.
    + rewrite Hids. do 2 f_equal. lia.
    + split.
      * constructor; [split; reflexivity | exact Hsizes].
      * intros k v Hk. destruct (Hmap k v Hk) as [Hins | Hrange]; [| right; lia].
        destruct (decide (k = image)) as [-> | Hne].
        -- rewrite lookup_insert_eq in Hins. injection Hins as <-. right. lia.
        -- rewrite lookup_insert_ne in Hins by congruence. left. exact Hins.
Qed.

Lemma box_loop_added (label image : Z) (bboxes : list (Z * Z * Z * Z)) :
  forall (tracker : Z) (acc : list annotation),
    exists new,
      snd (Converter.box_loop label image bboxes tracker acc) = acc ++ new
      /\ length new = length bboxes
      /\ Forall (fun a => image_id a = image) new.
Proof.
  induction bboxes as [| [[[x y] w] h] bboxes IH]; intros tracker acc;
    cbn [Converter.box_loop].
  - exists []. rewrite app_nil_r. repeat split. constructor.
  - destruct (IH (tracker + 1) (acc ++
      [{| core := {| area := Converter.wrap32 (w * h); iscrowd := 0;
                     bbox := [x; y; w; h]; category_id := label;
                     ignore := 0; segmentation := [] |};
          image_id := image; id := tracker |}]))
      as (new & Hnew & Hlen & Hall).
    eexists (_ :: new). rewrite Hnew, <- app_assoc.
    split; [reflexivity |]. cbn [length]. split; [lia |].
    constructor; [reflexivity | exact Hall].
Qed.

Lemma label_loop_added (image : Z)
    (annotation : list (Z * list (Z * Z * Z * Z))) :
  forall (tracker : Z) (acc : list Utils.annotation),
    exists new,
      snd (Converter.label_loop image annotation tracker acc) = acc ++ new
      /\ length new = length (flat_map snd annotation)
      /\ Forall (fun a => image_id a = image) new.
Proof.
  induction annotation as [| [label bboxes] annotation IH]; intros tracker acc;
    cbn [Converter.label_loop flat_map snd].
  - exists []. rewrite app_nil_r. repeat split. constructor.
  - destruct (box_loop_added label image bboxes tracker acc)
      as (new1 & Hnew1 & Hlen1 & Hall1).
    destruct (IH (fst (Converter.box_loop label image bboxes tracker acc))
                (snd (Converter.box_loop label image bboxes tracker acc)))
      as (new2 & Hnew2 & Hlen2 & Hall2).
    exists (new1 ++ new2). rewrite Hnew2, Hnew1, <- app_assoc.
    split; [reflexivity |]. rewrite !length_app, Hlen1, Hlen2.
    split; [reflexivity |]. apply Forall_app. split; assumption.
Qed.

Lemma annotation_coco_loop_added (P : Z -> Prop)
    (image_id_map : gmap (list string) Z)
    (items : list (list string * list (Z * list (Z * Z * Z * Z)))) :
  (forall k v, image_id_map !! k = Some v -> P v) ->
  forall acc out : list annotation,
    Converter.annotation_coco_loop image_id_map items acc = Ok out ->
    exists new,
      out = acc ++ new
      /\ length new
         = length (flat_map (fun item => flat_map snd (snd item)) items)
      /\ Forall (fun a => P (image_id a)) new.
Proof.
  intros Hmap.
  induction items as [| [image annotation] items IH]; intros acc out Hrun;
    cbn [Converter.annotation_coco_loop] in Hrun.
  - injection Hrun as <-. exists []. rewrite app_nil_r.
    repeat split. constructor.
  - destruct (image_id_map !! image) as [i |] eqn:Hi;
      cbn [Py.bind] in Hrun; [| discriminate].
    destruct (IH _ _ Hrun) as (new2 & -> & Hlen2 & Hall2).
    destruct (label_loop_added i annotation 1 acc)
      as (new1 & -> & Hlen1 & Hall1).
    exists (new1 ++ new2). rewrite <- app_assoc. split; [reflexivity |].
    cbn [flat_map snd]. rewrite !length_app, Hlen1, Hlen2.
    split; [reflexivity |]. apply Forall_app. split; [| exact Hall2].
    eapply Forall_impl; [exact Hall1 |].
    intros a ->. exact (Hmap _ _ Hi).
Qed.

End Document.

(** X23: the document the reorganizer builds has one image entry for
    every image of the annotation map, with the ids 1, 2, ... in order
    and the height and width of the metadata, one annotation for every
    box of every image, and every annotation names the id of one of the
    image entries. *)
Theorem coco_document_shape (H : Converter.Host)
    (meta : Converter.DataFormatConverterMetadata)
    (image_annotation_map : list (list string * list (Z * list (Z * Z * Z * Z))))
    (image_new_map : gmap (list string) (list string)) (doc : Converter.coco) :
  Converter.build_coco H meta image_annotation_map image_new_map = Ok doc ->
  map img_id (Converter.images doc)
  = range_from 1 (length image_annotation_map)
  /\ Forall (fun i => height i = fst (Converter.image_size meta)
                      /\ width i = snd (Converter.image_size meta))
       (Converter.images doc)
  /\ length (Converter.annotations doc)
     = length (flat_map (fun item => flat_map snd (snd item))
                 image_annotation_map)
  /\ Forall (fun a => In (image_id a) (map img_id (Converter.images doc)))
       (Converter.annotations doc).
Proof.
  intros Hrun. unfold Converter.build_coco in Hrun.
  step_bind Hrun as r Hr. step_bind Hrun as annotation_coco Hanns.
  injection Hrun as <-. cbn [Converter.images Converter.annotations].
  destruct (image_coco_loop_shape meta _ _ _ _ _ _ Hr)
    as (added & Hfst & Hids & Hsizes & Hmap).
  cbn [app] in Hfst. rewrite length_map in Hids, Hmap.
  rewrite Hfst, Hids.
  destruct (annotation_coco_loop_added
              (fun v => 1 <= v <= Z.of_nat (length image_annotation_map))
              (snd r) image_annotation_map) with (acc := @nil annotation)
              (out := annotation_coco)
    as (new & -> & Hlen & Hall).
  { intros k v Hk. destruct (Hmap k v Hk) as [Hempty | Hrange].
    - rewrite lookup_empty in Hempty. discriminate.
    - cbn in Hrange. lia. }
  { exact Hanns. }
  cbn [app]. repeat split; [exact Hsizes | exact Hlen |].
  eapply Forall_impl; [exact Hall |].
  intros a Hrange. cbn beta in Hrange.
  generalize (length image_annotation_map) (image_id a) Hrange.
  clear. intros n.
  assert (Hgen : forall lo v, lo <= v < lo + Z.of_nat n -> In v (range_from lo n)).
  { induction n as [| n IH]; intros lo v Hv; [lia |].
    cbn [range_from]. destruct (decide (v = lo)) as [-> | Hne];
      [left; reflexivity |].
    right. apply IH. lia. }
  intros v Hv. apply Hgen. lia.
Qed.

Lemma coco_document_shape_witness :
  exists doc,
    Converter.build_coco DemoSynthetic.sound_host DemoSynthetic.meta
      DemoSynthetic.two_image_map DemoSynthetic.two_image_new_map = Ok doc
    /\ map img_id (Converter.images doc) = range_from 1 2
    /\ Forall (fun i => height i = 512 /\ width i = 512) (Converter.images doc)
    /\ length (Converter.annotations doc) = 2%nat
    /\ Forall (fun a => In (image_id a) (map img_id (Converter.images doc)))
         (Converter.annotations doc).
Proof.
  eexists. split; [reflexivity |].
  apply (coco_document_shape DemoSynthetic.sound_host DemoSynthetic.meta
           DemoSynthetic.two_image_map DemoSynthetic.two_image_new_map).
  reflexivity.
Defined.

(** *** Label files *)

Lemma labels_to_boxes_files (H : Converter.Host)
    (meta : Converter.DataFormatConverterMetadata) (fs : Converter.FS)
    (image_dir : list string) (labels : list string) :
  forall (indx : nat) (bboxes out : list (Z * list (Z * Z * Z * Z))),
    Converter.labels_to_boxes H meta fs image_dir labels indx bboxes = Ok out ->
    length out = (length bboxes + length labels)%nat
    /\ Forall (fun label =>
                 (exists data,
                    fs !! Converter.label_file image_dir label
                    = Some (Converter.File data))
                 \/ (label = "fruits"
                     /\ fs !! Converter.label_file image_dir label = None
                     /\ exists data,
                          fs !! Converter.label_file image_dir "clusters"
                          = Some (Converter.File data))) labels.
Proof.
  induction labels as [| label labels IH]; intros indx bboxes out Hrun;
    cbn [Converter.labels_to_boxes] in Hrun.
  - injection Hrun as <-. split; [cbn; lia | constructor].
  - step_bind Hrun as p Hp. step_bind Hrun as data Hdata.
    step_bind Hrun as coords Hcoords.
    destruct (IH _ _ _ Hrun) as [Hlen Hall].
    rewrite length_app in Hlen. cbn [length] in Hlen |- *.
    split; [lia |]. constructor; [| exact Hall].
    unfold Converter.read_text in Hdata.
    unfold Converter.locate_label_file, Converter.path_exists in Hp.
    destruct (fs !! Converter.label_file image_dir label) as [n |] eqn:Hfile.
    + injection Hp as <-. rewrite Hfile in Hdata.
      destruct n as [d |]; [| discriminate]. left. exists d. reflexivity.
    + destruct (String.eqb label "fruits") eqn:Hfruits; [| discriminate].
      apply String.eqb_eq in Hfruits. subst label.
      destruct (fs !! Converter.label_file image_dir "clusters") as [n |] eqn:Hc;
        [| discriminate].
      injection Hp as <-. rewrite Hc in Hdata.
      destruct n as [d |]; [| discriminate].
      right. repeat split. exists d. reflexivity.
Qed.

(** X24: the label reader of the reorganizer returns one list of boxes
    for every label of the metadata, and it returns only when every
    label has its label file in the image directory as a regular file;
    for the label [fruits] alone the file of [clusters] is taken when
    its own file is missing. *)
Theorem label_files_needed (H : Converter.Host)
    (meta : Converter.DataFormatConverterMetadata) (fs : Converter.FS)
    (image_dir : list string) (out : list (Z * list (Z * Z * Z * Z))) :
  Converter._convert_text_files_to_object_annotations H meta fs image_dir
  = Ok out ->
  length out = length (Converter.labels meta)
  /\ Forall (fun label =>
               (exists data,
                  fs !! Converter.label_file image_dir label
                  = Some (Converter.File data))
               \/ (label = "fruits"
                   /\ fs !! Converter.label_file image_dir label = None
                   /\ exists data,
                        fs !! Converter.label_file image_dir "clusters"
                        = Some (Converter.File data)))
       (Converter.labels meta).
Proof.
  intros Hrun.
  exact (labels_to_boxes_files H meta fs image_dir _ 0 [] out Hrun).
Qed.

Lemma label_files_needed_witness :
  length [(1, [(0, 0, 10, 10)])] = length (Converter.labels DemoSynthetic.meta)
  /\ Forall (fun label =>
               (exists data,
                  DemoSynthetic.source_tree
                    !! Converter.label_file (DemoSynthetic.view "image0") label
                  = Some (Converter.File data))
               \/ (label = "fruits"
                   /\ DemoSynthetic.source_tree
                        !! Converter.label_file (DemoSynthetic.view "image0")
                             label = None
                   /\ exists data,
                        DemoSynthetic.source_tree
                          !! Converter.label_file (DemoSynthetic.view "image0")
                               "clusters"
                        = Some (Converter.File data)))
       (Converter.labels DemoSynthetic.meta).
Proof.
  apply (label_files_needed DemoSynthetic.sound_host DemoSynthetic.meta
           DemoSynthetic.source_tree (DemoSynthetic.view "image0")
           [(1, [(0, 0, 10, 10)])]).
  vm_compute. reflexivity.
Defined.

(** *** A conversion that completes *)

Section Completed.

Import Converter.

Variable H : Host.
Variable meta : DataFormatConverterMetadata.

Lemma iobind_ok {A B : Type} (m : io A) (k : A -> io B) (fs fs' : FS) (b : B) :
  iobind m k fs = (Ok b, fs') ->
  exists a fs1, m fs = (Ok a, fs1) /\ k a fs1 = (Ok b, fs').
Proof.
  unfold iobind. intros Hrun.
  destruct (m fs) as [[a | e] fs1]; [| discriminate].
  exists a, fs1. split; [reflexivity | exact Hrun].
Qed.







Lemma rmtree_ok (p : list string) (fs fs' : FS) (u : unit) :
  rmtree p fs = (Ok u, fs') ->
  fs' = filter (fun kv : list string * node => ~ p `prefix_of` kv.1) fs.
Proof.
  unfold rmtree. intros Hrun.
  destruct (fs !! p) as [[d |] |]; try discriminate.
  injection Hrun as _ <-. reflexivity.
Qed.

Lemma rmtree_each_post (dirs : list string) :
  forall (fs fs' : FS) (u : unit),
    rmtree_each meta dirs fs = (Ok u, fs') ->
    (forall d q, In d dirs -> (path meta ++ [d]) `prefix_of` q ->
                 fs' !! q = None)
    /\ (forall q, (forall d, In d dirs -> ~ (path meta ++ [d]) `prefix_of` q) ->
                  fs' !! q = fs !! q)
    /\ (forall q, fs !! q = None -> fs' !! q = None).
Proof.
  induction dirs as [| dir_ dirs IH]; intros fs fs' u Hrun;
    cbn [rmtree_each] in Hrun.
  - injection Hrun as _ <-. split; [intros d q [] |].
    split; [reflexivity | intros q Hq; exact Hq].
  - apply iobind_ok in Hrun as (u1 & fs1 & Hrm & Hrun).
    apply rmtree_ok in Hrm. subst fs1.
    destruct (IH _ _ _ Hrun) as (Hgone & Hkept & Hnone).
    split; [| split].
    + intros d q [<- | Hin] Hpre.
      * apply Hnone. apply lookup_rmtree_gone. exact Hpre.
      * exact (Hgone d q Hin Hpre).
    + intros q Hout. rewrite Hkept.
      * apply lookup_rmtree_kept. apply Hout. left. reflexivity.
      * intros d Hin. apply Hout. right. exact Hin.
    + intros q Hq. apply Hnone. apply map_lookup_filter_None_2. left. exact Hq.
Qed.

Lemma numbered_dirs_selected (dirs : list string) :
  forall selected : list string,
    numbered_dirs dirs = Ok selected ->
    forall d, In d selected <-> In d dirs /\ ends_in_digit d.
Proof.
  induction dirs as [| dir_ dirs IH]; intros selected Hrun;
    cbn [numbered_dirs] in Hrun.
  - injection Hrun as <-. intros d. split; [intros [] | intros [[] _]].
  - destruct (last_char dir_) as [c |] eqn:Hlast; [| discriminate].
    step_bind Hrun as ds Hds. injection Hrun as <-.
    specialize (IH ds eq_refl). intros d.
    destruct (isdigit c) eqn:Hc.
    + split.
      * intros [<- | Hin].
        -- split; [left; reflexivity |]. exists c. split; assumption.
        -- apply IH in Hin as [Hin Hd]. split; [right; exact Hin | exact Hd].
      * intros [[<- | Hin] Hd]; [left; reflexivity |].
        right. apply IH. split; assumption.
    + split.
      * intros Hin. apply IH in Hin as [Hin Hd].
        split; [right; exact Hin | exact Hd].
      * intros [[<- | Hin] Hd].
        -- destruct Hd as (c' & Hlast' & Hc'). congruence.
        -- apply IH. split; assumption.
Qed.

Lemma child_prefix (l : list string) (d c : string) (rest : list string) :
  (l ++ [d]) `prefix_of` (l ++ c :: rest) -> d = c.
Proof.
  intros [k Heq]. rewrite <- app_assoc in Heq. apply app_inv_head in Heq.
  cbn [app] in Heq. congruence.
Qed.

End Completed.



(** X26: when the whole call completes on an object-detection dataset,
    every directory that the listing of the dataset directory names
    and whose name ends in a digit is gone with everything below it,
    while [annotations.json], the image directory with its content, and
    every path that is below none of the listed directories hold what
    the conversion left there. *)
Theorem completed_call_removes_numbered_dirs (H : Converter.Host)
    (meta : Converter.DataFormatConverterMetadata) (fs fs' : Converter.FS) :
  Converter.annotation_type meta = "object_detection" ->
  Converter.convert H meta fs = (Ok tt, fs') ->
  exists fs1 dirs,
    Converter._convert_object_detection_dataset H meta fs = (Ok tt, fs1)
    /\ Converter.get_dir_list H fs1 (Converter.path meta) = Ok dirs
    /\ (forall d q, In d dirs -> ends_in_digit d ->
                    (Converter.path meta ++ [d]) `prefix_of` q ->
                    fs' !! q = None)
    /\ fs' !! Converter.json_path meta = fs1 !! Converter.json_path meta
    /\ (forall q, Converter.images_dir meta `prefix_of` q ->
                  fs' !! q = fs1 !! q)
    /\ (forall q,
          (forall d, In d dirs -> ~ (Converter.path meta ++ [d]) `prefix_of` q) ->
          fs' !! q = fs1 !! q).
Proof.
  intros Htype Hcall. unfold Converter.convert in Hcall.
  rewrite Htype in Hcall. cbn [String.eqb Ascii.eqb Bool.eqb] in Hcall.
  destruct (Converter._convert_object_detection_dataset H meta fs)
    as [[[] | e] fs1] eqn:Hrun.
  2:{ destruct (Converter._cleanup_failed_object_detection_conversion meta fs1)
        as [[[] | e'] fs2]; discriminate. }
  exists fs1.
  unfold Converter._remove_existing_image_dirs in Hcall.
  apply iobind_ok in Hcall as (selected & fsa & Hlist & Heach).
  unfold Converter.reading in Hlist. injection Hlist as Hlist <-.
  step_bind Hlist as dirs Hdirs. exists dirs.
  pose proof (numbered_dirs_selected dirs selected Hlist) as Hsel.
  destruct (rmtree_each_post meta selected fs1 fs' tt Heach)
    as (Hgone & Hkept & _).
  assert (Hchild : forall c rest,
             (forall ch, Converter.last_char c = Some ch -> isdigit ch = false) ->
             fs' !! (Converter.path meta ++ c :: rest)
             = fs1 !! (Converter.path meta ++ c :: rest)).
  { intros c rest Hc. apply Hkept. intros d Hin Hpre.
    apply child_prefix in Hpre. subst d.
    apply Hsel in Hin as [_ (ch & Hlast & Hdigit)].
    rewrite (Hc ch Hlast) in Hdigit. discriminate. }
  split; [reflexivity |]. split; [reflexivity |].
  split; [| split; [| split]].
  - intros d q Hin Hd Hpre. apply (Hgone d q); [| exact Hpre].
    apply Hsel. split; assumption.
  - apply (Hchild "annotations.json" []).
    intros ch Hlast. vm_compute in Hlast. injection Hlast as <-. reflexivity.
  - intros q [k ->]. unfold Converter.images_dir. rewrite <- app_assoc.
    apply (Hchild "images" k).
    intros ch Hlast. vm_compute in Hlast. injection Hlast as <-. reflexivity.
  - intros q Hout. apply Hkept. intros d Hin. apply Hout.
    apply Hsel in Hin as [Hin _]. exact Hin.
Qed.

Lemma completed_call_removes_numbered_dirs_witness :
  let fs' := snd (Converter.convert DemoSynthetic.sound_host
                    DemoSynthetic.meta DemoSynthetic.source_tree) in
  fs' !! ["data"; "image0"; "view0"; "RGB_rendering.jpeg"] = None
  /\ fs' !! ["data"; "images"; "image0-view0.jpeg"]
     = Some (Converter.File "jpeg0")
  /\ exists fs1 dirs,
       Converter._convert_object_detection_dataset DemoSynthetic.sound_host
         DemoSynthetic.meta DemoSynthetic.source_tree = (Ok tt, fs1)
       /\ Converter.get_dir_list DemoSynthetic.sound_host fs1
            (Converter.path DemoSynthetic.meta) = Ok dirs
       /\ (forall d q, In d dirs -> ends_in_digit d ->
                       (Converter.path DemoSynthetic.meta ++ [d]) `prefix_of` q ->
                       fs' !! q = None)
       /\ fs' !! Converter.json_path DemoSynthetic.meta
          = fs1 !! Converter.json_path DemoSynthetic.meta
       /\ (forall q, Converter.images_dir DemoSynthetic.meta `prefix_of` q ->
                     fs' !! q = fs1 !! q)
       /\ (forall q,
             (forall d, In d dirs ->
                        ~ (Converter.path DemoSynthetic.meta ++ [d])
                            `prefix_of` q) ->
             fs' !! q = fs1 !! q).
Proof.
  cbv zeta.
  split; [vm_compute; reflexivity |].
  split; [vm_compute; reflexivity |].
  apply (completed_call_removes_numbered_dirs DemoSynthetic.sound_host
           DemoSynthetic.meta DemoSynthetic.source_tree
           (snd (Converter.convert DemoSynthetic.sound_host DemoSynthetic.meta
                   DemoSynthetic.source_tree))).
  - reflexivity.
  - etransitivity; [apply surjective_pairing |].
    f_equal.
Defined.
